(** * AccessManager: device access control core

    A shallow embedding of the backend routes that decide who is online:
    [routes/auth.js] (login, refresh, logout), [routes/devices.js]
    (detail, rename, disconnect, delete, history), the emergency
    [disconnect-all] route of [routes/network.js] and the iptables driver
    [services/networkService.js].

    The relational store is a record of tables (lists of rows), the packet
    filter a record of chains (lists of rules), and every handler is a
    computation in a small state-and-exception monad over both.  A ghost
    trace records each mutating primitive in the order the handler awaits
    it, so that statements about ordering can be made. *)

From Stdlib Require Import String Ascii List ZArith Bool Lia.
From Stdlib Require Import Permutation Sorted.
From Stdlib Require DecimalString.
Import ListNotations.

Local Open Scope string_scope.
Local Open Scope list_scope.

(** ** Rows of the store (the Prisma models the handlers touch) *)

Module User.
Record t := mk
  { id : nat; email : string; username : string; password : string;
    isActive : bool; isAdmin : bool }.
End User.

Module Device.
Record t := mk
  { id : nat; macAddress : string; ipAddress : string; deviceName : string;
    userAgent : option string; userId : nat; lastSeen : Z; isActive : bool }.
End Device.

Module Session.
Record t := mk
  { id : nat; refreshToken : string; userId : nat; expiresAt : Z;
    isActive : bool }.
End Session.

Module Connection.
Record t := mk
  { id : nat; userId : nat; deviceId : nat; ipAddress : string;
    startTime : Z; endTime : option Z; isActive : bool }.
End Connection.

Inductive AuditDetails :=
| NoDetails
| DeviceDetails (deviceId : nat) (macAddress : string)
| DisconnectedDevices (n : nat).

Module AuditLog.
Record t := mk
  { action : string; userId : nat; ipAddress : string;
    userAgent : option string; details : AuditDetails }.
End AuditLog.

Record Db := mkDb
  { users : list User.t;
    devices : list Device.t;
    sessions : list Session.t;
    connections : list Connection.t;
    auditLogs : list AuditLog.t;
    nextId : nat }.

(** ** The packet filter *)

Inductive Chain := FORWARD | NAT_PREROUTING | NAT_POSTROUTING.

(** A rule is what follows the chain name on the iptables command line. *)
Inductive Rule :=
| MacSource (mac : string)            (* -m mac --mac-source MAC -j ACCEPT *)
| Source (ip : string)                (* -s IP -j ACCEPT *)
| InInterface (i : string)            (* -i IF -j ACCEPT *)
| OutInterface (o : string)           (* -o IF -j ACCEPT *)
| StateMatch (states : string)        (* -m state --state S -j ACCEPT *)
| DPort (proto : string) (port : string) (* -p P --dport N -j ACCEPT *)
| DropAll                             (* -j DROP *)
| Masquerade (o : string)             (* -o IF -j MASQUERADE *)
| Between (i o : string) (states : option string) (* -i A -o B [...] -j ACCEPT *)
| DnatTo (proto port dest : string).  (* -p P --dport N -j DNAT --to-destination D *)

Inductive Command :=
| IptFlush (c : Chain)                (* iptables -F C *)
| IptInsert (c : Chain) (r : Rule)    (* iptables -I C r *)
| IptAppend (c : Chain) (r : Rule)    (* iptables -A C r *)
| IptDeleteQuiet (c : Chain) (r : Rule) (* iptables -D C r 2>/dev/null || true *)
| IptCheck (c : Chain) (r : Rule)     (* iptables -C C r 2>/dev/null *)
| IptList (c : Chain)                 (* iptables -L C -n -v *)
| EnableIpForward.                    (* echo 1 > /proc/sys/net/ipv4/ip_forward *)

Record Firewall := mkFw
  { forward : list Rule;
    natPrerouting : list Rule;
    natPostrouting : list Rule;
    ipForward : bool }.

Definition option_string_dec (a b : option string) : {a = b} + {a <> b}.
Proof. decide equality; apply string_dec. Defined.

Definition Rule_eq_dec (a b : Rule) : {a = b} + {a <> b}.
Proof.
  decide equality; try apply string_dec; apply option_string_dec.
Defined.

Definition Rule_eqb (a b : Rule) : bool :=
  if Rule_eq_dec a b then true else false.

Definition chain_of (f : Firewall) (c : Chain) : list Rule :=
  match c with
  | FORWARD => forward f
  | NAT_PREROUTING => natPrerouting f
  | NAT_POSTROUTING => natPostrouting f
  end.

Definition set_chain (f : Firewall) (c : Chain) (l : list Rule) : Firewall :=
  match c with
  | FORWARD => mkFw l (natPrerouting f) (natPostrouting f) (ipForward f)
  | NAT_PREROUTING => mkFw (forward f) l (natPostrouting f) (ipForward f)
  | NAT_POSTROUTING => mkFw (forward f) (natPrerouting f) l (ipForward f)
  end.

(** [iptables -D] removes the first rule equal to the given one. *)
Fixpoint delete_first (r : Rule) (l : list Rule) : list Rule :=
  match l with
  | [] => []
  | x :: t => if Rule_eqb r x then t else x :: delete_first r t
  end.

Definition has_rule (r : Rule) (l : list Rule) : bool :=
  existsb (Rule_eqb r) l.

(** The effect of a command line on the filter; [None] is a non-zero exit
    status, which [execAsync] turns into a rejected promise.  A command
    line that ends in [|| true] exits with status zero also when iptables
    itself gave up ([failed]) and left the chain as it was. *)
Definition run_command (failed : bool) (c : Command) (f : Firewall)
  : option Firewall :=
  match c with
  | IptFlush ch => Some (set_chain f ch [])
  | IptInsert ch r => Some (set_chain f ch (r :: chain_of f ch))
  | IptAppend ch r => Some (set_chain f ch (chain_of f ch ++ [r]))
  | IptDeleteQuiet ch r =>
      Some (if failed then f else set_chain f ch (delete_first r (chain_of f ch)))
  | IptCheck ch r => if has_rule r (chain_of f ch) then Some f else None
  | IptList _ => Some f
  | EnableIpForward =>
      Some (mkFw (forward f) (natPrerouting f) (natPostrouting f) true)
  end.

(** ** The world a handler runs in, and the ghost trace *)

Inductive Event :=
| EvExec (c : Command) (ok : bool)
| EvDeviceCreate (id : nat)
| EvDeviceUpdate (id : nat)
| EvDeviceUpdateMany
| EvDeviceDelete (id : nat)
| EvSessionCreate (id : nat)
| EvSessionUpdate (id : nat)
| EvSessionUpdateMany
| EvConnectionCreate (id : nat)
| EvConnectionUpdateMany
| EvAuditLog (action : string).

Record World := mkWorld
  { db : Db;
    fw : Firewall;
    trace : list Event }.

(** Exceptions a handler can see: Prisma's known request errors and a
    rejected [execAsync]. *)
Inductive Exn :=
| P2002            (* unique constraint failed *)
| P2025            (* record to update or delete not found *)
| PrismaValidation (* an argument the client refuses, such as a negative skip *)
| TypeError        (* a property read on null *)
| ExecError (c : Command).

Inductive Res (A : Type) :=
| Ret (a : A)
| Throw (e : Exn).
Arguments Ret {A} a.
Arguments Throw {A} e.

Definition M (A : Type) : Type := World -> Res A * World.

Definition ret {A} (a : A) : M A := fun w => (Ret a, w).

Definition bind {A B} (m : M A) (k : A -> M B) : M B :=
  fun w =>
    match m w with
    | (Ret a, w') => k a w'
    | (Throw e, w') => (Throw e, w')
    end.

Definition throw {A} (e : Exn) : M A := fun w => (Throw e, w).

(** [try { m } catch (error) { h }] *)
Definition try_catch {A} (m : M A) (h : Exn -> M A) : M A :=
  fun w =>
    match m w with
    | (Ret a, w') => (Ret a, w')
    | (Throw e, w') => h e w'
    end.

Declare Scope handler_scope.
Delimit Scope handler_scope with handler.
Notation "x <- m ;; k" := (bind m (fun x => k))
  (at level 100, m at next level, right associativity) : handler_scope.
Notation "m ;; k" := (bind m (fun _ => k))
  (at level 100, right associativity) : handler_scope.
Local Open Scope handler_scope.

Definition get_db : M Db := fun w => (Ret (db w), w).
Definition put_db (d : Db) : M unit :=
  fun w => (Ret tt, mkWorld d (fw w) (trace w)).
Definition log_event (e : Event) : M unit :=
  fun w => (Ret tt, mkWorld (db w) (fw w) (trace w ++ [e])).

(** ** What the handlers take from outside the repository *)

(** Library functions, process environment and host.
    [MAX_DEVICES_PER_USER] is what [parseInt] yields on the environment
    variable, [None] for [NaN].  [execFails] says for which command lines
    the promise of [execAsync] rejects whatever the filter holds (the
    child process cannot be run, or iptables gives up on a command line
    that passes its exit status on); [iptablesFails] says for which
    command lines iptables gives up without that showing in the exit
    status, which is what [2>/dev/null || true] does to a failed
    [iptables -D].  [sevenDaysLater] is [d.setDate(d.getDate() + 7)] on a
    clock reading: the same wall-clock time seven calendar days on in the
    time zone of the process, which is 604800000 ms later unless the
    offset of the zone changes in between.  [numberToString] is the text
    of a number in a template literal, asked for outside the safe
    integers only (from 2^53 on digits are rounded away, from 1e21 on the
    notation has an exponent). *)
Record Env := mkEnv
  { md5hex : string -> string;
    bcryptCompare : string -> string -> bool;
    jwtSign : string -> nat -> Z -> string;
    jwtVerify : string -> string -> Z -> option nat;
    JWT_SECRET : string;
    JWT_REFRESH_SECRET : string;
    MAX_DEVICES_PER_USER : option Z;
    execFails : Command -> bool;
    iptablesFails : Command -> bool;
    sevenDaysLater : Z -> Z;
    numberToString : Z -> string }.

(** A value of the JSON body that no schema has checked, as far as [!v]
    and a method call on it tell values apart. *)
Inductive BodyValue :=
| Missing                 (* undefined, null, false or 0: falsy, and no string *)
| Text (s : string)       (* a string *)
| Other.                  (* true, a non-zero number, an array or an object *)

(** An incoming request: the headers and body fields the handlers read,
    the authenticated user [authMiddleware] attached (for the routes
    mounted behind it), and the reading of the clock ([new Date()]). *)
Record Request := mkReq
  { ip : string;
    remoteAddress : string;
    hUserAgent : option string;
    hXForwardedFor : option string;
    hAuthorization : option string;
    bLogin : string;
    bPassword : string;
    bRefreshToken : option string;
    bDeviceName : BodyValue;
    pDeviceId : nat;
    qPage : option Z;
    qLimit : option Z;
    user : User.t;
    now : Z }.

(** ** Small JavaScript helpers *)

Definition truthy (s : option string) : option string :=
  match s with
  | Some "" => None
  | other => other
  end.

(** [s.split(',')[0]] *)
Fixpoint before_comma (s : string) : string :=
  match s with
  | EmptyString => EmptyString
  | String c t => if Ascii.eqb c "," then EmptyString else String c (before_comma t)
  end.

(** [h.match(/.{1,2}/g)]; the fuel is the length of the digest. *)
Fixpoint pairs_of (fuel : nat) (s : string) : list string :=
  match fuel with
  | O => []
  | S n =>
      match s with
      | EmptyString => []
      | String a EmptyString => [String a EmptyString]
      | String a (String b t) => String a (String b EmptyString) :: pairs_of n t
      end
  end.

Definition lower_ascii (c : ascii) : ascii :=
  let n := nat_of_ascii c in
  if andb (Nat.leb 65 n) (Nat.leb n 90) then ascii_of_nat (n + 32) else c.

Fixpoint toLowerCase (s : string) : string :=
  match s with
  | EmptyString => EmptyString
  | String c t => String (lower_ascii c) (toLowerCase t)
  end.

Fixpoint includes (hay needle : string) : bool :=
  if String.prefix needle hay then true
  else match hay with
       | EmptyString => false
       | String _ t => includes t needle
       end.

(** Strings are held as the bytes of their UTF-8 encoding, which is how
    they come in with the request. *)
Definition bytes (l : list nat) : list ascii := map ascii_of_nat l.

(** The code points [String.prototype.trim] strips, the WhiteSpace and
    LineTerminator of ECMAScript, each as its bytes: U+0009 to U+000D,
    U+0020, U+00A0, U+1680, U+2000 to U+200A, U+2028, U+2029, U+202F,
    U+205F, U+3000 and U+FEFF. *)
Definition whiteSpace : list (list ascii) :=
  map bytes
    [[9]; [10]; [11]; [12]; [13]; [32]; [194; 160]; [225; 154; 128];
     [226; 128; 128]; [226; 128; 129]; [226; 128; 130]; [226; 128; 131];
     [226; 128; 132]; [226; 128; 133]; [226; 128; 134]; [226; 128; 135];
     [226; 128; 136]; [226; 128; 137]; [226; 128; 138]; [226; 128; 168];
     [226; 128; 169]; [226; 128; 175]; [226; 129; 159]; [227; 128; 128];
     [239; 187; 191]].

(** [s] without [p] at its head, if it starts with [p]. *)
Fixpoint drop_prefix (p s : list ascii) : option (list ascii) :=
  match p with
  | [] => Some s
  | a :: p' =>
      match s with
      | b :: s' => if Ascii.eqb a b then drop_prefix p' s' else None
      | [] => None
      end
  end.

(** [s] without one of [pats] at its head, if it starts with any. *)
Fixpoint strip_one (pats : list (list ascii)) (s : list ascii)
  : option (list ascii) :=
  match pats with
  | [] => None
  | p :: rest =>
      match drop_prefix p s with
      | Some r => Some r
      | None => strip_one rest s
      end
  end.

(** Strip as long as one of [pats] is at the head; each turn takes at
    least a byte, so the length of the string is fuel enough. *)
Fixpoint strip_fuel (pats : list (list ascii)) (fuel : nat) (s : list ascii)
  : list ascii :=
  match fuel with
  | O => s
  | S n =>
      match strip_one pats s with
      | Some r => strip_fuel pats n r
      | None => s
      end
  end.

Definition strip (pats : list (list ascii)) (s : list ascii) : list ascii :=
  strip_fuel pats (length s) s.

Definition trimStart (s : string) : string :=
  string_of_list_ascii (strip whiteSpace (list_ascii_of_string s)).

(** The encoding of a code point is never the tail of the encoding of
    another one, so the white space at the end is found by reading the
    bytes backwards. *)
Definition trimEnd (s : string) : string :=
  string_of_list_ascii
    (rev (strip (map (@rev ascii) whiteSpace) (rev (list_ascii_of_string s)))).

(** [s.trim()] *)
Definition trim (s : string) : string := trimEnd (trimStart s).

(** [s.trim().length === 0] *)
Definition isBlank (s : string) : bool := Nat.eqb (String.length (trim s)) 0.

(** ** Reads of the store *)

(** [prisma.user.findFirst({ where: { OR: [{email}, {username}], isActive: true } })] *)
Definition user_findFirst_login (d : Db) (login : string) : option User.t :=
  find (fun u => (String.eqb (User.email u) login || String.eqb (User.username u) login)
                 && User.isActive u) (users d).

Definition user_findUnique (d : Db) (uid : nat) : option User.t :=
  find (fun u => Nat.eqb (User.id u) uid) (users d).

Definition active_devices_of (d : Db) (uid : nat) : list Device.t :=
  filter (fun x => Nat.eqb (Device.userId x) uid && Device.isActive x) (devices d).

(** [prisma.device.count({ where: { userId, isActive: true } })] *)
Definition device_count_active (d : Db) (uid : nat) : nat :=
  length (active_devices_of d uid).

(** [prisma.device.findUnique({ where: { macAddress } })] *)
Definition device_findUnique_mac (d : Db) (mac : string) : option Device.t :=
  find (fun x => String.eqb (Device.macAddress x) mac) (devices d).

Definition device_findUnique (d : Db) (did : nat) : option Device.t :=
  find (fun x => Nat.eqb (Device.id x) did) (devices d).

(** [prisma.device.findFirst({ where: { id: deviceId, userId: req.user.id } })] *)
Definition device_findFirst_owned (d : Db) (did uid : nat) : option Device.t :=
  find (fun x => Nat.eqb (Device.id x) did && Nat.eqb (Device.userId x) uid)
       (devices d).

(** [prisma.session.findUnique({ where: { refreshToken, isActive: true,
    expiresAt: { gt: new Date() } } })] *)
Definition session_findUnique_valid (d : Db) (tok : string) (t : Z)
  : option Session.t :=
  find (fun s => String.eqb (Session.refreshToken s) tok
                 && Session.isActive s && Z.ltb t (Session.expiresAt s))
       (sessions d).

(** ** Writes of the store *)

Definition set_devices (d : Db) (l : list Device.t) : Db :=
  mkDb (users d) l (sessions d) (connections d) (auditLogs d) (nextId d).
Definition set_sessions (d : Db) (l : list Session.t) : Db :=
  mkDb (users d) (devices d) l (connections d) (auditLogs d) (nextId d).
Definition set_connections (d : Db) (l : list Connection.t) : Db :=
  mkDb (users d) (devices d) (sessions d) l (auditLogs d) (nextId d).
Definition set_auditLogs (d : Db) (l : list AuditLog.t) : Db :=
  mkDb (users d) (devices d) (sessions d) (connections d) l (nextId d).
Definition bump_id (d : Db) : Db :=
  mkDb (users d) (devices d) (sessions d) (connections d) (auditLogs d)
       (S (nextId d)).

(** Modelled from the spec: [schema.prisma] is not among the sources, so
    the column default of [Device.isActive] is taken from the spec's
    "create and activate a new device record in the same step". *)
Definition Device_isActive_default : bool := true.

(** Modelled from the spec: the column default of [Session.isActive]
    (a session is "created on login" and valid until superseded or
    revoked); [schema.prisma] is not among the sources. *)
Definition Session_isActive_default : bool := true.

(** Modelled from the spec: the column default of [Connection.isActive]
    (a connection is "created when a device is granted access; closed when
    access is revoked"); [schema.prisma] is not among the sources. *)
Definition Connection_isActive_default : bool := true.

(** [prisma.device.create({ data })]; [macAddress] is a unique column
    (the login handler looks rows up with [findUnique] on it). *)
Definition device_create (mac ipAddr name : string) (ua : option string)
    (uid : nat) (seen : Z) : M Device.t :=
  fun w =>
    let d := db w in
    match device_findUnique_mac d mac with
    | Some _ => (Throw P2002, w)
    | None =>
        let row := Device.mk (nextId d) mac ipAddr name ua uid seen
                             Device_isActive_default in
        (Ret row,
         mkWorld (bump_id (set_devices d (devices d ++ [row]))) (fw w)
                 (trace w ++ [EvDeviceCreate (nextId d)]))
    end.

Definition map_device (did : nat) (f : Device.t -> Device.t)
    (l : list Device.t) : list Device.t :=
  map (fun x => if Nat.eqb (Device.id x) did then f x else x) l.

(** [prisma.device.update({ where: { id }, data })] *)
Definition device_update (did : nat) (f : Device.t -> Device.t) : M Device.t :=
  fun w =>
    let d := db w in
    match device_findUnique d did with
    | None => (Throw P2025, w)
    | Some x =>
        (Ret (f x),
         mkWorld (set_devices d (map_device did f (devices d))) (fw w)
                 (trace w ++ [EvDeviceUpdate did]))
    end.

(** [prisma.device.updateMany({ where, data })] *)
Definition device_updateMany (p : Device.t -> bool) (f : Device.t -> Device.t)
  : M unit :=
  fun w =>
    let d := db w in
    (Ret tt,
     mkWorld (set_devices d (map (fun x => if p x then f x else x) (devices d)))
             (fw w) (trace w ++ [EvDeviceUpdateMany])).

(** [prisma.device.delete({ where: { id } })]; the handler's comment
    ("Delete device and related connections") gives the cascade. *)
Definition device_delete (did : nat) : M unit :=
  fun w =>
    let d := db w in
    match device_findUnique d did with
    | None => (Throw P2025, w)
    | Some _ =>
        let ds := filter (fun x => negb (Nat.eqb (Device.id x) did)) (devices d) in
        let cs := filter (fun c => negb (Nat.eqb (Connection.deviceId c) did))
                         (connections d) in
        (Ret tt,
         mkWorld (set_connections (set_devices d ds) cs) (fw w)
                 (trace w ++ [EvDeviceDelete did]))
    end.

Definition token_taken (d : Db) (tok : string) (except : option nat) : bool :=
  existsb (fun s => String.eqb (Session.refreshToken s) tok
                    && match except with
                       | Some sid => negb (Nat.eqb (Session.id s) sid)
                       | None => true
                       end) (sessions d).

(** [prisma.session.create({ data: { refreshToken, userId, expiresAt } })];
    [refreshToken] is a unique column (the refresh handler looks rows up
    with [findUnique] on it). *)
Definition session_create (tok : string) (uid : nat) (exp : Z) : M Session.t :=
  fun w =>
    let d := db w in
    if token_taken d tok None then (Throw P2002, w)
    else
      let row := Session.mk (nextId d) tok uid exp Session_isActive_default in
      (Ret row,
       mkWorld (bump_id (set_sessions d (sessions d ++ [row]))) (fw w)
               (trace w ++ [EvSessionCreate (nextId d)])).

Definition session_findById (d : Db) (sid : nat) : option Session.t :=
  find (fun s => Nat.eqb (Session.id s) sid) (sessions d).

Definition map_session (sid : nat) (f : Session.t -> Session.t)
    (l : list Session.t) : list Session.t :=
  map (fun s => if Nat.eqb (Session.id s) sid then f s else s) l.

(** [prisma.session.update({ where: { id }, data })] *)
Definition session_update (sid : nat) (f : Session.t -> Session.t) : M Session.t :=
  fun w =>
    let d := db w in
    match session_findById d sid with
    | None => (Throw P2025, w)
    | Some s =>
        if token_taken d (Session.refreshToken (f s)) (Some sid)
        then (Throw P2002, w)
        else
          (Ret (f s),
           mkWorld (set_sessions d (map_session sid f (sessions d))) (fw w)
                   (trace w ++ [EvSessionUpdate sid]))
    end.

(** [prisma.session.updateMany({ where, data })] *)
Definition session_updateMany (p : Session.t -> bool)
    (f : Session.t -> Session.t) : M unit :=
  fun w =>
    let d := db w in
    (Ret tt,
     mkWorld (set_sessions d (map (fun s => if p s then f s else s) (sessions d)))
             (fw w) (trace w ++ [EvSessionUpdateMany])).

(** [prisma.connection.create({ data: { userId, deviceId, ipAddress } })] *)
Definition connection_create (uid did : nat) (ipAddr : string) (t : Z)
  : M Connection.t :=
  fun w =>
    let d := db w in
    let row := Connection.mk (nextId d) uid did ipAddr t None
                             Connection_isActive_default in
    (Ret row,
     mkWorld (bump_id (set_connections d (connections d ++ [row]))) (fw w)
             (trace w ++ [EvConnectionCreate (nextId d)])).

(** [prisma.connection.updateMany({ where, data })] *)
Definition connection_updateMany (p : Connection.t -> bool)
    (f : Connection.t -> Connection.t) : M unit :=
  fun w =>
    let d := db w in
    (Ret tt,
     mkWorld (set_connections d
                (map (fun c => if p c then f c else c) (connections d)))
             (fw w) (trace w ++ [EvConnectionUpdateMany])).

(** [prisma.auditLog.create({ data })] *)
Definition auditLog_create (row : AuditLog.t) : M unit :=
  fun w =>
    let d := db w in
    (Ret tt,
     mkWorld (set_auditLogs d (auditLogs d ++ [row])) (fw w)
             (trace w ++ [EvAuditLog (AuditLog.action row)])).

(** The field updates the handlers pass as [data].  A field whose value is
    [undefined] (here the User-Agent of a request without that header) is
    left as it is. *)
Definition Device_refresh (ipAddr : string) (ua : option string) (seen : Z)
    (x : Device.t) : Device.t :=
  Device.mk (Device.id x) (Device.macAddress x) ipAddr (Device.deviceName x)
            (match ua with Some s => Some s | None => Device.userAgent x end)
            (Device.userId x) seen true.

Definition Device_set_isActive (b : bool) (x : Device.t) : Device.t :=
  Device.mk (Device.id x) (Device.macAddress x) (Device.ipAddress x)
            (Device.deviceName x) (Device.userAgent x) (Device.userId x)
            (Device.lastSeen x) b.

Definition Device_set_deviceName (n : string) (x : Device.t) : Device.t :=
  Device.mk (Device.id x) (Device.macAddress x) (Device.ipAddress x) n
            (Device.userAgent x) (Device.userId x) (Device.lastSeen x)
            (Device.isActive x).

Definition Session_set_isActive (b : bool) (s : Session.t) : Session.t :=
  Session.mk (Session.id s) (Session.refreshToken s) (Session.userId s)
             (Session.expiresAt s) b.

Definition Session_rotate (tok : string) (exp : Z) (s : Session.t) : Session.t :=
  Session.mk (Session.id s) tok (Session.userId s) exp (Session.isActive s).

Definition Connection_close (t : Z) (c : Connection.t) : Connection.t :=
  Connection.mk (Connection.id c) (Connection.userId c) (Connection.deviceId c)
                (Connection.ipAddress c) (Connection.startTime c) (Some t) false.

(** ** Responses *)

Inductive Body :=
| JError (error : string)
| JDeviceLimit (error : string) (activeDevices : nat) (maxDevices : Z)
| JLogin (message accessToken refreshToken : string)
         (userId : nat) (email username : string) (isAdmin : bool)
         (deviceId : nat) (name macAddress : string)
| JTokens (accessToken refreshToken : string)
| JMessage (message : string)
| JDevice (device : Device.t) (connections : list Connection.t)
| JDeviceUpdated (message : string) (device : Device.t)
| JConnections (connections : list Connection.t)
               (page limit : Z) (total : nat) (pages : Z)
| JDisconnectAll (message : string) (disconnectedDevices : nat)
| JFailure (error : string) (cause : Exn).

Record Response := mkRes { status : nat; body : Body }.

(** [middleware/errorHandler.js]: what an exception escaping a handler
    becomes (the [field] the 409 body also carries is left out). *)
Definition errorHandler (e : Exn) : Response :=
  match e with
  | P2002 => mkRes 409 (JError "Duplicate entry. This record already exists.")
  | P2025 => mkRes 404 (JError "Record not found.")
  | PrismaValidation | TypeError | ExecError _ =>
      mkRes 500 (JError "Internal server error")
  end.

Definition asyncHandler (h : Request -> M Response) (req : Request) (w : World)
  : Response * World :=
  match h req w with
  | (Ret r, w') => (r, w')
  | (Throw e, w') => (errorHandler e, w')
  end.

Fixpoint forEach {A} (l : list A) (f : A -> M unit) : M unit :=
  match l with
  | [] => ret tt
  | x :: t => f x ;; forEach t f
  end.

(** Seven days in milliseconds. *)
Definition sevenDays : Z := 7 * 24 * 3600 * 1000.

Section Backend.

Variable env : Env.

(** ** services/networkService.js *)

Record DeviceInfo := mkInfo
  { i_macAddress : string; i_ipAddress : string; i_deviceName : string;
    i_userAgent : string }.

Definition getDeviceInfo (req : Request) : DeviceInfo :=
  let userAgent := match truthy (hUserAgent req) with Some s => s | None => "" end in
  let ipAddr := match truthy (hXForwardedFor req) with
                | Some f => before_comma f
                | None => remoteAddress req
                end in
  let hash := md5hex env (ipAddr ++ userAgent) in
  let macAddress :=
    toLowerCase (String.concat ":" (firstn 6 (pairs_of (String.length hash) hash))) in
  let deviceName :=
    if includes userAgent "Windows" then "Windows PC"
    else if includes userAgent "Mac" then "Mac"
    else if includes userAgent "iPhone" then "iPhone"
    else if includes userAgent "iPad" then "iPad"
    else if includes userAgent "Android" then "Android Device"
    else if includes userAgent "Linux" then "Linux Device"
    else "Unknown Device" in
  mkInfo macAddress ipAddr deviceName userAgent.

Definition execAsync (c : Command) : M unit :=
  fun w =>
    if execFails env c
    then (Throw (ExecError c), mkWorld (db w) (fw w) (trace w ++ [EvExec c false]))
    else match run_command (iptablesFails env c) c (fw w) with
         | Some f => (Ret tt, mkWorld (db w) f (trace w ++ [EvExec c true]))
         | None =>
             (Throw (ExecError c), mkWorld (db w) (fw w) (trace w ++ [EvExec c false]))
         end.

Definition addDeviceToWhitelist (macAddress ipAddress : string) : M unit :=
  try_catch
    (present <- try_catch
                  (execAsync (IptCheck FORWARD (MacSource macAddress)) ;; ret true)
                  (fun _ => ret false) ;;
     if (present : bool) then ret tt
     else
       execAsync (IptInsert FORWARD (MacSource macAddress)) ;;
       execAsync (IptInsert FORWARD (Source ipAddress)))
    (fun error => throw error).

Definition removeDeviceFromWhitelist (macAddress ipAddress : string) : M unit :=
  try_catch
    (execAsync (IptDeleteQuiet FORWARD (MacSource macAddress)) ;;
     execAsync (IptDeleteQuiet FORWARD (Source ipAddress)))
    (fun error => throw error).

Definition initializeCaptivePortal : M unit :=
  try_catch
    (execAsync (IptFlush FORWARD) ;;
     execAsync (IptInsert FORWARD (InInterface "lo")) ;;
     execAsync (IptInsert FORWARD (OutInterface "lo")) ;;
     execAsync (IptInsert FORWARD (StateMatch "ESTABLISHED,RELATED")) ;;
     execAsync (IptInsert FORWARD (DPort "udp" "53")) ;;
     execAsync (IptInsert FORWARD (DPort "tcp" "53")) ;;
     execAsync (IptInsert FORWARD (DPort "tcp" "80")) ;;
     execAsync (IptInsert FORWARD (DPort "tcp" "443")) ;;
     execAsync (IptInsert FORWARD (DPort "tcp" "5000")) ;;
     execAsync (IptAppend FORWARD DropAll))
    (fun error => throw error).


Definition setupCaptivePortalRedirect (portalIP portalPort : string) : M unit :=
  try_catch
    (execAsync (IptInsert NAT_PREROUTING
                  (DnatTo "tcp" "80" (portalIP ++ ":" ++ portalPort))))
    (fun error => throw error).

(** ** utils/auth.js *)

Record Tokens := mkTokens { accessToken : string; refreshToken : string }.

Definition generateTokens (userId : nat) (t : Z) : Tokens :=
  mkTokens (jwtSign env (JWT_SECRET env) userId t)
           (jwtSign env (JWT_REFRESH_SECRET env) userId t).

Definition verifyRefreshToken (token : string) (t : Z) : option nat :=
  jwtVerify env (JWT_REFRESH_SECRET env) token t.

Definition comparePassword (password hashedPassword : string) : bool :=
  bcryptCompare env password hashedPassword.

(** ** routes/auth.js *)

(** [parseInt(process.env.MAX_DEVICES_PER_USER) || 4] *)
Definition maxDevices : Z :=
  match MAX_DEVICES_PER_USER env with
  | Some n => if Z.eqb n 0 then 4 else n
  | None => 4
  end.

(** [`${z}`] for an integral number: its digits within the safe integers. *)
Definition show_Z (z : Z) : string :=
  if (Z.abs z <=? 9007199254740991)%Z
  then DecimalString.NilZero.string_of_int (Z.to_int z)
  else numberToString env z.

(** The handler of [POST /login], as it runs behind [validate(loginSchema)]. *)
Definition login (req : Request) : M Response :=
  let clientIP := ip req in
  let userAgent := hUserAgent req in
  d <- get_db ;;
  match user_findFirst_login d (bLogin req) with
  | None => ret (mkRes 401 (JError "Invalid credentials"))
  | Some user =>
      if negb (comparePassword (bPassword req) (User.password user))
      then ret (mkRes 401 (JError "Invalid credentials"))
      else
        let deviceInfo := getDeviceInfo req in
        let activeDevicesCount := device_count_active d (User.id user) in
        let found := device_findUnique_mac d (i_macAddress deviceInfo) in
        if match found with None => true | Some _ => false end
           && (Z.of_nat activeDevicesCount >=? maxDevices)%Z
        then ret (mkRes 403
                    (JDeviceLimit
                       ("Device limit reached. Maximum " ++ show_Z maxDevices
                          ++ " devices allowed per user.")
                       activeDevicesCount maxDevices))
        else
          device <- match found with
                    | None =>
                        device_create (i_macAddress deviceInfo) clientIP
                                      (i_deviceName deviceInfo) userAgent
                                      (User.id user) (now req)
                    | Some existing =>
                        device_update (Device.id existing)
                                      (Device_refresh clientIP userAgent (now req))
                    end ;;
          let tokens := generateTokens (User.id user) (now req) in
          let expiresAt := sevenDaysLater env (now req) in
          session_create (refreshToken tokens) (User.id user) expiresAt ;;
          try_catch (addDeviceToWhitelist (i_macAddress deviceInfo) clientIP)
                    (fun _ => ret tt) ;;
          connection_create (User.id user) (Device.id device) clientIP (now req) ;;
          auditLog_create
            (AuditLog.mk "LOGIN" (User.id user) clientIP userAgent
               (DeviceDetails (Device.id device) (i_macAddress deviceInfo))) ;;
          ret (mkRes 200
                 (JLogin "Login successful" (accessToken tokens)
                    (refreshToken tokens) (User.id user) (User.email user)
                    (User.username user) (User.isAdmin user) (Device.id device)
                    (Device.deviceName device) (Device.macAddress device)))
  end.

(** The handler of [POST /refresh], as it runs behind
    [validate(refreshTokenSchema)]: the body carries a non-empty token. *)
Definition refresh (token : string) (req : Request) : M Response :=
  d <- get_db ;;
  match session_findUnique_valid d token (now req) with
  | None => ret (mkRes 401 (JError "Invalid or expired refresh token"))
  | Some session =>
      match verifyRefreshToken token (now req) with
      | None =>
          session_update (Session.id session) (Session_set_isActive false) ;;
          ret (mkRes 401 (JError "Invalid refresh token"))
      | Some _ =>
          match user_findUnique d (Session.userId session) with
          | None => throw TypeError
          | Some sessionUser =>
              if negb (User.isActive sessionUser)
              then ret (mkRes 401 (JError "User account is inactive"))
              else
                let tokens := generateTokens (User.id sessionUser) (now req) in
                let newExpiresAt := sevenDaysLater env (now req) in
                session_update (Session.id session)
                  (Session_rotate (refreshToken tokens) newExpiresAt) ;;
                ret (mkRes 200 (JTokens (accessToken tokens) (refreshToken tokens)))
          end
      end
  end.

Definition bearer (authHeader : option string) : option string :=
  match truthy authHeader with
  | Some h =>
      if String.prefix "Bearer " h
      then Some (String.substring 7 (String.length h - 7) h)
      else None
  | None => None
  end.

(** The handler of [POST /logout]. *)
Definition logout (req : Request) : M Response :=
  match truthy (bRefreshToken req) with
  | Some token =>
      session_updateMany (fun s => String.eqb (Session.refreshToken s) token)
                         (Session_set_isActive false)
  | None => ret tt
  end ;;
  match bearer (hAuthorization req) with
  | Some token =>
      match jwtVerify env (JWT_SECRET env) token (now req) with
      | Some decodedUserId =>
          d <- get_db ;;
          match user_findUnique d decodedUserId with
          | Some u =>
              auditLog_create
                (AuditLog.mk "LOGOUT" (User.id u) (ip req) (hUserAgent req) NoDetails)
          | None => ret tt
          end
      | None => ret tt
      end
  | None => ret tt
  end ;;
  ret (mkRes 200 (JMessage "Logout successful")).

(** ** routes/devices.js (mounted behind [authMiddleware]) *)

Fixpoint insert_by_startTime (c : Connection.t) (l : list Connection.t)
  : list Connection.t :=
  match l with
  | [] => [c]
  | x :: t =>
      if Z.ltb (Connection.startTime x) (Connection.startTime c)
      then c :: l
      else x :: insert_by_startTime c t
  end.

(** [orderBy: { startTime: 'desc' }] *)
Definition orderBy_startTime_desc (l : list Connection.t) : list Connection.t :=
  fold_right insert_by_startTime [] l.

Definition connections_of_device (d : Db) (did : nat) : list Connection.t :=
  filter (fun c => Nat.eqb (Connection.deviceId c) did) (connections d).

(** [GET /:deviceId] *)
Definition device_detail (req : Request) : M Response :=
  d <- get_db ;;
  match device_findFirst_owned d (pDeviceId req) (User.id (user req)) with
  | None => ret (mkRes 404 (JError "Device not found"))
  | Some device =>
      ret (mkRes 200
             (JDevice device
                (firstn 10 (orderBy_startTime_desc
                              (connections_of_device d (Device.id device))))))
  end.

(** [PUT /:deviceId] *)
Definition device_rename (req : Request) : M Response :=
  match bDeviceName req with
  | Missing => ret (mkRes 400 (JError "Device name is required"))
  | Other => throw TypeError          (* [deviceName.trim] is not a function *)
  | Text deviceName =>
      if String.eqb deviceName "" || isBlank deviceName
      then ret (mkRes 400 (JError "Device name is required"))
      else
        d <- get_db ;;
        match device_findFirst_owned d (pDeviceId req) (User.id (user req)) with
        | None => ret (mkRes 404 (JError "Device not found"))
        | Some _ =>
            updatedDevice <- device_update (pDeviceId req)
                               (Device_set_deviceName (trim deviceName)) ;;
            ret (mkRes 200 (JDeviceUpdated "Device updated successfully" updatedDevice))
        end
  end.

(** [POST /:deviceId/disconnect] *)
Definition device_disconnect (req : Request) : M Response :=
  let deviceId := pDeviceId req in
  d <- get_db ;;
  match device_findFirst_owned d deviceId (User.id (user req)) with
  | None => ret (mkRes 404 (JError "Device not found"))
  | Some device =>
      try_catch
        (removeDeviceFromWhitelist (Device.macAddress device) (Device.ipAddress device))
        (fun _ => ret tt) ;;
      device_update deviceId (Device_set_isActive false) ;;
      connection_updateMany
        (fun c => Nat.eqb (Connection.deviceId c) deviceId && Connection.isActive c)
        (Connection_close (now req)) ;;
      auditLog_create
        (AuditLog.mk "DEVICE_DISCONNECT" (User.id (user req)) (ip req)
           (hUserAgent req) (DeviceDetails deviceId (Device.macAddress device))) ;;
      ret (mkRes 200 (JMessage "Device disconnected successfully"))
  end.

(** [DELETE /:deviceId] *)
Definition device_remove (req : Request) : M Response :=
  let deviceId := pDeviceId req in
  d <- get_db ;;
  match device_findFirst_owned d deviceId (User.id (user req)) with
  | None => ret (mkRes 404 (JError "Device not found"))
  | Some device =>
      try_catch
        (removeDeviceFromWhitelist (Device.macAddress device) (Device.ipAddress device))
        (fun _ => ret tt) ;;
      device_delete deviceId ;;
      auditLog_create
        (AuditLog.mk "DEVICE_DELETE" (User.id (user req)) (ip req)
           (hUserAgent req) (DeviceDetails deviceId (Device.macAddress device))) ;;
      ret (mkRes 200 (JMessage "Device deleted successfully"))
  end.

(** [parseInt(q) || dflt] *)
Definition orDefault (q : option Z) (dflt : Z) : Z :=
  match q with
  | Some n => if Z.eqb n 0 then dflt else n
  | None => dflt
  end.

(** [findMany({ skip, take })] on an ordered result: a negative [skip] is
    refused, a negative [take] counts from the end. *)
Definition skip_take (skip take : Z) (l : list Connection.t)
  : option (list Connection.t) :=
  if Z.ltb skip 0 then None
  else if Z.leb 0 take
       then Some (firstn (Z.to_nat take) (skipn (Z.to_nat skip) l))
       else Some (rev (firstn (Z.to_nat (- take)) (skipn (Z.to_nat skip) (rev l)))).

(** [GET /:deviceId/connections] *)
Definition device_connections (req : Request) : M Response :=
  let deviceId := pDeviceId req in
  let page := orDefault (qPage req) 1 in
  let limit := orDefault (qLimit req) 20 in
  let skip := ((page - 1) * limit)%Z in
  d <- get_db ;;
  match device_findFirst_owned d deviceId (User.id (user req)) with
  | None => ret (mkRes 404 (JError "Device not found"))
  | Some _ =>
      let all := connections_of_device d deviceId in
      match skip_take skip limit (orderBy_startTime_desc all) with
      | None => throw PrismaValidation
      | Some connections =>
          let total := length all in
          ret (mkRes 200
                 (JConnections connections page limit total
                    (- ((- Z.of_nat total) / limit))%Z))
      end
  end.

(** ** routes/network.js *)

(** [adminMiddleware] *)
Definition adminMiddleware (h : Request -> M Response) (req : Request)
  : M Response :=
  if negb (User.isAdmin (user req))
  then ret (mkRes 403 (JError "Access denied. Admin privileges required."))
  else h req.

(** [POST /disconnect-all], the handler behind [adminMiddleware]. *)
Definition disconnect_all (req : Request) : M Response :=
  try_catch
    (d <- get_db ;;
     let activeDevices := filter Device.isActive (devices d) in
     forEach activeDevices
       (fun device =>
          try_catch
            (removeDeviceFromWhitelist (Device.macAddress device)
                                       (Device.ipAddress device))
            (fun _ => ret tt)) ;;
     device_updateMany Device.isActive (Device_set_isActive false) ;;
     connection_updateMany Connection.isActive (Connection_close (now req)) ;;
     auditLog_create
       (AuditLog.mk "NETWORK_DISCONNECT_ALL" (User.id (user req)) (ip req)
          (hUserAgent req) (DisconnectedDevices (length activeDevices))) ;;
     ret (mkRes 200
            (JDisconnectAll "All devices disconnected successfully"
               (length activeDevices))))
    (fun error => ret (mkRes 500 (JFailure "Failed to disconnect all devices" error))).

(** [POST /initialize], the handler behind [adminMiddleware]. *)
Definition network_initialize (req : Request) : M Response :=
  try_catch
    (initializeCaptivePortal ;;
     auditLog_create
       (AuditLog.mk "NETWORK_INITIALIZE" (User.id (user req)) (ip req)
          (hUserAgent req) NoDetails) ;;
     ret (mkRes 200 (JMessage "Captive portal initialized successfully")))
    (fun error => ret (mkRes 500 (JFailure "Failed to initialize captive portal" error))).

End Backend.

(** ** A concrete environment for running the handlers

    Stand-ins for the library functions: the digest is the identity (a
    request whose address is twelve hex digits and whose User-Agent is
    absent gets those digits as its MAC), a stored password hash is the
    password itself, and a token is the secret, the single-digit user id
    and the second it was signed in.  The process runs in UTC, iptables
    gives up on no command line unless said otherwise, and nothing below
    asks for the text of a number outside the safe integers. *)

Definition demoSign (secret : string) (uid : nat) (t : Z) : string :=
  secret ++ "." ++ String (ascii_of_nat (48 + uid)) "" ++ "."
         ++ DecimalString.NilZero.string_of_int (Z.to_int (t / 1000)).

Definition demoVerify (secret token : string) (t : Z) : option nat :=
  if String.prefix (secret ++ ".") token
  then match String.get (String.length secret + 1) token with
       | Some c => Some (nat_of_ascii c - 48)
       | None => None
       end
  else None.

Definition demoEnv (fails : Command -> bool) : Env :=
  mkEnv (fun s => s) String.eqb demoSign demoVerify "acc" "ref" None fails
        (fun _ => false) (fun t => (t + sevenDays)%Z)
        (fun z => DecimalString.NilZero.string_of_int (Z.to_int z)).

Definition quietEnv : Env := demoEnv (fun _ => false).

(** The child process cannot be run for the MAC rule of one device. *)
Definition faultyEnv (mac : string) : Env :=
  demoEnv (fun c => match c with
                    | IptDeleteQuiet FORWARD (MacSource m) => String.eqb m mac
                    | _ => false
                    end).

Definition alice : User.t := User.mk 1 "alice@example.org" "alice" "pw-a" true false.
Definition bob : User.t := User.mk 2 "bob@example.org" "bob" "pw-b" true false.
Definition root : User.t := User.mk 3 "root@example.org" "root" "pw-r" true true.

Definition emptyFw : Firewall := mkFw [] [] [] false.

Definition db0 : Db := mkDb [alice; bob; root] [] [] [] [] 100.

Definition world0 : World := mkWorld db0 emptyFw [].

(** A request from the machine at [addr], at clock reading [t]. *)
Definition request (u : User.t) (addr : string) (t : Z) : Request :=
  mkReq addr addr None None None (User.username u) (User.password u) None Missing
        0 None None u t.

Definition with_device (did : nat) (r : Request) : Request :=
  mkReq (ip r) (remoteAddress r) (hUserAgent r) (hXForwardedFor r)
        (hAuthorization r) (bLogin r) (bPassword r) (bRefreshToken r)
        (bDeviceName r) did (qPage r) (qLimit r) (user r) (now r).

Definition with_deviceName (n : BodyValue) (r : Request) : Request :=
  mkReq (ip r) (remoteAddress r) (hUserAgent r) (hXForwardedFor r)
        (hAuthorization r) (bLogin r) (bPassword r) (bRefreshToken r)
        n (pDeviceId r) (qPage r) (qLimit r) (user r) (now r).

Definition with_refreshToken (tok : option string) (r : Request) : Request :=
  mkReq (ip r) (remoteAddress r) (hUserAgent r) (hXForwardedFor r)
        (hAuthorization r) (bLogin r) (bPassword r) tok
        (bDeviceName r) (pDeviceId r) (qPage r) (qLimit r) (user r) (now r).

Definition with_authorization (h : option string) (r : Request) : Request :=
  mkReq (ip r) (remoteAddress r) (hUserAgent r) (hXForwardedFor r)
        h (bLogin r) (bPassword r) (bRefreshToken r)
        (bDeviceName r) (pDeviceId r) (qPage r) (qLimit r) (user r) (now r).

(** Run a list of routes one after the other, keeping the responses. *)
Fixpoint run_all (l : list (World -> Response * World)) (w : World)
  : list Response * World :=
  match l with
  | [] => ([], w)
  | h :: t =>
      let '(r, w1) := h w in
      let '(rs, w2) := run_all t w1 in
      (r :: rs, w2)
  end.


(** ** Worlds and statements used below *)

Definition world_at_quota : World :=
  snd (run_all
         [asyncHandler (login quietEnv) (request alice "0a0000000001" 1000);
          asyncHandler (login quietEnv) (request alice "0a0000000002" 2000);
          asyncHandler (login quietEnv) (request alice "0a0000000003" 3000);
          asyncHandler (login quietEnv) (request alice "0a0000000004" 4000)]
         world0).

(** The same with [MAX_DEVICES_PER_USER=3]. *)
Definition cappedEnv : Env :=
  mkEnv (fun s => s) String.eqb demoSign demoVerify "acc" "ref" (Some 3%Z)
        (fun _ => false) (fun _ => false) (fun t => (t + sevenDays)%Z)
        (fun z => DecimalString.NilZero.string_of_int (Z.to_int z)).

(** What C4 asks of a login at the maximum: when none of the user's own
    devices carries the fingerprint, it is answered with the rejection. *)
Definition quota_rejects_unmatched (env : Env) (req : Request) (w : World) : Prop :=
  forall u,
    user_findFirst_login (db w) (bLogin req) = Some u ->
    comparePassword env (bPassword req) (User.password u) = true ->
    (maxDevices env <= Z.of_nat (device_count_active (db w) (User.id u)))%Z ->
    (forall x, In x (devices (db w)) -> Device.userId x = User.id u ->
               Device.macAddress x <> i_macAddress (getDeviceInfo env req)) ->
    status (fst (asyncHandler (login env) req w)) = 403.

(** Alice is online from four machines, Bob from a fifth. *)
Definition world_at_quota_with_bob : World :=
  snd (asyncHandler (login quietEnv) (request bob "0a0000000009" 4500) world_at_quota).

(** The FORWARD chain a successful [initializeCaptivePortal] leaves: each
    [-I] puts its rule on top of the previous ones, the [-A] puts the
    default deny at the bottom. *)
Definition basePolicy : list Rule :=
  [DPort "tcp" "5000"; DPort "tcp" "443"; DPort "tcp" "80"; DPort "tcp" "53";
   DPort "udp" "53"; StateMatch "ESTABLISHED,RELATED"; OutInterface "lo";
   InInterface "lo"; DropAll].

(** What C8 asks of a filter state: a second grant for the same MAC and
    address leaves the filter as the first one left it. *)
Definition grant_twice_as_once (env : Env) (mac addr : string) (w : World) : Prop :=
  let w1 := snd (addDeviceToWhitelist env mac addr w) in
  fw (snd (addDeviceToWhitelist env mac addr w1)) = fw w1.

(** The existence check cannot be run (an iptables without [-C], say);
    every other command line can. *)
Definition blindEnv : Env :=
  demoEnv (fun c => match c with
                    | IptCheck _ _ => true
                    | _ => false
                    end).

(** What C7 asks of a world: every per-device accept rule in the FORWARD
    chain is still there after [initializeCaptivePortal]. *)
Definition initialize_keeps_grants (env : Env) (w : World) : Prop :=
  forall mac,
    has_rule (MacSource mac) (forward (fw w)) = true ->
    has_rule (MacSource mac)
             (forward (fw (snd (initializeCaptivePortal env w)))) = true.


(** One turn of the revoke loops: [try { await removeDeviceFromWhitelist(...) }
    catch (error) { console.error(...) }]. *)
Definition revoke_quietly (env : Env) (device : Device.t) : M unit :=
  try_catch
    (removeDeviceFromWhitelist env (Device.macAddress device) (Device.ipAddress device))
    (fun _ => ret tt).

(** The number of revokes that went through in the loop of
    [disconnect-all], counted along the run. *)
Fixpoint count_revoked (env : Env) (l : list Device.t) (w : World) : nat :=
  match l with
  | [] => 0
  | x :: t =>
      let '(r, w1) := removeDeviceFromWhitelist env (Device.macAddress x)
                        (Device.ipAddress x) w in
      (match r with Ret _ => 1 | Throw _ => 0 end) + count_revoked env t w1
  end.

(** What C6 asks of the reported number: it is the number of revokes that
    succeeded. *)
Definition count_reports_successes (env : Env) (req : Request) (w : World) : Prop :=
  forall msg n,
    body (fst (asyncHandler (adminMiddleware (disconnect_all env)) req w))
    = JDisconnectAll msg n ->
    n = count_revoked env (filter Device.isActive (devices (db w))) w.

Definition world_three_devices : World :=
  snd (run_all
         [asyncHandler (login quietEnv) (request alice "0a0000000001" 1000);
          asyncHandler (login quietEnv) (request alice "0a0000000002" 2000);
          asyncHandler (login quietEnv) (request alice "0a0000000003" 3000)]
         world0).

(** ** Orderings in the trace *)






(** The events of one [removeDeviceFromWhitelist]: the address rule is
    only tried when the command for the MAC rule could be run. *)
Definition revoke_events (env : Env) (mac addr : string) : list Event :=
  if execFails env (IptDeleteQuiet FORWARD (MacSource mac))
  then [EvExec (IptDeleteQuiet FORWARD (MacSource mac)) false]
  else [EvExec (IptDeleteQuiet FORWARD (MacSource mac)) true;
        EvExec (IptDeleteQuiet FORWARD (Source addr))
               (negb (execFails env (IptDeleteQuiet FORWARD (Source addr))))].

Definition forget_trace (w : World) : World := mkWorld (db w) (fw w) [].

(** Alice, logged in from one machine, logs out with both her tokens. *)
Definition world_one_device : World :=
  forget_trace
    (snd (asyncHandler (login quietEnv) (request alice "0a0000000001" 1000) world0)).

Definition alice_logout : Request :=
  with_authorization (Some "Bearer acc.1.1")
    (with_refreshToken (Some "ref.1.1") (request alice "0a0000000001" 2000)).

Definition world_after_logout : World :=
  snd (asyncHandler (logout quietEnv) alice_logout world_one_device).

Definition alice_disconnect : Request :=
  with_device 100 (request alice "0a0000000001" 2000).

(** ** Refresh tokens *)

(** [refreshToken] is a unique column of the session table. *)
Definition sessions_unique (d : Db) : Prop :=
  NoDup (map Session.refreshToken (sessions d)).

(** What C3 asks of a replayed credential: the answer to the replay can be
    told apart from the answer to an expired credential. *)
Definition replay_told_apart_from_expiry (env : Env) (token : string)
    (replay : Request) (rotated : World) (late : Request) (unrotated : World)
  : Prop :=
  fst (asyncHandler (refresh env token) replay rotated)
  <> fst (asyncHandler (refresh env token) late unrotated).

(** What C3 asks first of a replayed credential: it is refused. *)
Definition replay_refused (env : Env) (token : string) (replay : Request)
    (rotated : World) : Prop :=
  status (fst (asyncHandler (refresh env token) replay rotated)) <> 200.

(** Alice's first refresh token, rotated half a second after her login,
    within the second it was signed in. *)
Definition world_rotated_at_once : World :=
  snd (asyncHandler (refresh quietEnv "ref.1.1") (request alice "0a0000000001" 1500)
         world_one_device).

(** Alice's first refresh token, rotated five seconds after her login. *)
Definition world_rotated : World :=
  snd (asyncHandler (refresh quietEnv "ref.1.1") (request alice "0a0000000001" 5000)
         world_one_device).

(** ** Device resolution on login *)

(** What C2 asks when the fingerprint is that of another user's device:
    the row is not reused, that is, the login does not update it. *)
Definition foreign_device_not_reused (env : Env) (req : Request) (w : World)
  : Prop :=
  forall u x,
    user_findFirst_login (db w) (bLogin req) = Some u ->
    comparePassword env (bPassword req) (User.password u) = true ->
    device_findUnique_mac (db w) (i_macAddress (getDeviceInfo env req)) = Some x ->
    Device.userId x <> User.id u ->
    ~ In (EvDeviceUpdate (Device.id x))
         (trace (snd (asyncHandler (login env) req w))).

(** Alice's one device, disconnected. *)
Definition world_device_offline : World :=
  forget_trace
    (snd (asyncHandler (device_disconnect quietEnv) alice_disconnect world_one_device)).

(** Alice logs in again from the same machine (the digest of address and
    User-Agent is the one of her first login), which now comes in from
    another address and names its client. *)
Definition alice_returns : Request :=
  mkReq "10.0.0.9" "0a00000000" (Some "01") None None "alice" "pw-a" None Missing
        0 None None alice 7000.

(** Bob has logged in from the machine at 0a0000000001. *)
Definition world_bob_device : World :=
  forget_trace
    (snd (asyncHandler (login quietEnv) (request bob "0a0000000001" 1000) world0)).

(** ** Requests aimed at a device of another user *)

(** A no-break space, U+00A0. *)
Definition nbsp : string := string_of_list_ascii (bytes [194; 160]).

(** What C10 asks of a rename aimed at a device of another user: it is
    answered with the device-not-found error. *)
Definition foreign_rename_not_found (req : Request) (w : World) : Prop :=
  forall x,
    In x (devices (db w)) ->
    Device.id x = pDeviceId req ->
    Device.userId x <> User.id (user req) ->
    fst (asyncHandler device_rename req w) = mkRes 404 (JError "Device not found").

(** ** The device quota *)

(** No user has more active devices than the configured maximum. *)
Definition quota_holds (env : Env) (d : Db) : Prop :=
  forall uid, (Z.of_nat (device_count_active d uid) <= maxDevices env)%Z.

(** Alice logs in from four machines, disconnects the first, logs in from
    a fifth: four active devices and one inactive one. *)
Definition world_four_active_one_inactive : World :=
  snd (run_all
         [asyncHandler (device_disconnect quietEnv)
            (with_device 100 (request alice "0a0000000001" 5000));
          asyncHandler (login quietEnv) (request alice "0a0000000005" 6000)]
         world_at_quota).

(** ** Further statements about the filter *)

(** What an [iptables -D ... 2>/dev/null || true] that was run leaves of
    the filter: the first rule of the FORWARD chain equal to the given
    one is gone, unless iptables gave up. *)
Definition after_delete (env : Env) (r : Rule) (f : Firewall) : Firewall :=
  if iptablesFails env (IptDeleteQuiet FORWARD r) then f
  else set_chain f FORWARD (delete_first r (forward f)).

(** iptables gives up on every delete, as it does while another process
    holds the xtables lock; the command lines themselves run. *)
Definition lockedEnv : Env :=
  mkEnv (fun s => s) String.eqb demoSign demoVerify "acc" "ref" None
        (fun _ => false)
        (fun c => match c with
                  | IptDeleteQuiet _ _ => true
                  | _ => false
                  end)
        (fun t => (t + sevenDays)%Z)
        (fun z => DecimalString.NilZero.string_of_int (Z.to_int z)).

(** The rules a packet is tried against: those ahead of the first default
    deny of the chain. *)
Fixpoint reachable (l : list Rule) : list Rule :=
  match l with
  | [] => []
  | DropAll :: _ => []
  | r :: t => r :: reachable t
  end.

(** A filter after [initializeCaptivePortal], with nothing granted. *)
Definition world_initialized : World :=
  snd (initializeCaptivePortal quietEnv world0).

(** The flush can be run, the append of the default deny cannot. *)
Definition noDenyEnv : Env :=
  demoEnv (fun c => match c with
                    | IptAppend FORWARD DropAll => true
                    | _ => false
                    end).

(** ** Further worlds *)

(** The second of two logins signed in the same second: the refresh token
    of the first is still in the session table. *)
Definition same_second_login : Request := request alice "0a0000000002" 1400.

(** A verifier that accepts nothing, as after a change of the refresh
    secret. *)
Definition rekeyedEnv : Env :=
  mkEnv (fun s => s) String.eqb demoSign (fun _ _ _ => None) "acc" "ref" None
        (fun _ => false) (fun _ => false) (fun t => (t + sevenDays)%Z)
        (fun z => DecimalString.NilZero.string_of_int (Z.to_int z)).

(** ** middleware/auth.js *)

(** The names under which [jwt.verify] throws. *)
Inductive JwtFailure := JsonWebTokenError | TokenExpiredError | OtherFailure.

(** What a middleware does with a request: call [next()], with or without
    a user attached to the request, or answer it. *)
Inductive Gate :=
| Next (attached : option User.t)
| Respond (r : Response).

(** [select: { id, email, username, isActive, isAdmin }]: the row without
    its password. *)
Definition select_public (u : User.t) : User.t :=
  User.mk (User.id u) (User.email u) (User.username u) "" (User.isActive u)
          (User.isAdmin u).

Section Middleware.

Variable env : Env.

(** Under which name [jwt.verify] throws for a token it does not accept. *)
Variable why : string -> Z -> JwtFailure.

Definition authMiddleware (req : Request) (d : Db) : Gate :=
  match bearer (hAuthorization req) with
  | None => Respond (mkRes 401 (JError "Access denied. No token provided."))
  | Some token =>
      if String.eqb token ""
      then Respond (mkRes 401 (JError "Access denied. No token provided."))
      else
        match jwtVerify env (JWT_SECRET env) token (now req) with
        | None =>
            match why token (now req) with
            | JsonWebTokenError =>
                Respond (mkRes 401 (JError "Access denied. Invalid token."))
            | TokenExpiredError =>
                Respond (mkRes 401 (JError "Access denied. Token expired."))
            | OtherFailure => Respond (mkRes 500 (JError "Internal server error."))
            end
        | Some decodedUserId =>
            match user_findUnique d decodedUserId with
            | None =>
                Respond (mkRes 401
                           (JError "Access denied. User not found or inactive."))
            | Some u =>
                if negb (User.isActive u)
                then Respond (mkRes 401
                                (JError "Access denied. User not found or inactive."))
                else Next (Some (select_public u))
            end
        end
  end.

Definition optionalAuthMiddleware (req : Request) (d : Db) : Gate :=
  match bearer (hAuthorization req) with
  | None => Next None
  | Some token =>
      if String.eqb token "" then Next None
      else
        match jwtVerify env (JWT_SECRET env) token (now req) with
        | None => Next None
        | Some decodedUserId =>
            match user_findUnique d decodedUserId with
            | Some u => if User.isActive u then Next (Some (select_public u))
                        else Next None
            | None => Next None
            end
        end
  end.

(** The answers of [GET /me]. *)
Inductive MeBody :=
| NotAuthenticated                  (* { authenticated: false } *)
| Authenticated (u : User.t).       (* { authenticated: true, user } *)

(** [GET /me] of routes/auth.js. *)
Definition me (req : Request) (d : Db) : nat * MeBody :=
  match bearer (hAuthorization req) with
  | None => (401, NotAuthenticated)
  | Some token =>
      match jwtVerify env (JWT_SECRET env) token (now req) with
      | None => (401, NotAuthenticated)
      | Some decodedUserId =>
          match user_findUnique d decodedUserId with
          | None => (401, NotAuthenticated)
          | Some u =>
              if negb (User.isActive u) then (401, NotAuthenticated)
              else (200, Authenticated (select_public u))
          end
      end
  end.

Definition with_user (u : User.t) (r : Request) : Request :=
  mkReq (ip r) (remoteAddress r) (hUserAgent r) (hXForwardedFor r)
        (hAuthorization r) (bLogin r) (bPassword r) (bRefreshToken r)
        (bDeviceName r) (pDeviceId r) (qPage r) (qLimit r) u (now r).

(** A route mounted behind [authMiddleware]: the handler runs on the
    request with the user attached, or not at all. *)
Definition behind_auth (h : Request -> M Response) (req : Request) (w : World)
  : Response * World :=
  match authMiddleware req (db w) with
  | Next (Some u) => asyncHandler h (with_user u req) w
  | Next None => asyncHandler h req w
  | Respond r => (r, w)
  end.

End Middleware.

(** ** routes/devices.js: the listing, and paging through the history *)

Fixpoint insert_by_lastSeen (x : Device.t) (l : list Device.t) : list Device.t :=
  match l with
  | [] => [x]
  | y :: t =>
      if Z.ltb (Device.lastSeen y) (Device.lastSeen x)
      then x :: l
      else y :: insert_by_lastSeen x t
  end.

(** [orderBy: { lastSeen: 'desc' }] *)
Definition orderBy_lastSeen_desc (l : list Device.t) : list Device.t :=
  fold_right insert_by_lastSeen [] l.

(** [GET /]: the [devices] of the 200 answer. *)
Definition devices_list (req : Request) (d : Db) : list Device.t :=
  orderBy_lastSeen_desc
    (filter (fun x => Nat.eqb (Device.userId x) (User.id (user req))) (devices d)).

(** The order of the listing: the device seen later comes first. *)
Definition newer_first (a b : Device.t) : Prop :=
  (Device.lastSeen b <= Device.lastSeen a)%Z.

Definition with_page (p : option Z) (r : Request) : Request :=
  mkReq (ip r) (remoteAddress r) (hUserAgent r) (hXForwardedFor r)
        (hAuthorization r) (bLogin r) (bPassword r) (bRefreshToken r)
        (bDeviceName r) (pDeviceId r) p (qLimit r) (user r) (now r).

(** The [connections] field of an answer, empty when it has none. *)
Definition body_connections (b : Body) : list Connection.t :=
  match b with
  | JConnections cs _ _ _ _ => cs
  | JDevice _ cs => cs
  | _ => []
  end.

(** The answer of [GET /:deviceId/connections] for page [k + 1]. *)
Definition history_page (req : Request) (w : World) (k : nat) : Response :=
  fst (asyncHandler device_connections (with_page (Some (Z.of_nat (S k))) req) w).

(** Bob's device with three connections on it. *)
Definition world_bob_history : World :=
  mkWorld
    (set_connections (db world_bob_device)
       [Connection.mk 102 2 100 "0a0000000001" 1000 (Some 1500%Z) false;
        Connection.mk 103 2 100 "0a0000000001" 3000 (Some 3500%Z) false;
        Connection.mk 104 2 100 "0a0000000001" 2000 None true])
    (fw world_bob_device) [].

Definition with_limit (l : option Z) (r : Request) : Request :=
  mkReq (ip r) (remoteAddress r) (hUserAgent r) (hXForwardedFor r)
        (hAuthorization r) (bLogin r) (bPassword r) (bRefreshToken r)
        (bDeviceName r) (pDeviceId r) (qPage r) l (user r) (now r).

(** ** routes/users.js and routes/admin.js: passwords and deactivation *)

Definition set_users (d : Db) (l : list User.t) : Db :=
  mkDb l (devices d) (sessions d) (connections d) (auditLogs d) (nextId d).

Definition User_set_password (p : string) (u : User.t) : User.t :=
  User.mk (User.id u) (User.email u) (User.username u) p (User.isActive u)
          (User.isAdmin u).

(** [prisma.user.update({ where: { id }, data })].  The trace has no
    event for the user table. *)
Definition user_update (uid : nat) (f : User.t -> User.t) : M User.t :=
  fun w =>
    let d := db w in
    match user_findUnique d uid with
    | None => (Throw P2025, w)
    | Some u =>
        (Ret (f u),
         mkWorld (set_users d (map (fun x => if Nat.eqb (User.id x) uid then f x else x)
                                   (users d)))
                 (fw w) (trace w))
    end.

(** The body of [PUT /users/:userId] behind
    [validate(adminUpdateUserSchema)].  The first and last name it may
    carry belong to columns the rows of this model do not have. *)
Record UserChanges := mkChanges
  { cEmail : option string;
    cUsername : option string;
    cIsActive : option bool;
    cIsAdmin : option bool }.

(** The [data] of that update: [...(email && { email })] and the like. *)
Definition User_apply (c : UserChanges) (u : User.t) : User.t :=
  User.mk (User.id u)
          (match truthy (cEmail c) with Some e => e | None => User.email u end)
          (match truthy (cUsername c) with Some n => n | None => User.username u end)
          (User.password u)
          (match cIsActive c with Some b => b | None => User.isActive u end)
          (match cIsAdmin c with Some b => b | None => User.isAdmin u end).

(** The other user holding the new email or username, if any. *)
Definition conflictUser (d : Db) (userId : nat) (c : UserChanges) : option User.t :=
  match truthy (cEmail c), truthy (cUsername c) with
  | None, None => None
  | e, n =>
      find (fun u =>
              (match e with Some x => String.eqb (User.email u) x | None => false end
               || match n with Some x => String.eqb (User.username u) x | None => false end)
              && negb (Nat.eqb (User.id u) userId))
           (users d)
  end.

(** The answers of [PUT /users/:userId]. *)
Inductive AdminBody :=
| AError (error : string)
| AUserUpdated (message : string) (u : User.t).

Section Accounts.

Variable env : Env.

(** The hash [bcrypt.hash] returns for a password. *)
Variable hashPassword : string -> string.

(** [PUT /change-password] of routes/users.js, behind [authMiddleware]
    and [validate(changePasswordSchema)]. *)
Definition change_password (currentPassword newPassword : string) (req : Request)
  : M Response :=
  d <- get_db ;;
  match user_findUnique d (User.id (user req)) with
  | None => throw TypeError
  | Some u =>
      if negb (comparePassword env currentPassword (User.password u))
      then ret (mkRes 400 (JError "Current password is incorrect"))
      else
        let hashedNewPassword := hashPassword newPassword in
        user_update (User.id (user req)) (User_set_password hashedNewPassword) ;;
        session_updateMany
          (fun s => Nat.eqb (Session.userId s) (User.id (user req)))
          (Session_set_isActive false) ;;
        auditLog_create
          (AuditLog.mk "PASSWORD_CHANGE" (User.id (user req)) (ip req)
             (hUserAgent req) NoDetails) ;;
        ret (mkRes 200
               (JMessage "Password changed successfully. Please log in again."))
  end.

(** [PUT /users/:userId] of routes/admin.js, behind [adminMiddleware] and
    [validate(adminUpdateUserSchema)].  (The [details] of its audit
    entry, the target id and the request body, have no counterpart in
    [AuditDetails] and are left out.) *)
Definition admin_update_user (userId : nat) (c : UserChanges) (req : Request)
  : M (nat * AdminBody) :=
  d <- get_db ;;
  match user_findUnique d userId with
  | None => ret (404, AError "User not found")
  | Some _ =>
      match conflictUser d userId c with
      | Some other =>
          ret (409,
               AError (if match cEmail c with
                          | Some e => String.eqb (User.email other) e
                          | None => false
                          end
                       then "Email already exists"
                       else "Username already exists"))
      | None =>
          updatedUser <- user_update userId (User_apply c) ;;
          match cIsActive c with
          | Some false =>
              session_updateMany (fun s => Nat.eqb (Session.userId s) userId)
                                 (Session_set_isActive false) ;;
              d1 <- get_db ;;
              let userDevices :=
                filter (fun x => Nat.eqb (Device.userId x) userId && Device.isActive x)
                       (devices d1) in
              forEach userDevices (revoke_quietly env) ;;
              device_updateMany (fun x => Nat.eqb (Device.userId x) userId)
                                (Device_set_isActive false) ;;
              connection_updateMany
                (fun x => Nat.eqb (Connection.userId x) userId && Connection.isActive x)
                (Connection_close (now req))
          | _ => ret tt
          end ;;
          auditLog_create
            (AuditLog.mk "ADMIN_UPDATE_USER" (User.id (user req)) (ip req)
               (hUserAgent req) NoDetails) ;;
          ret (200, AUserUpdated "User updated successfully" (select_public updatedUser))
      end
  end.

End Accounts.

(** Alice changes her password to ["pw-2"], stored as ["pw-2"]. *)
Definition world_password_changed : World :=
  snd (asyncHandler (change_password quietEnv (fun p => p) "pw-a" "pw-2")
         (request alice "0a0000000001" 3000) world_one_device).

Definition deactivate : UserChanges := mkChanges None None (Some false) None.

(** The administrator deactivates Alice, who has three devices online;
    the revoke for the second one cannot be run. *)
Definition world_alice_deactivated : World :=
  snd (admin_update_user (faultyEnv "0a:00:00:00:00:02") 1 deactivate
         (request root "0a00000000ff" 9000) world_three_devices).

(** ** The keys of the store *)

(** What the primary keys and unique columns of the device and session
    tables amount to in this model: ids and MAC addresses of devices, ids
    and refresh tokens of sessions occur once, and the ids are below the
    counter the next row takes its id from. *)
Definition keys_ok (d : Db) : Prop :=
  NoDup (map Device.id (devices d))
  /\ NoDup (map Device.macAddress (devices d))
  /\ NoDup (map Session.id (sessions d))
  /\ NoDup (map Session.refreshToken (sessions d))
  /\ (forall x, In x (devices d) -> Device.id x < nextId d)
  /\ (forall s, In s (sessions d) -> Session.id s < nextId d).

(** A computation that leaves the keys in order, however it ends. *)
Definition keeps_keys {A : Type} (m : M A) : Prop :=
  forall w, keys_ok (db w) -> keys_ok (db (snd (m w))).

(** ** middleware/errorHandler.js in full *)

(** An error object as the handler reads it.  [err.code] is a string on
    Prisma's errors and the exit status, a number, on the error of a
    failed child process. *)
Record JsError := mkErr
  { e_code : option (string + nat);  (* err.code *)
    e_name : string;                 (* err.name *)
    e_status : option nat;           (* err.status *)
    e_message : string;              (* err.message *)
    e_stack : string;                (* err.stack *)
    e_target : option string;        (* err.meta?.target *)
    e_errors : list string }.        (* the messages of err.errors *)

(** The JSON body it sends. *)
Record ErrorBody := mkErrBody
  { eb_error : string;
    eb_field : option string;
    eb_details : option (list string);
    eb_message : option string;
    eb_stack : option string }.

Definition plain (error : string) : ErrorBody := mkErrBody error None None None None.

(** A number as a condition: [0] is falsy. *)
Definition truthy_status (s : option nat) : option nat :=
  match s with
  | Some 0 => None
  | other => other
  end.

(** What [err.code && err.code.startsWith('P')] comes to. *)
Inductive CodeTest :=
| PrismaCode (c : string)     (* a string starting with P *)
| NoPrismaCode                (* no code, a falsy one, or another string *)
| NotAString.                 (* a non-zero number: [startsWith] is not a function *)

Definition test_code (c : option (string + nat)) : CodeTest :=
  match c with
  | None => NoPrismaCode
  | Some (inl s) => if String.prefix "P" s && negb (String.eqb s "")
                    then PrismaCode s else NoPrismaCode
  | Some (inr 0) => NoPrismaCode
  | Some (inr _) => NotAString
  end.

(** [errorHandler(err, req, res, next)], with [isDevelopment] for
    [process.env.NODE_ENV === 'development']; [None] when the handler
    itself throws. *)
Definition errorHandlerFull (isDevelopment : bool) (err : JsError)
  : option (nat * ErrorBody) :=
  match test_code (e_code err) with
  | NotAString => None
  | PrismaCode c =>
      Some (if String.eqb c "P2002"
            then (409, mkErrBody "Duplicate entry. This record already exists."
                                 (e_target err) None None None)
            else if String.eqb c "P2025" then (404, plain "Record not found.")
            else if String.eqb c "P2003"
            then (400, plain "Foreign key constraint failed.")
            else (500, plain "Database error occurred."))
  | NoPrismaCode =>
      Some (if String.eqb (e_name err) "ValidationError"
            then (400, mkErrBody "Validation failed" None (Some (e_errors err))
                                 None None)
            else if String.eqb (e_name err) "JsonWebTokenError"
            then (401, plain "Invalid token")
            else if String.eqb (e_name err) "TokenExpiredError"
            then (401, plain "Token expired")
            else
              if match e_status err with
                 | Some s => Nat.eqb s 429
                 | None => false
                 end
              then (429, plain "Too many requests. Please try again later.")
              else
                match truthy_status (e_status err) with
                | Some s =>
                    (s, plain (match truthy (Some (e_message err)) with
                               | Some m => m
                               | None => "An error occurred"
                               end))
                | None =>
                    (500,
                     if isDevelopment
                     then mkErrBody "Internal server error" None None
                                    (Some (e_message err)) (Some (e_stack err))
                     else plain "Internal server error")
                end)
  end.

(** [createError(status, message)] *)
Definition createError (status : nat) (message : string) : JsError :=
  mkErr None "Error" (Some status) message "" None [].

(** The error objects behind the exceptions of the model. *)
Definition jsError_of (e : Exn) : JsError :=
  match e with
  | P2002 => mkErr (Some (inl "P2002")) "PrismaClientKnownRequestError" None
                   "Unique constraint failed" "" None []
  | P2025 => mkErr (Some (inl "P2025")) "PrismaClientKnownRequestError" None
                   "Record to update not found." "" None []
  | PrismaValidation => mkErr None "PrismaClientValidationError" None
                              "Invalid value for skip argument" "" None []
  | TypeError => mkErr None "TypeError" None
                       "Cannot read properties of null" "" None []
  | ExecError _ => mkErr (Some (inr 1)) "Error" None "Command failed" "" None []
  end.

(** The fixed texts the handler answers with. *)
Definition fixed_error_texts : list string :=
  ["Duplicate entry. This record already exists."; "Record not found.";
   "Foreign key constraint failed."; "Database error occurred.";
   "Invalid token"; "Token expired"; "Too many requests. Please try again later.";
   "Internal server error"].

(** A computation out of which no failure of a filter command escapes. *)
Definition contains_exec_errors {A : Type} (m : M A) : Prop :=
  forall w c, fst (m w) <> Throw (ExecError c).
(** * Properties *)

(** ** Authentication failures and the quota rejection *)

(** C9. Failed authentication does not tell which credential field was
    wrong: a login whose identifier matches no active user and a login
    with a known identifier but a wrong secret both get status 401 with
    the body [{ error: 'Invalid credentials' }], and neither touches the
    store, the filter or the trace. *)
Theorem login_failures_indistinguishable :
  forall env w1 w2 req1 req2 u,
    user_findFirst_login (db w1) (bLogin req1) = None ->
    user_findFirst_login (db w2) (bLogin req2) = Some u ->
    comparePassword env (bPassword req2) (User.password u) = false ->
    fst (asyncHandler (login env) req1 w1) = fst (asyncHandler (login env) req2 w2)
    /\ asyncHandler (login env) req1 w1 = (mkRes 401 (JError "Invalid credentials"), w1)
    /\ asyncHandler (login env) req2 w2 = (mkRes 401 (JError "Invalid credentials"), w2).
Proof.
  intros env w1 w2 req1 req2 u Hnone Hsome Hpw.
  assert (E1 : asyncHandler (login env) req1 w1
               = (mkRes 401 (JError "Invalid credentials"), w1)).
  { unfold asyncHandler, login, bind, get_db, ret. rewrite Hnone. reflexivity. }
  assert (E2 : asyncHandler (login env) req2 w2
               = (mkRes 401 (JError "Invalid credentials"), w2)).
  { unfold asyncHandler, login, bind, get_db, ret. rewrite Hsome, Hpw. reflexivity. }
  rewrite E1, E2. auto.
Qed.

Lemma login_failures_indistinguishable_witness :
  fst (asyncHandler (login quietEnv) (request (User.mk 9 "" "mallory" "x" true false)
                                              "0a0000000001" 1000) world0)
  = fst (asyncHandler (login quietEnv)
           (mkReq "0a0000000002" "0a0000000002" None None None "alice" "guess"
                  None Missing 0 None None alice 2000) world0).
Proof.
  apply (login_failures_indistinguishable quietEnv world0 world0
           (request (User.mk 9 "" "mallory" "x" true false) "0a0000000001" 1000)
           (mkReq "0a0000000002" "0a0000000002" None None None "alice" "guess"
                  None Missing 0 None None alice 2000) alice);
    reflexivity.
Defined.

(** C4 (as the code has it). A login that authenticates, presents a
    fingerprint that no device row of any user carries, and finds the
    user's active-device count at (or above) the maximum is answered 403
    with the current count and the maximum in the body, the maximum being
    [MAX_DEVICES_PER_USER] where that is a number other than zero and 4
    otherwise; no token is issued and the world is left exactly as it
    was: no device, session or connection row, no filter command, no
    audit entry.  The text of the error carries the digits of the maximum
    as long as that is a safe integer. *)
Theorem login_quota_exceeded_rejected :
  forall env w req u,
    user_findFirst_login (db w) (bLogin req) = Some u ->
    comparePassword env (bPassword req) (User.password u) = true ->
    device_findUnique_mac (db w) (i_macAddress (getDeviceInfo env req)) = None ->
    let limit := match MAX_DEVICES_PER_USER env with
                 | Some n => if Z.eqb n 0 then 4%Z else n
                 | None => 4%Z
                 end in
    (limit <= Z.of_nat (device_count_active (db w) (User.id u)))%Z ->
    asyncHandler (login env) req w
    = (mkRes 403
         (JDeviceLimit
            ("Device limit reached. Maximum " ++ show_Z env limit
               ++ " devices allowed per user.")
            (device_count_active (db w) (User.id u)) limit),
       w)
    /\ ((Z.abs limit <= 9007199254740991)%Z ->
        show_Z env limit = DecimalString.NilZero.string_of_int (Z.to_int limit)).
Proof.
  intros env w req u Hu Hpw Hdev limit Hq.
  assert (Hlimit : maxDevices env = limit) by reflexivity.
  split.
  - unfold asyncHandler, login, bind, get_db, ret.
    rewrite Hu, Hpw, Hdev. cbn [negb andb]. rewrite Hlimit.
    assert (G : (Z.of_nat (device_count_active (db w) (User.id u)) >=? limit)%Z = true)
      by (apply Z.geb_le; lia).
    rewrite G. reflexivity.
  - intro Hsafe. unfold show_Z.
    destruct (Z.leb_spec (Z.abs limit) 9007199254740991); [reflexivity | lia].
Qed.

Lemma login_quota_exceeded_rejected_witness :
  asyncHandler (login cappedEnv) (request alice "0a0000000004" 5000)
               world_three_devices
  = (mkRes 403
       (JDeviceLimit "Device limit reached. Maximum 3 devices allowed per user." 3 3),
     world_three_devices).
Proof.
  exact (proj1 (login_quota_exceeded_rejected cappedEnv world_three_devices
                  (request alice "0a0000000004" 5000) alice
                  eq_refl eq_refl eq_refl
                  ltac:(vm_compute; discriminate))).
Defined.

(** C4 fails as stated: Alice, at the maximum, logs in with a fingerprint
    that none of her devices carries but a device of Bob does; the login
    is not rejected. *)
Lemma login_at_quota_on_foreign_device :
  ~ quota_rejects_unmatched quietEnv (request alice "0a0000000009" 6000)
      world_at_quota_with_bob.
Proof.
  intro H.
  assert (Hu : user_findFirst_login (db world_at_quota_with_bob)
                 (bLogin (request alice "0a0000000009" 6000)) = Some alice)
    by (vm_compute; reflexivity).
  assert (Hpw : comparePassword quietEnv (bPassword (request alice "0a0000000009" 6000))
                  (User.password alice) = true)
    by (vm_compute; reflexivity).
  assert (Hq : (maxDevices quietEnv
                <= Z.of_nat (device_count_active (db world_at_quota_with_bob)
                               (User.id alice)))%Z)
    by (vm_compute; discriminate).
  assert (Hdev : map (fun x => (Device.userId x, Device.macAddress x))
                     (devices (db world_at_quota_with_bob))
                 = [(1, "0a:00:00:00:00:01"); (1, "0a:00:00:00:00:02");
                    (1, "0a:00:00:00:00:03"); (1, "0a:00:00:00:00:04");
                    (2, "0a:00:00:00:00:09")])
    by (vm_compute; reflexivity).
  assert (Hmac : i_macAddress (getDeviceInfo quietEnv (request alice "0a0000000009" 6000))
                 = "0a:00:00:00:00:09")
    by (vm_compute; reflexivity).
  assert (E : status (fst (asyncHandler (login quietEnv)
                             (request alice "0a0000000009" 6000)
                             world_at_quota_with_bob)) = 200)
    by (vm_compute; reflexivity).
  assert (Hown : forall x, In x (devices (db world_at_quota_with_bob)) ->
                           Device.userId x = User.id alice ->
                           Device.macAddress x
                           <> i_macAddress (getDeviceInfo quietEnv
                                              (request alice "0a0000000009" 6000))).
  { intros x Hx Hx1. rewrite Hmac. intro Hx2.
    apply (in_map (fun x => (Device.userId x, Device.macAddress x))) in Hx.
    rewrite Hdev, Hx1, Hx2 in Hx. cbn [In User.id alice] in Hx.
    repeat (destruct Hx as [Hx | Hx]; [discriminate Hx|]). destruct Hx. }
  discriminate (eq_trans (eq_sym E) (H alice Hu Hpw Hq Hown)).
Qed.

(** What that login does instead: it answers 200 with tokens for Alice,
    and Alice has a connection on the device of Bob. *)
Example login_at_quota_outcome :
  let r := asyncHandler (login quietEnv) (request alice "0a0000000009" 6000)
             world_at_quota_with_bob in
  body (fst r)
  = JLogin "Login successful" "acc.1.6" "ref.1.6" 1 "alice@example.org" "alice" false
           112 "Unknown Device" "0a:00:00:00:00:09"
  /\ device_count_active (db world_at_quota_with_bob) 1 = 4
  /\ map Device.userId (devices (db (snd r))) = [1; 1; 1; 1; 2]
  /\ map (fun c => (Connection.userId c, Connection.deviceId c))
         (filter (fun c => Nat.eqb (Connection.deviceId c) 112)
                 (connections (db (snd r))))
     = [(2, 112); (1, 112)].
Proof.
  vm_compute. auto.
Qed.

(** ** The filter driver *)

Lemma Rule_eqb_refl : forall r, Rule_eqb r r = true.
Proof.
  intro r. unfold Rule_eqb. destruct (Rule_eq_dec r r); congruence.
Qed.

Lemma Rule_eqb_eq : forall a b, Rule_eqb a b = true <-> a = b.
Proof.
  intros a b. unfold Rule_eqb. destruct (Rule_eq_dec a b); split; congruence.
Qed.

Lemma has_rule_cons : forall r x l,
  has_rule r (x :: l) = Rule_eqb r x || has_rule r l.
Proof. reflexivity. Qed.

Lemma has_rule_false_count : forall r l,
  has_rule r l = false -> count_occ Rule_eq_dec l r = 0.
Proof.
  intros r l. induction l as [|x t IH]; intro H; [reflexivity|].
  rewrite has_rule_cons in H. apply orb_false_iff in H. destruct H as [Hx Ht].
  cbn. destruct (Rule_eq_dec x r) as [E|_].
  - subst. rewrite Rule_eqb_refl in Hx. discriminate.
  - auto.
Qed.

Lemma grant_when_present : forall env mac addr w,
  execFails env (IptCheck FORWARD (MacSource mac)) = false ->
  has_rule (MacSource mac) (forward (fw w)) = true ->
  addDeviceToWhitelist env mac addr w
  = (Ret tt,
     mkWorld (db w) (fw w)
             (trace w ++ [EvExec (IptCheck FORWARD (MacSource mac)) true])).
Proof.
  intros env mac addr w Hcheck Hhas.
  unfold addDeviceToWhitelist, try_catch, bind, ret, execAsync.
  rewrite Hcheck. cbn [run_command chain_of]. rewrite Hhas. reflexivity.
Qed.

Lemma grant_when_absent : forall env mac addr w,
  has_rule (MacSource mac) (forward (fw w)) = false ->
  let f := fw w in
  let f1 := set_chain f FORWARD (MacSource mac :: forward f) in
  let f2 := set_chain f1 FORWARD (Source addr :: forward f1) in
  (execFails env (IptInsert FORWARD (MacSource mac)) = true
   /\ fw (snd (addDeviceToWhitelist env mac addr w)) = f
   /\ fst (addDeviceToWhitelist env mac addr w)
      = Throw (ExecError (IptInsert FORWARD (MacSource mac))))
  \/ (execFails env (IptInsert FORWARD (Source addr)) = true
      /\ fw (snd (addDeviceToWhitelist env mac addr w)) = f1
      /\ fst (addDeviceToWhitelist env mac addr w)
         = Throw (ExecError (IptInsert FORWARD (Source addr))))
  \/ (fw (snd (addDeviceToWhitelist env mac addr w)) = f2
      /\ fst (addDeviceToWhitelist env mac addr w) = Ret tt).
Proof.
  intros env mac addr w Hhas.
  unfold addDeviceToWhitelist, try_catch, bind, ret, throw, execAsync.
  cbn [run_command chain_of]. rewrite Hhas.
  destruct (execFails env (IptCheck FORWARD (MacSource mac)));
    destruct (execFails env (IptInsert FORWARD (MacSource mac))) eqn:Hm;
    cbn; auto;
    destruct (execFails env (IptInsert FORWARD (Source addr))) eqn:Hs;
    cbn; auto.
Qed.

Lemma grant_unchecked : forall env mac addr w,
  execFails env (IptCheck FORWARD (MacSource mac)) = true ->
  execFails env (IptInsert FORWARD (MacSource mac)) = false ->
  execFails env (IptInsert FORWARD (Source addr)) = false ->
  fst (addDeviceToWhitelist env mac addr w) = Ret tt
  /\ forward (fw (snd (addDeviceToWhitelist env mac addr w)))
     = Source addr :: MacSource mac :: forward (fw w).
Proof.
  intros env mac addr w Hc Hm Hs.
  unfold addDeviceToWhitelist, try_catch, bind, ret, throw, execAsync.
  cbn [run_command chain_of]. rewrite Hc. cbn. rewrite Hm. cbn. rewrite Hs. cbn.
  auto.
Qed.

(** C8 (as the code has it). Granting twice is granting once provided the
    existence check itself can be run: then a second
    [addDeviceToWhitelist] for the same MAC and address leaves the filter
    exactly as the first one left it, whatever the filter held before and
    however the first call ended, and when the chain had no accept rule
    for the MAC and the first call went through, the chain holds exactly
    one such rule after both calls.  When the check cannot be run, the
    code takes the rule to be absent: every grant that goes through puts
    both rules on top of the chain again. *)
Theorem grant_idempotent :
  forall env mac addr w,
    let w1 := snd (addDeviceToWhitelist env mac addr w) in
    let w2 := snd (addDeviceToWhitelist env mac addr w1) in
    (execFails env (IptCheck FORWARD (MacSource mac)) = false ->
     fw w2 = fw w1
     /\ (has_rule (MacSource mac) (forward (fw w)) = false ->
         fst (addDeviceToWhitelist env mac addr w) = Ret tt ->
         count_occ Rule_eq_dec (forward (fw w2)) (MacSource mac) = 1))
    /\ (execFails env (IptCheck FORWARD (MacSource mac)) = true ->
        execFails env (IptInsert FORWARD (MacSource mac)) = false ->
        execFails env (IptInsert FORWARD (Source addr)) = false ->
        fst (addDeviceToWhitelist env mac addr w1) = Ret tt
        /\ forward (fw w2)
           = Source addr :: MacSource mac :: Source addr :: MacSource mac
               :: forward (fw w)).
Proof.
  intros env mac addr w w1 w2. split.
  2:{ intros Hc Hm Hs.
      destruct (grant_unchecked env mac addr w Hc Hm Hs) as [_ E1].
      destruct (grant_unchecked env mac addr w1 Hc Hm Hs) as [R2 E2].
      split; [exact R2|]. subst w2. rewrite E2. subst w1. rewrite E1. reflexivity. }
  intro Hcheck.
  assert (Hstep : forall v, has_rule (MacSource mac) (forward (fw v)) = true ->
                            fw (snd (addDeviceToWhitelist env mac addr v)) = fw v).
  { intros v Hv. rewrite (grant_when_present env mac addr v Hcheck Hv). reflexivity. }
  destruct (has_rule (MacSource mac) (forward (fw w))) eqn:Hhas.
  - split; [|discriminate].
    subst w2. apply Hstep. subst w1. rewrite (Hstep w Hhas). exact Hhas.
  - destruct (grant_when_absent env mac addr w Hhas)
      as [(Hm & Hfw & Hres) | [(Hs & Hfw & Hres) | (Hfw & Hres)]];
      fold w1 in Hfw.
    + split; [|intros _ H; rewrite Hres in H; discriminate].
      assert (Hhas1 : has_rule (MacSource mac) (forward (fw w1)) = false)
        by (rewrite Hfw; exact Hhas).
      destruct (grant_when_absent env mac addr w1 Hhas1)
        as [(_ & Hfw2 & _) | [(_ & Hfw2 & Hres2) | (Hfw2 & Hres2)]]; fold w2 in Hfw2.
      * exact Hfw2.
      * exfalso. revert Hres2. unfold addDeviceToWhitelist, try_catch, bind, ret,
          throw, execAsync. cbn [run_command chain_of]. rewrite Hcheck, Hhas1, Hm.
        cbn. discriminate.
      * exfalso. revert Hres2. unfold addDeviceToWhitelist, try_catch, bind, ret,
          throw, execAsync. cbn [run_command chain_of]. rewrite Hcheck, Hhas1, Hm.
        cbn. discriminate.
    + split; [|intros _ H; rewrite Hres in H; discriminate].
      subst w2. apply Hstep. rewrite Hfw. cbn. rewrite Rule_eqb_refl. reflexivity.
    + assert (Hhas1 : has_rule (MacSource mac) (forward (fw w1)) = true).
      { rewrite Hfw. cbn. rewrite Rule_eqb_refl. reflexivity. }
      assert (E : fw w2 = fw w1) by (subst w2; apply Hstep; exact Hhas1).
      split; [exact E|]. intros _ _. rewrite E, Hfw. cbn [set_chain forward].
      rewrite count_occ_cons_neq by discriminate.
      rewrite count_occ_cons_eq by reflexivity.
      f_equal. apply has_rule_false_count. exact Hhas.
Qed.

Lemma grant_idempotent_witness :
  fw (snd (addDeviceToWhitelist quietEnv "0a:00:00:00:00:01" "10.0.0.7"
             (snd (addDeviceToWhitelist quietEnv "0a:00:00:00:00:01" "10.0.0.7"
                     world0))))
  = mkFw [Source "10.0.0.7"; MacSource "0a:00:00:00:00:01"] [] [] false
  /\ forward
       (fw (snd (addDeviceToWhitelist blindEnv "0a:00:00:00:00:01" "10.0.0.7"
                   (snd (addDeviceToWhitelist blindEnv "0a:00:00:00:00:01" "10.0.0.7"
                           world0)))))
     = [Source "10.0.0.7"; MacSource "0a:00:00:00:00:01";
        Source "10.0.0.7"; MacSource "0a:00:00:00:00:01"].
Proof.
  split.
  - rewrite (proj1 (proj1 (grant_idempotent quietEnv "0a:00:00:00:00:01" "10.0.0.7"
                             world0) eq_refl)).
    reflexivity.
  - exact (proj2 (proj2 (grant_idempotent blindEnv "0a:00:00:00:00:01" "10.0.0.7"
                           world0) eq_refl eq_refl eq_refl)).
Defined.

(** C8 fails as stated: where the existence check cannot be run, the
    second grant inserts both rules again and the chain holds each
    twice. *)
Lemma grant_twice_duplicates_rules :
  ~ grant_twice_as_once blindEnv "0a:00:00:00:00:01" "10.0.0.7" world0.
Proof.
  intro H. vm_compute in H. discriminate.
Qed.

Ltac split_exec env :=
  repeat match goal with
         | |- context [execFails env ?c] =>
             destruct (execFails env c) eqn:?; cbn; try discriminate
         end.

Lemma initialize_success_everywhere : forall env w v,
  fst (initializeCaptivePortal env w) = Ret tt ->
  fst (initializeCaptivePortal env v) = Ret tt.
Proof.
  intros env w v.
  unfold initializeCaptivePortal, try_catch, bind, ret, throw, execAsync.
  cbn [run_command]. split_exec env. reflexivity.
Qed.

Lemma initialize_success_world : forall env w,
  fst (initializeCaptivePortal env w) = Ret tt ->
  fw (snd (initializeCaptivePortal env w))
  = mkFw basePolicy (natPrerouting (fw w)) (natPostrouting (fw w)) (ipForward (fw w))
  /\ db (snd (initializeCaptivePortal env w)) = db w.
Proof.
  intros env w.
  unfold initializeCaptivePortal, try_catch, bind, ret, throw, execAsync.
  cbn [run_command]. split_exec env. intros _. split; reflexivity.
Qed.

(** C7 (as the code has it). Every successful [initializeCaptivePortal]
    leaves the FORWARD chain equal to the base policy whatever the chain
    held before, so it can be repeated: a second call changes nothing.
    It gets there by flushing the whole FORWARD chain; no rule outside
    the base policy survives in it, per-device accept rules included.
    The nat chains, the forwarding switch and the store are untouched. *)
Theorem initialize_rebuilds_forward_chain :
  forall env w,
    fst (initializeCaptivePortal env w) = Ret tt ->
    let w' := snd (initializeCaptivePortal env w) in
    forward (fw w') = basePolicy
    /\ (forall mac, has_rule (MacSource mac) (forward (fw w')) = false)
    /\ (forall a, has_rule (Source a) (forward (fw w')) = false)
    /\ natPrerouting (fw w') = natPrerouting (fw w)
    /\ natPostrouting (fw w') = natPostrouting (fw w)
    /\ ipForward (fw w') = ipForward (fw w)
    /\ db w' = db w
    /\ fst (initializeCaptivePortal env w') = Ret tt
    /\ fw (snd (initializeCaptivePortal env w')) = fw w'.
Proof.
  intros env w Hok w'.
  destruct (initialize_success_world env w Hok) as [Hfw Hdb]. fold w' in Hfw, Hdb.
  pose proof (initialize_success_everywhere env w w' Hok) as Hok'.
  destruct (initialize_success_world env w' Hok') as [Hfw' _].
  rewrite Hfw', Hfw. cbn. repeat split; auto.
Qed.

Lemma initialize_rebuilds_forward_chain_witness :
  forward (fw (snd (initializeCaptivePortal quietEnv world_at_quota))) = basePolicy.
Proof.
  exact (proj1 (initialize_rebuilds_forward_chain quietEnv world_at_quota eq_refl)).
Defined.

(** C7 fails as stated: a device granted access loses its accept rule to
    the next [initializeCaptivePortal]. *)
Lemma initialize_drops_grants :
  ~ initialize_keeps_grants quietEnv
      (snd (addDeviceToWhitelist quietEnv "0a:00:00:00:00:01" "10.0.0.7" world0)).
Proof.
  intro H. specialize (H "0a:00:00:00:00:01" eq_refl). vm_compute in H. discriminate.
Qed.

(** ** Bulk disconnect *)

Lemma revoke_quietly_step : forall env x w,
  exists f ok rest,
    revoke_quietly env x w
    = (Ret tt,
       mkWorld (db w) f
         (trace w
          ++ EvExec (IptDeleteQuiet FORWARD (MacSource (Device.macAddress x))) ok
             :: rest)).
Proof.
  intros env x w.
  unfold revoke_quietly, removeDeviceFromWhitelist, try_catch, bind, ret, throw,
    execAsync.
  cbn [run_command].
  destruct (execFails env (IptDeleteQuiet FORWARD (MacSource (Device.macAddress x))));
    cbn.
  - eexists _, _, _. reflexivity.
  - destruct (execFails env (IptDeleteQuiet FORWARD (Source (Device.ipAddress x))));
      cbn; rewrite <- app_assoc; eexists _, _, _; reflexivity.
Qed.

Lemma revoke_loop : forall env l w,
  exists f t,
    forEach l (revoke_quietly env) w = (Ret tt, mkWorld (db w) f (trace w ++ t))
    /\ forall x, In x l ->
         exists ok,
           In (EvExec (IptDeleteQuiet FORWARD (MacSource (Device.macAddress x))) ok) t.
Proof.
  intros env l. induction l as [|x l IH]; intro w.
  - exists (fw w), []. split; [|intros ? []].
    cbn. unfold ret. rewrite app_nil_r. destruct w; reflexivity.
  - destruct (revoke_quietly_step env x w) as (f1 & ok & rest & E1).
    destruct (IH (mkWorld (db w) f1
                    (trace w ++ EvExec (IptDeleteQuiet FORWARD
                                          (MacSource (Device.macAddress x))) ok :: rest)))
      as (f & t & E2 & Hin).
    exists f, (EvExec (IptDeleteQuiet FORWARD (MacSource (Device.macAddress x))) ok
               :: rest ++ t).
    split.
    + cbn [forEach]. unfold bind at 1. rewrite E1, E2. cbn [db trace].
      rewrite <- app_assoc. reflexivity.
    + intros y [<- | Hy].
      * exists ok. left. reflexivity.
      * destruct (Hin y Hy) as [ok' H']. exists ok'. right.
        apply in_or_app. right. exact H'.
Qed.

Lemma count_revoked_le : forall env l w, count_revoked env l w <= length l.
Proof.
  intros env l. induction l as [|x l IH]; intro w; cbn; [lia|].
  destruct (removeDeviceFromWhitelist env (Device.macAddress x) (Device.ipAddress x) w)
    as [r w1].
  specialize (IH w1). destruct r; lia.
Qed.

Lemma disconnect_all_run : forall env req w,
  let active := filter Device.isActive (devices (db w)) in
  exists f t,
    disconnect_all env req w
    = (Ret (mkRes 200 (JDisconnectAll "All devices disconnected successfully"
                         (length active))),
       mkWorld
         (set_auditLogs
            (set_connections
               (set_devices (db w)
                  (map (fun x => if Device.isActive x
                                 then Device_set_isActive false x else x)
                       (devices (db w))))
               (map (fun c => if Connection.isActive c
                              then Connection_close (now req) c else c)
                    (connections (db w))))
            (auditLogs (db w)
             ++ [AuditLog.mk "NETWORK_DISCONNECT_ALL" (User.id (user req))
                   (ip req) (hUserAgent req)
                   (DisconnectedDevices (length active))]))
         f
         ((((trace w ++ t) ++ [EvDeviceUpdateMany]) ++ [EvConnectionUpdateMany])
          ++ [EvAuditLog "NETWORK_DISCONNECT_ALL"]))
    /\ forall x, In x active ->
         exists ok,
           In (EvExec (IptDeleteQuiet FORWARD (MacSource (Device.macAddress x))) ok) t.
Proof.
  intros env req w active.
  destruct (revoke_loop env active w) as (f & t & Eloop & Hin).
  exists f, t. split; [|exact Hin].
  assert (Eloop' :
            forEach active
              (fun device =>
                 try_catch
                   (removeDeviceFromWhitelist env (Device.macAddress device)
                                              (Device.ipAddress device))
                   (fun _ => ret tt)) w
            = (Ret tt, mkWorld (db w) f (trace w ++ t))) by exact Eloop.
  unfold disconnect_all. unfold try_catch at 1. unfold bind at 1. unfold get_db.
  fold active. unfold bind at 1. rewrite Eloop'. reflexivity.
Qed.

Lemma disconnect_all_devices_off : forall env req w x,
  In x (devices (db (snd (disconnect_all env req w)))) -> Device.isActive x = false.
Proof.
  intros env req w x. destruct (disconnect_all_run env req w) as (f & t & E & _).
  rewrite E. cbn. intro Hx. apply in_map_iff in Hx. destruct Hx as (y & <- & _).
  destruct (Device.isActive y) eqn:Hy; [reflexivity | exact Hy].
Qed.

(** C6 (as the code has it). [disconnect-all] attempts the revoke of
    every active device and goes on after a failed one; whatever the
    revokes did, it answers 200, every device row ends inactive and every
    connection row ends closed.  The number it reports is the number of
    devices that were active, which the number of successful revokes can
    only stay below. *)
Theorem disconnect_all_tolerates_failures :
  forall env req w,
    let active := filter Device.isActive (devices (db w)) in
    let w' := snd (disconnect_all env req w) in
    fst (disconnect_all env req w)
    = Ret (mkRes 200 (JDisconnectAll "All devices disconnected successfully"
                        (length active)))
    /\ (forall x, In x active ->
          exists ok,
            In (EvExec (IptDeleteQuiet FORWARD (MacSource (Device.macAddress x))) ok)
               (trace w'))
    /\ (forall x, In x (devices (db w')) -> Device.isActive x = false)
    /\ (forall c, In c (connections (db w')) -> Connection.isActive c = false)
    /\ count_revoked env active w <= length active.
Proof.
  intros env req w active w'.
  split; [|split; [|split; [|split]]].
  - destruct (disconnect_all_run env req w) as (f & t & E & _). rewrite E. reflexivity.
  - intros x Hx. destruct (disconnect_all_run env req w) as (f & t & E & Hin).
    destruct (Hin x Hx) as [ok Hok]. exists ok. subst w'. rewrite E. cbn [snd trace].
    do 3 (apply in_or_app; left). apply in_or_app. right. exact Hok.
  - apply disconnect_all_devices_off.
  - intros c. subst w'. destruct (disconnect_all_run env req w) as (f & t & E & _).
    rewrite E. cbn. intro Hc. apply in_map_iff in Hc. destruct Hc as (y & <- & _).
    destruct (Connection.isActive y) eqn:Hy; [reflexivity | exact Hy].
  - apply count_revoked_le.
Qed.

Lemma disconnect_all_tolerates_failures_witness :
  fst (disconnect_all (faultyEnv "0a:00:00:00:00:02")
         (request root "0a00000000ff" 9000) world_three_devices)
  = Ret (mkRes 200 (JDisconnectAll "All devices disconnected successfully" 3))
  /\ map Device.isActive
        (devices (db (snd (disconnect_all (faultyEnv "0a:00:00:00:00:02")
                             (request root "0a00000000ff" 9000)
                             world_three_devices))))
     = [false; false; false].
Proof.
  split.
  - exact (proj1 (disconnect_all_tolerates_failures (faultyEnv "0a:00:00:00:00:02")
                    (request root "0a00000000ff" 9000) world_three_devices)).
  - reflexivity.
Defined.

(** C6 fails as stated: with the revoke of the second of three active
    devices failing, two revokes succeed and the route reports three. *)
Lemma disconnect_all_reports_attempts :
  ~ count_reports_successes (faultyEnv "0a:00:00:00:00:02")
      (request root "0a00000000ff" 9000) world_three_devices.
Proof.
  intro H.
  specialize (H "All devices disconnected successfully" 3 eq_refl).
  vm_compute in H. discriminate.
Qed.

(** ** Logout and device disconnect *)

Lemma find_weaken : forall (A : Type) (p q : A -> bool) l x,
  find p l = Some x ->
  (forall a, p a = true -> q a = true) ->
  exists y, find q l = Some y.
Proof.
  intros A p q l x Hf Himp.
  destruct (find q l) eqn:E; [eauto|].
  apply find_some in Hf. destruct Hf as [Hin Hp].
  pose proof (find_none _ _ E x Hin) as Hq. rewrite (Himp x Hp) in Hq. discriminate.
Qed.

Lemma owned_device_has_id : forall d did uid x,
  device_findFirst_owned d did uid = Some x ->
  exists y, device_findUnique d did = Some y.
Proof.
  intros d did uid x H. unfold device_findFirst_owned in H.
  eapply find_weaken; [exact H|].
  intros a Ha. apply andb_true_iff in Ha. tauto.
Qed.

Lemma revoke_quietly_trace : forall env x w,
  exists f,
    revoke_quietly env x w
    = (Ret tt,
       mkWorld (db w) f
         (trace w ++ revoke_events env (Device.macAddress x) (Device.ipAddress x))).
Proof.
  intros env x w.
  unfold revoke_quietly, removeDeviceFromWhitelist, revoke_events, try_catch, bind,
    ret, throw, execAsync.
  cbn [run_command].
  destruct (execFails env (IptDeleteQuiet FORWARD (MacSource (Device.macAddress x))));
    cbn.
  - eexists. reflexivity.
  - destruct (execFails env (IptDeleteQuiet FORWARD (Source (Device.ipAddress x))));
      cbn; rewrite <- app_assoc; eexists; reflexivity.
Qed.

Lemma logout_steps : forall env req w,
  let w' := snd (logout env req w) in
  fst (logout env req w) = Ret (mkRes 200 (JMessage "Logout successful"))
  /\ (exists audit,
        (audit = [] \/ audit = [EvAuditLog "LOGOUT"])
        /\ trace w' = trace w
                      ++ match truthy (bRefreshToken req) with
                         | Some _ => [EvSessionUpdateMany]
                         | None => []
                         end ++ audit)
  /\ devices (db w') = devices (db w)
  /\ connections (db w') = connections (db w)
  /\ fw w' = fw w.
Proof.
  intros env req w.
  unfold logout, bind, ret, get_db, session_updateMany, auditLog_create.
  destruct (truthy (bRefreshToken req)) as [tok|];
    destruct (bearer (hAuthorization req)) as [b|]; cbn;
    repeat match goal with
           | |- context [match ?x with Some _ => _ | None => _ end] =>
               destruct x; cbn
           end;
    (split; [reflexivity|]); (split; [|auto]).
  all: try (exists [EvAuditLog "LOGOUT"]; split; [auto|];
            rewrite <- ?app_assoc; reflexivity).
  all: exists []; split; [auto|]; rewrite ?app_nil_r; reflexivity.
Qed.


Lemma logout_sessions : forall env req w,
  sessions (db (snd (logout env req w)))
  = match truthy (bRefreshToken req) with
    | Some token =>
        map (fun s => if String.eqb (Session.refreshToken s) token
                      then Session_set_isActive false s else s)
            (sessions (db w))
    | None => sessions (db w)
    end.
Proof.
  intros env req w.
  unfold logout, bind, ret, get_db, session_updateMany, auditLog_create.
  destruct (truthy (bRefreshToken req)) as [tok|];
    destruct (bearer (hAuthorization req)) as [b|]; cbn;
    repeat match goal with
           | |- context [match ?x with Some _ => _ | None => _ end] =>
               destruct x; cbn
           end;
    reflexivity.
Qed.

Lemma disconnect_db : forall env req w device,
  device_findFirst_owned (db w) (pDeviceId req) (User.id (user req)) = Some device ->
  let w' := snd (asyncHandler (device_disconnect env) req w) in
  fst (asyncHandler (device_disconnect env) req w)
  = mkRes 200 (JMessage "Device disconnected successfully")
  /\ devices (db w')
     = map_device (pDeviceId req) (Device_set_isActive false) (devices (db w))
  /\ connections (db w')
     = map (fun c => if Nat.eqb (Connection.deviceId c) (pDeviceId req)
                        && Connection.isActive c
                     then Connection_close (now req) c else c)
           (connections (db w))
  /\ sessions (db w') = sessions (db w)
  /\ users (db w') = users (db w).
Proof.
  intros env req w device Hown.
  destruct (owned_device_has_id _ _ _ _ Hown) as [y Hy].
  destruct (revoke_quietly_trace env device w) as [f Hrev].
  unfold revoke_quietly in Hrev.
  remember (asyncHandler (device_disconnect env) req w) as res eqn:E.
  unfold asyncHandler, device_disconnect in E. unfold bind at 1 in E.
  unfold get_db in E. rewrite Hown in E. unfold bind at 1 in E. rewrite Hrev in E.
  unfold bind, ret, device_update, connection_updateMany, auditLog_create in E.
  cbn [db fw trace] in E. rewrite Hy in E. cbn in E. subst res. cbn. auto.
Qed.






(** ** Refresh-token rotation *)

Lemma find_all_false : forall (A : Type) (p : A -> bool) l,
  (forall x, In x l -> p x = false) -> find p l = None.
Proof.
  intros A p l. induction l as [|a l IH]; intro H; [reflexivity|].
  cbn. rewrite (H a (or_introl eq_refl)). apply IH. intros x Hx. apply H. right. exact Hx.
Qed.

Lemma NoDup_map_inj : forall (A B : Type) (f : A -> B) l a b,
  NoDup (map f l) -> In a l -> In b l -> f a = f b -> a = b.
Proof.
  intros A B f l. induction l as [|x l IH]; intros a b Hnd Ha Hb Hf; [destruct Ha|].
  cbn in Hnd. inversion Hnd as [|? ? Hnotin Hnd']; subst.
  destruct Ha as [<-|Ha]; destruct Hb as [<-|Hb]; auto.
  - exfalso. apply Hnotin. rewrite Hf. apply in_map. exact Hb.
  - exfalso. apply Hnotin. rewrite <- Hf. apply in_map. exact Ha.
Qed.

Lemma rotated_token_gone : forall d s tok r exp t t',
  sessions_unique d ->
  session_findUnique_valid d tok t = Some s ->
  r <> tok ->
  session_findUnique_valid
    (set_sessions d (map_session (Session.id s) (Session_rotate r exp) (sessions d)))
    tok t' = None.
Proof.
  intros d s tok r exp t t' Huniq Hfind Hneq.
  unfold session_findUnique_valid in *. cbn [sessions set_sessions].
  apply find_some in Hfind. destruct Hfind as [Hin Hp].
  apply andb_true_iff in Hp. destruct Hp as [Hp _].
  apply andb_true_iff in Hp. destruct Hp as [Htok _].
  apply String.eqb_eq in Htok.
  apply find_all_false. intros x Hx.
  unfold map_session in Hx. apply in_map_iff in Hx. destruct Hx as (y & <- & Hy).
  destruct (Nat.eqb (Session.id y) (Session.id s)) eqn:Hid.
  - cbn. replace (String.eqb r tok) with false; [reflexivity|].
    symmetry. apply String.eqb_neq. exact Hneq.
  - destruct (String.eqb (Session.refreshToken y) tok) eqn:Hy'; [|reflexivity].
    apply String.eqb_eq in Hy'.
    assert (y = s).
    { apply (NoDup_map_inj _ _ Session.refreshToken (sessions d)); auto. congruence. }
    subst y. rewrite Nat.eqb_refl in Hid. discriminate.
Qed.

Lemma find_not_none : forall (A : Type) (p : A -> bool) l x,
  In x l -> p x = true -> find p l <> None.
Proof.
  intros A p l x Hin Hp E. pose proof (find_none _ _ E x Hin) as Hn.
  rewrite Hp in Hn. discriminate.
Qed.

(** What a refresh answered 200 has done: it found a session and put the
    new token and a new expiry on it. *)
Lemma refresh_success_inv : forall env token req w a r w1,
  asyncHandler (refresh env token) req w = (mkRes 200 (JTokens a r), w1) ->
  exists s,
    session_findUnique_valid (db w) token (now req) = Some s
    /\ db w1 = set_sessions (db w)
                 (map_session (Session.id s)
                    (Session_rotate r (sevenDaysLater env (now req)))
                    (sessions (db w))).
Proof.
  intros env token req w a r w1 Hrot.
  unfold asyncHandler, refresh, bind, get_db, ret, throw, session_update in Hrot.
  destruct (session_findUnique_valid (db w) token (now req)) as [s|] eqn:Hs;
    [|discriminate].
  exists s. split; [reflexivity|].
  destruct (verifyRefreshToken env token (now req)).
  2:{ destruct (session_findById (db w) (Session.id s)); [|discriminate].
      destruct (token_taken _ _ _); discriminate. }
  destruct (user_findUnique (db w) (Session.userId s)) as [u|]; [|discriminate].
  destruct (negb (User.isActive u)); [discriminate|].
  destruct (session_findById (db w) (Session.id s)); [|discriminate].
  destruct (token_taken _ _ _); [discriminate|].
  cbn in Hrot. inversion Hrot; subst. reflexivity.
Qed.

(** C3 (as the code has it). A refresh answered 200 has put a new token
    on the session.  When that token differs from the old one,
    presenting the old token again is answered 401 with
    [{ error: 'Invalid or expired refresh token' }] and the world is left
    as it was (no rotation, no new tokens); the answer is the one any
    token gets that matches no active, unexpired session, an expired one
    included.  When the new token is the old one (the signature names the
    user and the second only), the session still answers to it: until
    the new expiry a replay finds the session and is not answered as
    invalid or expired. *)
Theorem replayed_refresh_token_rejected :
  forall env token req w a r w1,
    sessions_unique (db w) ->
    asyncHandler (refresh env token) req w = (mkRes 200 (JTokens a r), w1) ->
    (r <> token ->
     forall req',
       asyncHandler (refresh env token) req' w1
       = (mkRes 401 (JError "Invalid or expired refresh token"), w1))
    /\ (r = token ->
        forall req',
          (now req' < sevenDaysLater env (now req))%Z ->
          session_findUnique_valid (db w1) token (now req') <> None
          /\ fst (asyncHandler (refresh env token) req' w1)
             <> mkRes 401 (JError "Invalid or expired refresh token"))
    /\ (forall late v,
          session_findUnique_valid (db v) token (now late) = None ->
          asyncHandler (refresh env token) late v
          = (mkRes 401 (JError "Invalid or expired refresh token"), v)).
Proof.
  intros env token req w a r w1 Huniq Hrot.
  assert (Hnone : forall late v,
             session_findUnique_valid (db v) token (now late) = None ->
             asyncHandler (refresh env token) late v
             = (mkRes 401 (JError "Invalid or expired refresh token"), v)).
  { intros late v Hv. unfold asyncHandler, refresh, bind, get_db, ret.
    rewrite Hv. reflexivity. }
  destruct (refresh_success_inv _ _ _ _ _ _ _ Hrot) as (s & Hs & Hdb).
  split; [|split; [|exact Hnone]].
  - intros Hneq req'. apply Hnone. rewrite Hdb.
    eapply rotated_token_gone; eauto.
  - intros Heq req' Hlate. subst r.
    assert (Hfound : session_findUnique_valid (db w1) token (now req') <> None).
    { rewrite Hdb. unfold session_findUnique_valid in *. cbn [sessions set_sessions].
      apply find_some in Hs. destruct Hs as [Hin Hp].
      apply andb_true_iff in Hp. destruct Hp as [Hp _].
      apply andb_true_iff in Hp. destruct Hp as [_ Hact].
      apply (find_not_none _ _ _
               (Session_rotate token (sevenDaysLater env (now req)) s)).
      - unfold map_session. apply in_map_iff. exists s.
        rewrite Nat.eqb_refl. auto.
      - cbn. rewrite String.eqb_refl, Hact. cbn. apply Z.ltb_lt. exact Hlate. }
    split; [exact Hfound|].
    unfold asyncHandler, refresh, bind, get_db, ret, throw, session_update.
    destruct (session_findUnique_valid (db w1) token (now req')) as [s'|];
      [|contradiction].
    destruct (verifyRefreshToken env token (now req')).
    + destruct (user_findUnique (db w1) (Session.userId s')) as [u|];
        [|cbn; discriminate].
      destruct (negb (User.isActive u)); [cbn; discriminate|].
      destruct (session_findById (db w1) (Session.id s')); [|cbn; discriminate].
      destruct (token_taken _ _ _); cbn; discriminate.
    + destruct (session_findById (db w1) (Session.id s')); [|cbn; discriminate].
      destruct (token_taken _ _ _); cbn; discriminate.
Qed.

Lemma replayed_refresh_token_rejected_witness :
  asyncHandler (refresh quietEnv "ref.1.1") (request alice "0a0000000001" 6000)
               world_rotated
  = (mkRes 401 (JError "Invalid or expired refresh token"), world_rotated)
  /\ session_findUnique_valid (db world_rotated_at_once) "ref.1.1"
       (now (request alice "0a0000000001" 1800)) <> None.
Proof.
  assert (Huniq : sessions_unique (db world_one_device))
    by (vm_compute; repeat constructor; intros []).
  split.
  - apply (proj1 (replayed_refresh_token_rejected quietEnv "ref.1.1"
                    (request alice "0a0000000001" 5000) world_one_device
                    "acc.1.5" "ref.1.5" world_rotated Huniq eq_refl)
                 ltac:(discriminate)).
  - exact (proj1 (proj1 (proj2 (replayed_refresh_token_rejected quietEnv "ref.1.1"
                                  (request alice "0a0000000001" 1500) world_one_device
                                  "acc.1.1" "ref.1.1" world_rotated_at_once
                                  Huniq eq_refl))
                        eq_refl (request alice "0a0000000001" 1800) eq_refl)).
Defined.

(** C3 fails as stated, twice over.  The replay of a rotated token, well
    before its expiry, gets the very response an expired token gets, so a
    revoked credential is not told apart from an expired one.  And a
    rotation within the second the token was signed in is answered 200
    with that same token, whose replay is then answered 200 as well. *)
Lemma replay_neither_told_apart_nor_refused :
  ~ replay_told_apart_from_expiry quietEnv "ref.1.1"
      (request alice "0a0000000001" 6000) world_rotated
      (request alice "0a0000000001" 700000000) world_one_device
  /\ fst (asyncHandler (refresh quietEnv "ref.1.1") (request alice "0a0000000001" 1500)
            world_one_device)
     = mkRes 200 (JTokens "acc.1.1" "ref.1.1")
  /\ ~ replay_refused quietEnv "ref.1.1" (request alice "0a0000000001" 1800)
         world_rotated_at_once.
Proof.
  split; [|split].
  - intro H. apply H. reflexivity.
  - reflexivity.
  - intro H. apply H. reflexivity.
Qed.

(** ** Device resolution on login *)

Lemma device_with_mac_has_id : forall d mac x,
  device_findUnique_mac d mac = Some x ->
  exists y, device_findUnique d (Device.id x) = Some y.
Proof.
  intros d mac x H. unfold device_findUnique_mac in H. unfold device_findUnique.
  apply find_some in H. destruct H as [Hin _].
  destruct (find (fun x0 => Nat.eqb (Device.id x0) (Device.id x)) (devices d)) eqn:E;
    [eauto|].
  pose proof (find_none _ _ E x Hin) as Hn. cbn in Hn.
  rewrite Nat.eqb_refl in Hn. discriminate.
Qed.

Lemma grant_quietly : forall env mac addr w,
  exists f t,
    try_catch (addDeviceToWhitelist env mac addr) (fun _ => ret tt) w
    = (Ret tt, mkWorld (db w) f (trace w ++ t)).
Proof.
  intros env mac addr w.
  unfold addDeviceToWhitelist, try_catch, bind, ret, throw, execAsync.
  cbn [run_command chain_of].
  destruct (execFails env (IptCheck FORWARD (MacSource mac)));
    [|destruct (has_rule (MacSource mac) (forward (fw w)))]; cbn;
    try (eexists _, _; reflexivity);
    destruct (execFails env (IptInsert FORWARD (MacSource mac))); cbn;
    rewrite <- ?app_assoc;
    try (eexists _, _; reflexivity);
    destruct (execFails env (IptInsert FORWARD (Source addr))); cbn;
    rewrite <- ?app_assoc; eexists _, _; reflexivity.
Qed.

(** C2 (as the code has it). Device resolution on login goes by the
    fingerprint alone.  Whenever an authenticated login presents a
    fingerprint some device row carries, whoever owns that row, the row
    is reused: the rows with its id get the address of the request, its
    User-Agent where it has one, the time of the request as last-seen
    time and the active flag, and keep id, MAC, name and owner; every
    other row stays, none is added, and the login is not answered with
    the quota rejection whatever the active-device count is: unless the
    new refresh token is already in the session table it is answered 200
    with that device. *)
Theorem login_reuses_device_by_fingerprint :
  forall env req w u x,
    user_findFirst_login (db w) (bLogin req) = Some u ->
    comparePassword env (bPassword req) (User.password u) = true ->
    device_findUnique_mac (db w) (i_macAddress (getDeviceInfo env req)) = Some x ->
    let w' := snd (asyncHandler (login env) req w) in
    let refreshed y :=
      Device.mk (Device.id y) (Device.macAddress y) (ip req) (Device.deviceName y)
                (match hUserAgent req with
                 | Some s => Some s
                 | None => Device.userAgent y
                 end)
                (Device.userId y) (now req) true in
    devices (db w')
    = map (fun y => if Nat.eqb (Device.id y) (Device.id x) then refreshed y else y)
          (devices (db w))
    /\ In (refreshed x) (devices (db w'))
    /\ In (EvDeviceUpdate (Device.id x)) (trace w')
    /\ length (devices (db w')) = length (devices (db w))
    /\ map Device.userId (devices (db w')) = map Device.userId (devices (db w))
    /\ status (fst (asyncHandler (login env) req w)) <> 403
    /\ (token_taken (db w) (refreshToken (generateTokens env (User.id u) (now req)))
                    None = false ->
        exists a t nm mc,
          fst (asyncHandler (login env) req w)
          = mkRes 200 (JLogin "Login successful" a t (User.id u) (User.email u)
                         (User.username u) (User.isAdmin u) (Device.id x) nm mc)).
Proof.
  intros env req w u x Hu Hpw Hx w' refreshed.
  assert (Hin_x : In x (devices (db w))).
  { unfold device_findUnique_mac in Hx. apply find_some in Hx. tauto. }
  assert (Hdev : devices (db w')
                 = map_device (Device.id x)
                     (Device_refresh (ip req) (hUserAgent req) (now req))
                     (devices (db w))
                 /\ In (EvDeviceUpdate (Device.id x)) (trace w')
                 /\ status (fst (asyncHandler (login env) req w)) <> 403
                 /\ (token_taken (db w)
                       (refreshToken (generateTokens env (User.id u) (now req))) None
                     = false ->
                     exists a t nm mc,
                       fst (asyncHandler (login env) req w)
                       = mkRes 200
                           (JLogin "Login successful" a t (User.id u) (User.email u)
                              (User.username u) (User.isAdmin u) (Device.id x) nm mc))).
  { destruct (device_with_mac_has_id _ _ _ Hx) as [y Hy].
    assert (Hyid : Device.id y = Device.id x).
    { unfold device_findUnique in Hy. apply find_some in Hy. destruct Hy as [_ Hy].
      apply Nat.eqb_eq in Hy. exact Hy. }
    subst w'. remember (asyncHandler (login env) req w) as res eqn:E.
    unfold asyncHandler, login in E. unfold bind at 1 in E. unfold get_db in E.
    rewrite Hu, Hpw, Hx in E. cbn [negb andb] in E.
    unfold bind at 1 in E. unfold device_update at 1 in E. rewrite Hy in E.
    unfold bind at 1 in E. unfold session_create at 1 in E. cbn [db fw trace] in E.
    match type of E with
    | context [token_taken ?d ?t None] => destruct (token_taken d t None) eqn:Ett
    end.
    - subst res. cbn. split; [reflexivity|].
      split; [apply in_or_app; right; left; reflexivity|].
      split; [discriminate|].
      intro Hf.
      assert (Ett' : token_taken (db w)
                       (refreshToken (generateTokens env (User.id u) (now req))) None
                     = true) by exact Ett.
      assert (Hf' : token_taken (db w)
                      (refreshToken (generateTokens env (User.id u) (now req))) None
                    = false) by exact Hf.
      congruence.
    - unfold bind at 1 in E.
      match type of E with
      | context [try_catch (addDeviceToWhitelist env ?m ?a) ?h ?v] =>
          destruct (grant_quietly env m a v) as (f & t & Eg); rewrite Eg in E
      end.
      unfold bind, ret, connection_create, auditLog_create in E. cbn in E.
      subst res. cbn. split; [reflexivity|].
      split; [rewrite <- !app_assoc; apply in_or_app; right; left; reflexivity|].
      split; [discriminate|].
      intros _. rewrite Hyid. eexists _, _, _, _. reflexivity. }
  destruct Hdev as (Hdev & Hin & Hst & Hok).
  assert (Hdev' : devices (db w')
                  = map (fun y => if Nat.eqb (Device.id y) (Device.id x)
                                  then refreshed y else y)
                        (devices (db w))) by exact Hdev.
  split; [exact Hdev'|].
  split.
  { rewrite Hdev'. apply in_map_iff. exists x. rewrite Nat.eqb_refl. auto. }
  split; [exact Hin|].
  rewrite Hdev'. rewrite length_map, map_map.
  split; [reflexivity|]. split; [|split; [exact Hst | exact Hok]].
  apply map_ext. intro a. destruct (Nat.eqb (Device.id a) (Device.id x)); reflexivity.
Qed.

Lemma login_reuses_device_by_fingerprint_witness :
  map Device.isActive (devices (db world_device_offline)) = [false]
  /\ devices (db (snd (asyncHandler (login quietEnv) alice_returns
                         world_device_offline)))
     = [Device.mk 100 "0a:00:00:00:00:01" "10.0.0.9" "Unknown Device" (Some "01") 1
                  7000 true].
Proof.
  split; [reflexivity|].
  rewrite (proj1 (login_reuses_device_by_fingerprint quietEnv alice_returns
                    world_device_offline alice
                    (Device.mk 100 "0a:00:00:00:00:01" "0a0000000001" "Unknown Device"
                               None 1 1000 false)
                    eq_refl eq_refl eq_refl)).
  reflexivity.
Defined.

(** C2 fails as stated: when Alice logs in from the machine Bob logged in
    from, Bob's device row is the one updated; no row is created for
    Alice, the row stays Bob's, and Alice gets a connection on it. *)
Lemma login_reuses_foreign_device :
  ~ foreign_device_not_reused quietEnv (request alice "0a0000000001" 2000)
      world_bob_device.
Proof.
  intro H.
  apply (H alice
           (Device.mk 100 "0a:00:00:00:00:01" "0a0000000001" "Unknown Device"
                      None 2 1000 true));
    try reflexivity.
  - discriminate.
  - vm_compute. auto.
Qed.

Example foreign_login_outcome :
  let w := snd (asyncHandler (login quietEnv) (request alice "0a0000000001" 2000)
                  world_bob_device) in
  status (fst (asyncHandler (login quietEnv) (request alice "0a0000000001" 2000)
                 world_bob_device)) = 200
  /\ map Device.userId (devices (db w)) = [2]
  /\ map (fun c => (Connection.userId c, Connection.deviceId c)) (connections (db w))
     = [(2, 100); (1, 100)].
Proof.
  vm_compute. auto.
Qed.

(** ** Requests aimed at a device of another user *)

Lemma foreign_device_not_owned : forall d did uid x,
  NoDup (map Device.id (devices d)) ->
  In x (devices d) ->
  Device.id x = did ->
  Device.userId x <> uid ->
  device_findFirst_owned d did uid = None.
Proof.
  intros d did uid x Hnd Hin Hid Hown. unfold device_findFirst_owned.
  apply find_all_false. intros y Hy.
  destruct (Nat.eqb (Device.id y) did) eqn:E; [|reflexivity].
  apply Nat.eqb_eq in E.
  assert (y = x) by (apply (NoDup_map_inj _ _ Device.id (devices d)); auto; congruence).
  subst y. cbn. apply Nat.eqb_neq. exact Hown.
Qed.

(** C10 (as the code has it). A detail, disconnect, delete or history
    request whose device id is that of another user's device is answered
    404 [{ error: 'Device not found' }] and leaves the store, the filter
    and the trace exactly as they were.  So is a rename whose name is a
    string with something other than white space in it.  A rename whose
    name is missing, falsy, or a string empty after trimming is answered
    400 [{ error: 'Device name is required' }] before the device is
    looked up; one whose name is another value (a number, an array, an
    object) throws at [deviceName.trim] and is answered 500.  Neither
    changes anything. *)
Theorem foreign_device_requests_rejected :
  forall env req w x,
    NoDup (map Device.id (devices (db w))) ->
    In x (devices (db w)) ->
    Device.id x = pDeviceId req ->
    Device.userId x <> User.id (user req) ->
    asyncHandler device_detail req w = (mkRes 404 (JError "Device not found"), w)
    /\ asyncHandler (device_disconnect env) req w
       = (mkRes 404 (JError "Device not found"), w)
    /\ asyncHandler (device_remove env) req w
       = (mkRes 404 (JError "Device not found"), w)
    /\ asyncHandler device_connections req w
       = (mkRes 404 (JError "Device not found"), w)
    /\ asyncHandler device_rename req w
       = (match bDeviceName req with
          | Missing => mkRes 400 (JError "Device name is required")
          | Other => mkRes 500 (JError "Internal server error")
          | Text n =>
              if Nat.eqb (String.length (trim n)) 0
              then mkRes 400 (JError "Device name is required")
              else mkRes 404 (JError "Device not found")
          end,
          w).
Proof.
  intros env req w x Hnd Hin Hid Hown.
  pose proof (foreign_device_not_owned _ _ _ _ Hnd Hin Hid Hown) as Hnone.
  repeat split.
  - unfold asyncHandler, device_detail, bind, get_db, ret. rewrite Hnone. reflexivity.
  - unfold asyncHandler, device_disconnect, bind, get_db, ret. rewrite Hnone.
    reflexivity.
  - unfold asyncHandler, device_remove, bind, get_db, ret. rewrite Hnone. reflexivity.
  - unfold asyncHandler, device_connections, bind, get_db, ret. rewrite Hnone.
    reflexivity.
  - unfold asyncHandler, device_rename, isBlank, bind, get_db, ret, throw.
    destruct (bDeviceName req) as [|n|]; [reflexivity| |reflexivity].
    destruct n as [|c n]; [reflexivity|]. cbn [String.eqb orb].
    destruct (Nat.eqb (String.length (trim (String c n))) 0); [reflexivity|].
    rewrite Hnone. reflexivity.
Qed.

Lemma foreign_device_requests_rejected_witness :
  asyncHandler (device_disconnect quietEnv)
               (with_device 100 (request alice "0a0000000002" 2000)) world_bob_device
  = (mkRes 404 (JError "Device not found"), world_bob_device)
  /\ asyncHandler device_rename
       (with_deviceName (Text (nbsp ++ "Tablet" ++ nbsp))
          (with_device 100 (request alice "0a0000000002" 2000))) world_bob_device
     = (mkRes 404 (JError "Device not found"), world_bob_device)
  /\ asyncHandler device_rename
       (with_deviceName (Text nbsp)
          (with_device 100 (request alice "0a0000000002" 2000))) world_bob_device
     = (mkRes 400 (JError "Device name is required"), world_bob_device)
  /\ asyncHandler device_rename
       (with_deviceName Other
          (with_device 100 (request alice "0a0000000002" 2000))) world_bob_device
     = (mkRes 500 (JError "Internal server error"), world_bob_device).
Proof.
  assert (Hnd : NoDup (map Device.id (devices (db world_bob_device))))
    by (vm_compute; repeat constructor; intros []).
  assert (Hin : In (Device.mk 100 "0a:00:00:00:00:01" "0a0000000001" "Unknown Device"
                              None 2 1000 true)
                   (devices (db world_bob_device)))
    by (vm_compute; auto).
  assert (Hown : Device.userId
                   (Device.mk 100 "0a:00:00:00:00:01" "0a0000000001" "Unknown Device"
                              None 2 1000 true)
                 <> User.id alice)
    by (vm_compute; discriminate).
  split; [|split; [|split]].
  - exact (proj1 (proj2 (foreign_device_requests_rejected quietEnv
                           (with_device 100 (request alice "0a0000000002" 2000))
                           world_bob_device _ Hnd Hin eq_refl Hown))).
  - exact (proj2 (proj2 (proj2 (proj2
             (foreign_device_requests_rejected quietEnv
                (with_deviceName (Text (nbsp ++ "Tablet" ++ nbsp))
                   (with_device 100 (request alice "0a0000000002" 2000)))
                world_bob_device _ Hnd Hin eq_refl Hown))))).
  - exact (proj2 (proj2 (proj2 (proj2
             (foreign_device_requests_rejected quietEnv
                (with_deviceName (Text nbsp)
                   (with_device 100 (request alice "0a0000000002" 2000)))
                world_bob_device _ Hnd Hin eq_refl Hown))))).
  - exact (proj2 (proj2 (proj2 (proj2
             (foreign_device_requests_rejected quietEnv
                (with_deviceName Other
                   (with_device 100 (request alice "0a0000000002" 2000)))
                world_bob_device _ Hnd Hin eq_refl Hown))))).
Defined.

(** C10 fails as stated: a rename of another user's device that carries a
    blank name is answered 400, not with the device-not-found error. *)
Lemma foreign_rename_blank_name :
  ~ foreign_rename_not_found
      (with_deviceName (Text " ") (with_device 100 (request alice "0a0000000002" 2000)))
      world_bob_device.
Proof.
  intro H.
  specialize (H (Device.mk 100 "0a:00:00:00:00:01" "0a0000000001" "Unknown Device"
                           None 2 1000 true)).
  vm_compute in H.
  specialize (H (or_introl eq_refl) eq_refl ltac:(discriminate)).
  discriminate.
Qed.

(** ** The device quota *)

Lemma filter_map_shrinks : forall (A : Type) (p : A -> bool) (f : A -> A) l,
  (forall x, p (f x) = true -> p x = true) ->
  length (filter p (map f l)) <= length (filter p l).
Proof.
  intros A p f l H. induction l as [|a l IH]; [constructor|].
  cbn. destruct (p (f a)) eqn:E.
  - rewrite (H a E). cbn. lia.
  - destruct (p a); cbn; lia.
Qed.

Lemma filter_filter_shrinks : forall (A : Type) (p q : A -> bool) l,
  length (filter p (filter q l)) <= length (filter p l).
Proof.
  intros A p q l. induction l as [|a l IH]; [constructor|].
  cbn. destruct (q a); cbn; destruct (p a); cbn; lia.
Qed.

(** Outside the reactivation branch of the login the operations keep the
    quota: a logout leaves the device table alone. *)
Lemma logout_keeps_active_counts : forall env req w uid,
  device_count_active (db (snd (asyncHandler (logout env) req w))) uid
  = device_count_active (db w) uid.
Proof.
  intros env req w uid.
  destruct (logout_steps env req w) as (Hr & _ & Hd & _).
  unfold asyncHandler. destruct (logout env req w) as [r w']; cbn in *.
  subst r. cbn. unfold device_count_active, active_devices_of. rewrite Hd. reflexivity.
Qed.

(** A device disconnect can only lower a user's active count. *)
Lemma disconnect_lowers_active_counts : forall env req w uid,
  device_count_active (db (snd (asyncHandler (device_disconnect env) req w))) uid
  <= device_count_active (db w) uid.
Proof.
  intros env req w uid.
  destruct (device_findFirst_owned (db w) (pDeviceId req) (User.id (user req)))
    as [device|] eqn:Hown.
  - destruct (owned_device_has_id _ _ _ _ Hown) as [y Hy].
    destruct (revoke_quietly_trace env device w) as [f Hrev].
    unfold revoke_quietly in Hrev.
    remember (asyncHandler (device_disconnect env) req w) as res eqn:E.
    unfold asyncHandler, device_disconnect in E. unfold bind at 1 in E.
    unfold get_db in E. rewrite Hown in E. unfold bind at 1 in E. rewrite Hrev in E.
    unfold bind, ret, device_update, connection_updateMany, auditLog_create in E.
    cbn [db fw trace] in E. rewrite Hy in E. cbn in E. subst res. cbn.
    unfold device_count_active, active_devices_of, map_device. cbn.
    apply filter_map_shrinks. intros x Hx.
    destruct (Nat.eqb (Device.id x) (pDeviceId req)); [|exact Hx].
    cbn in Hx. rewrite andb_false_r in Hx. discriminate.
  - unfold asyncHandler, device_disconnect, bind, get_db, ret. rewrite Hown. cbn.
    constructor.
Qed.

(** A device delete can only lower a user's active count. *)
Lemma delete_lowers_active_counts : forall env req w uid,
  device_count_active (db (snd (asyncHandler (device_remove env) req w))) uid
  <= device_count_active (db w) uid.
Proof.
  intros env req w uid.
  destruct (device_findFirst_owned (db w) (pDeviceId req) (User.id (user req)))
    as [device|] eqn:Hown.
  - destruct (owned_device_has_id _ _ _ _ Hown) as [y Hy].
    destruct (revoke_quietly_trace env device w) as [f Hrev].
    unfold revoke_quietly in Hrev.
    remember (asyncHandler (device_remove env) req w) as res eqn:E.
    unfold asyncHandler, device_remove in E. unfold bind at 1 in E.
    unfold get_db in E. rewrite Hown in E. unfold bind at 1 in E. rewrite Hrev in E.
    unfold bind, ret, device_delete, auditLog_create in E.
    cbn [db fw trace] in E. rewrite Hy in E. cbn in E. subst res. cbn.
    unfold device_count_active, active_devices_of. cbn.
    apply filter_filter_shrinks.
  - unfold asyncHandler, device_remove, bind, get_db, ret. rewrite Hown. cbn.
    constructor.
Qed.

(** After [disconnect-all] nobody has an active device. *)
Lemma disconnect_all_clears_active_counts : forall env req w uid,
  device_count_active (db (snd (disconnect_all env req w))) uid = 0.
Proof.
  intros env req w uid.
  pose proof (disconnect_all_devices_off env req w) as Hoff.
  unfold device_count_active, active_devices_of.
  induction (devices (db (snd (disconnect_all env req w)))) as [|a l IH];
    [reflexivity|].
  cbn. rewrite (Hoff a (or_introl eq_refl)), andb_false_r.
  apply IH. intros x Hx. apply Hoff. right. exact Hx.
Qed.

(** A login that finds no device with the fingerprint keeps the quota: it
    is either refused or adds one active device to a user below the
    maximum. *)
Lemma login_new_device_keeps_quota : forall env req w,
  device_findUnique_mac (db w) (i_macAddress (getDeviceInfo env req)) = None ->
  quota_holds env (db w) ->
  quota_holds env (db (snd (asyncHandler (login env) req w))).
Proof.
  intros env req w Hnew Hq.
  remember (asyncHandler (login env) req w) as res eqn:E.
  unfold asyncHandler, login in E. unfold bind at 1 in E. unfold get_db in E.
  destruct (user_findFirst_login (db w) (bLogin req)) as [u|];
    [|subst res; exact Hq].
  destruct (negb (comparePassword env (bPassword req) (User.password u)));
    [subst res; exact Hq|].
  rewrite Hnew in E. cbn [andb] in E.
  destruct (Z.of_nat (device_count_active (db w) (User.id u)) >=? maxDevices env)%Z
    eqn:Hfull; [subst res; exact Hq|].
  assert (Hroom : (Z.of_nat (device_count_active (db w) (User.id u)) < maxDevices env)%Z).
  { destruct (Z.geb_spec (Z.of_nat (device_count_active (db w) (User.id u)))
                (maxDevices env)); [discriminate | assumption]. }
  assert (Hdev : exists row,
             devices (db (snd res)) = devices (db w) ++ [row]
             /\ Device.userId row = User.id u).
  { unfold bind at 1 in E. unfold device_create at 1 in E. rewrite Hnew in E.
    unfold bind at 1 in E. unfold session_create at 1 in E. cbn [db fw trace] in E.
    match type of E with
    | context [token_taken ?d ?t None] => destruct (token_taken d t None)
    end.
    - subst res. cbn. eexists. split; reflexivity.
    - unfold bind at 1 in E.
      match type of E with
      | context [try_catch (addDeviceToWhitelist env ?m ?a) ?h ?v] =>
          destruct (grant_quietly env m a v) as (f & t & Eg); rewrite Eg in E
      end.
      unfold bind, ret, connection_create, auditLog_create in E. cbn in E.
      subst res. cbn. eexists. split; reflexivity. }
  destruct Hdev as (row & Hdev & Hrow).
  intro uid. unfold device_count_active, active_devices_of. rewrite Hdev.
  rewrite filter_app, length_app. cbn [filter].
  specialize (Hq uid). unfold device_count_active, active_devices_of in Hq, Hroom.
  destruct (Nat.eqb (Device.userId row) uid && Device.isActive row) eqn:Hr; cbn.
  - apply andb_true_iff in Hr. destruct Hr as [Hr _]. apply Nat.eqb_eq in Hr.
    rewrite Hrow in Hr. subst uid. lia.
  - lia.
Qed.

Lemma filter_map_same : forall (A : Type) (p : A -> bool) (f : A -> A) l,
  (forall x, In x l -> p (f x) = p x) ->
  length (filter p (map f l)) = length (filter p l).
Proof.
  intros A p f l H. induction l as [|a l IH]; [reflexivity|].
  cbn. rewrite (H a (or_introl eq_refl)).
  assert (IH' : length (filter p (map f l)) = length (filter p l))
    by (apply IH; intros x Hx; apply H; right; exact Hx).
  destruct (p a); cbn; rewrite IH'; reflexivity.
Qed.

(** A login from a device that is already active changes no active count.
    What is left is the login from an inactive device, which activates it
    without looking at the count. *)
Lemma login_active_device_keeps_counts : forall env req w u x uid,
  NoDup (map Device.id (devices (db w))) ->
  user_findFirst_login (db w) (bLogin req) = Some u ->
  comparePassword env (bPassword req) (User.password u) = true ->
  device_findUnique_mac (db w) (i_macAddress (getDeviceInfo env req)) = Some x ->
  Device.isActive x = true ->
  device_count_active (db (snd (asyncHandler (login env) req w))) uid
  = device_count_active (db w) uid.
Proof.
  intros env req w u x uid Hnd Hu Hpw Hx Hact.
  assert (Hdev : devices (db (snd (asyncHandler (login env) req w)))
                 = map_device (Device.id x)
                     (Device_refresh (ip req) (hUserAgent req) (now req))
                     (devices (db w))).
  { destruct (device_with_mac_has_id _ _ _ Hx) as [y Hy].
    remember (asyncHandler (login env) req w) as res eqn:E.
    unfold asyncHandler, login in E. unfold bind at 1 in E. unfold get_db in E.
    rewrite Hu, Hpw, Hx in E. cbn [negb andb] in E.
    unfold bind at 1 in E. unfold device_update at 1 in E. rewrite Hy in E.
    unfold bind at 1 in E. unfold session_create at 1 in E. cbn [db fw trace] in E.
    match type of E with
    | context [token_taken ?d ?t None] => destruct (token_taken d t None)
    end.
    - subst res. reflexivity.
    - unfold bind at 1 in E.
      match type of E with
      | context [try_catch (addDeviceToWhitelist env ?m ?a) ?h ?v] =>
          destruct (grant_quietly env m a v) as (f & t & Eg); rewrite Eg in E
      end.
      unfold bind, ret, connection_create, auditLog_create in E. cbn in E.
      subst res. reflexivity. }
  unfold device_count_active, active_devices_of. rewrite Hdev. unfold map_device.
  apply filter_map_same. intros y Hy.
  destruct (Nat.eqb (Device.id y) (Device.id x)) eqn:Hid; [|reflexivity].
  apply Nat.eqb_eq in Hid.
  assert (y = x).
  { apply (NoDup_map_inj _ _ Device.id (devices (db w))); auto.
    unfold device_findUnique_mac in Hx. apply find_some in Hx. tauto. }
  subst y. cbn. rewrite Hact. reflexivity.
Qed.

(** C1, evaluated where the code breaks it.  Every step is a login or a
    device disconnect run on its own, starting from a store without
    devices.  With four active devices and one inactive one the quota
    holds for every user; Alice then logs in from the machine of the
    inactive device, the login is answered 200, and she has five active
    devices against a maximum of four. *)
Theorem reactivation_exceeds_quota :
  let req := request alice "0a0000000001" 7000 in
  let w := world_four_active_one_inactive in
  maxDevices quietEnv = 4%Z
  /\ quota_holds quietEnv (db w)
  /\ map Device.isActive (devices (db w)) = [false; true; true; true; true]
  /\ status (fst (asyncHandler (login quietEnv) req w)) = 200
  /\ device_count_active (db (snd (asyncHandler (login quietEnv) req w))) 1 = 5
  /\ ~ quota_holds quietEnv (db (snd (asyncHandler (login quietEnv) req w))).
Proof.
  cbv zeta. split; [reflexivity|]. split; [|split; [|split; [|split]]].
  - intro uid. unfold device_count_active, active_devices_of.
    let ds := eval vm_compute in (devices (db world_four_active_one_inactive)) in
    change (devices (db world_four_active_one_inactive)) with ds.
    change (maxDevices quietEnv) with 4%Z.
    cbn [filter Device.userId Device.isActive andb].
    destruct (Nat.eqb 1 uid); cbn; lia.
  - vm_compute. reflexivity.
  - vm_compute. reflexivity.
  - vm_compute. reflexivity.
  - intro H. specialize (H 1). vm_compute in H. apply H. reflexivity.
Qed.

(** * Further properties of the code *)

(** ** The filter driver: grant and revoke together *)

Lemma delete_first_absent : forall r l,
  has_rule r l = false -> delete_first r l = l.
Proof.
  intros r l. induction l as [|x t IH]; intro H; [reflexivity|].
  rewrite has_rule_cons in H. apply orb_false_iff in H. destruct H as [Hx Ht].
  cbn. rewrite Hx. f_equal. apply IH. exact Ht.
Qed.

Lemma count_occ_delete_first_other : forall r x l,
  r <> x ->
  count_occ Rule_eq_dec (delete_first x l) r = count_occ Rule_eq_dec l r.
Proof.
  intros r x l Hne. induction l as [|y t IH]; [reflexivity|].
  cbn [delete_first]. destruct (Rule_eqb x y) eqn:E.
  - apply Rule_eqb_eq in E. subst y. rewrite count_occ_cons_neq; congruence.
  - destruct (Rule_eq_dec y r) as [->|Hyr].
    + rewrite !count_occ_cons_eq by reflexivity. f_equal. exact IH.
    + rewrite !count_occ_cons_neq by assumption. exact IH.
Qed.

Lemma set_chain_forward_same : forall f, set_chain f FORWARD (forward f) = f.
Proof. intros []. reflexivity. Qed.

Lemma after_delete_absent : forall env r f,
  has_rule r (forward f) = false -> after_delete env r f = f.
Proof.
  intros env r f H. unfold after_delete.
  destruct (iptablesFails env (IptDeleteQuiet FORWARD r)); [reflexivity|].
  rewrite (delete_first_absent _ _ H). apply set_chain_forward_same.
Qed.

Lemma after_delete_count : forall env x f r,
  r <> x ->
  count_occ Rule_eq_dec (forward (after_delete env x f)) r
  = count_occ Rule_eq_dec (forward f) r.
Proof.
  intros env x f r Hne. unfold after_delete.
  destruct (iptablesFails env (IptDeleteQuiet FORWARD x)); [reflexivity|].
  cbn [set_chain forward]. apply count_occ_delete_first_other. exact Hne.
Qed.

Lemma after_delete_rest : forall env x f,
  natPrerouting (after_delete env x f) = natPrerouting f
  /\ natPostrouting (after_delete env x f) = natPostrouting f
  /\ ipForward (after_delete env x f) = ipForward f.
Proof.
  intros env x f. unfold after_delete.
  destruct (iptablesFails env (IptDeleteQuiet FORWARD x)); cbn; auto.
Qed.

Lemma revoke_cases : forall env mac addr w,
  let f := fw w in
  let f1 := after_delete env (MacSource mac) f in
  let f2 := after_delete env (Source addr) f1 in
  let res := removeDeviceFromWhitelist env mac addr w in
  db (snd res) = db w
  /\ ((execFails env (IptDeleteQuiet FORWARD (MacSource mac)) = true
       /\ fw (snd res) = f
       /\ fst res = Throw (ExecError (IptDeleteQuiet FORWARD (MacSource mac))))
      \/ (execFails env (IptDeleteQuiet FORWARD (MacSource mac)) = false
          /\ execFails env (IptDeleteQuiet FORWARD (Source addr)) = true
          /\ fw (snd res) = f1
          /\ fst res = Throw (ExecError (IptDeleteQuiet FORWARD (Source addr))))
      \/ (execFails env (IptDeleteQuiet FORWARD (MacSource mac)) = false
          /\ execFails env (IptDeleteQuiet FORWARD (Source addr)) = false
          /\ fw (snd res) = f2
          /\ fst res = Ret tt)).
Proof.
  intros env mac addr w.
  unfold removeDeviceFromWhitelist, try_catch, bind, ret, throw, execAsync,
    after_delete.
  cbn [run_command chain_of].
  destruct (execFails env (IptDeleteQuiet FORWARD (MacSource mac))) eqn:Hm; cbn;
    [auto|].
  destruct (execFails env (IptDeleteQuiet FORWARD (Source addr))) eqn:Hs; cbn;
    split; auto.
  - right. left. auto.
  - right. right. auto.
Qed.

Lemma grant_cases : forall env mac addr w,
  let f := fw w in
  let f1 := set_chain f FORWARD (MacSource mac :: forward f) in
  let f2 := set_chain f1 FORWARD (Source addr :: forward f1) in
  let res := addDeviceToWhitelist env mac addr w in
  db (snd res) = db w
  /\ (fw (snd res) = f \/ fw (snd res) = f1 \/ fw (snd res) = f2).
Proof.
  intros env mac addr w.
  unfold addDeviceToWhitelist, try_catch, bind, ret, throw, execAsync.
  cbn [run_command chain_of].
  destruct (execFails env (IptCheck FORWARD (MacSource mac)));
    [|destruct (has_rule (MacSource mac) (forward (fw w)))]; cbn; auto;
    destruct (execFails env (IptInsert FORWARD (MacSource mac))); cbn; auto;
    destruct (execFails env (IptInsert FORWARD (Source addr))); cbn; auto.
Qed.

(** X1. Revoking what was never granted is not an error: when neither
    delete command fails to run, [removeDeviceFromWhitelist] resolves
    whatever the chain holds, and a chain with no rule for the MAC and
    none for the address is left exactly as it was. *)
Theorem revoke_without_grant_succeeds :
  forall env mac addr w,
    execFails env (IptDeleteQuiet FORWARD (MacSource mac)) = false ->
    execFails env (IptDeleteQuiet FORWARD (Source addr)) = false ->
    fst (removeDeviceFromWhitelist env mac addr w) = Ret tt
    /\ (has_rule (MacSource mac) (forward (fw w)) = false ->
        has_rule (Source addr) (forward (fw w)) = false ->
        fw (snd (removeDeviceFromWhitelist env mac addr w)) = fw w).
Proof.
  intros env mac addr w Hm Hs.
  destruct (revoke_cases env mac addr w)
    as (_ & [(Hm' & _) | [(_ & Hs' & _) | (_ & _ & Hfw & Hres)]]);
    try congruence.
  split; [exact Hres|]. intros Hnm Hns. rewrite Hfw.
  rewrite (after_delete_absent env _ _ Hnm).
  apply after_delete_absent. exact Hns.
Qed.

Lemma revoke_without_grant_succeeds_witness :
  fst (removeDeviceFromWhitelist quietEnv "0a:00:00:00:00:09" "10.0.0.9"
         world_initialized) = Ret tt
  /\ fw (snd (removeDeviceFromWhitelist quietEnv "0a:00:00:00:00:09" "10.0.0.9"
                world_initialized)) = fw world_initialized.
Proof.
  destruct (revoke_without_grant_succeeds quietEnv "0a:00:00:00:00:09" "10.0.0.9"
              world_initialized eq_refl eq_refl) as [Hres Hfw].
  split; [exact Hres | exact (Hfw eq_refl eq_refl)].
Defined.

(** X2. Grant and revoke undo each other when iptables does its part:
    from a chain with no accept rule for the MAC, a grant that resolves
    followed by a revoke that resolves leaves the filter exactly as it
    was before the grant, also when the chain already held a rule for the
    same address, provided iptables gave up on neither delete.  Where it
    gave up on both, the revoke resolves all the same and the filter
    still holds both rules of the grant. *)
Theorem grant_then_revoke_restores :
  forall env mac addr w,
    has_rule (MacSource mac) (forward (fw w)) = false ->
    fst (addDeviceToWhitelist env mac addr w) = Ret tt ->
    let w1 := snd (addDeviceToWhitelist env mac addr w) in
    fst (removeDeviceFromWhitelist env mac addr w1) = Ret tt ->
    let w2 := snd (removeDeviceFromWhitelist env mac addr w1) in
    (iptablesFails env (IptDeleteQuiet FORWARD (MacSource mac)) = false ->
     iptablesFails env (IptDeleteQuiet FORWARD (Source addr)) = false ->
     fw w2 = fw w)
    /\ (iptablesFails env (IptDeleteQuiet FORWARD (MacSource mac)) = true ->
        iptablesFails env (IptDeleteQuiet FORWARD (Source addr)) = true ->
        fw w2 = fw w1
        /\ forward (fw w2) = Source addr :: MacSource mac :: forward (fw w)).
Proof.
  intros env mac addr w Hhas Hg w1 Hr w2.
  destruct (grant_when_absent env mac addr w Hhas)
    as [(_ & _ & Hres) | [(_ & _ & Hres) | (Hfw & _)]];
    try (rewrite Hres in Hg; discriminate).
  fold w1 in Hfw.
  destruct (revoke_cases env mac addr w1)
    as (_ & [(_ & _ & Hres) | [(_ & _ & _ & Hres) | (_ & _ & Hfw2 & _)]]);
    try (rewrite Hres in Hr; discriminate).
  fold w2 in Hfw2. split.
  - intros Hm Hs. rewrite Hfw2, Hfw. unfold after_delete. rewrite Hm.
    cbn [set_chain forward delete_first natPrerouting natPostrouting ipForward].
    rewrite Hs.
    cbn [set_chain forward delete_first natPrerouting natPostrouting ipForward].
    replace (Rule_eqb (MacSource mac) (Source addr)) with false
      by (unfold Rule_eqb; destruct (Rule_eq_dec _ _); congruence).
    rewrite !Rule_eqb_refl. cbn [delete_first]. rewrite Rule_eqb_refl.
    destruct (fw w). reflexivity.
  - intros Hm Hs. rewrite Hfw2. unfold after_delete. rewrite Hm, Hs.
    split; [reflexivity|]. rewrite Hfw. reflexivity.
Qed.

Lemma grant_then_revoke_restores_witness :
  fw (snd (removeDeviceFromWhitelist quietEnv "0a:00:00:00:00:01" "10.0.0.7"
             (snd (addDeviceToWhitelist quietEnv "0a:00:00:00:00:01" "10.0.0.7"
                     world_initialized))))
  = fw world_initialized
  /\ forward
       (fw (snd (removeDeviceFromWhitelist lockedEnv "0a:00:00:00:00:01" "10.0.0.7"
                   (snd (addDeviceToWhitelist lockedEnv "0a:00:00:00:00:01"
                           "10.0.0.7" world_initialized)))))
     = Source "10.0.0.7" :: MacSource "0a:00:00:00:00:01" :: basePolicy.
Proof.
  split.
  - exact (proj1 (grant_then_revoke_restores quietEnv "0a:00:00:00:00:01" "10.0.0.7"
                    world_initialized eq_refl eq_refl eq_refl) eq_refl eq_refl).
  - exact (proj2 (proj2 (grant_then_revoke_restores lockedEnv "0a:00:00:00:00:01"
                           "10.0.0.7" world_initialized eq_refl eq_refl eq_refl)
                        eq_refl eq_refl)).
Defined.

(** X3. Grant and revoke touch nothing but the two rules of their device:
    however either call ends, every other rule occurs in the FORWARD
    chain as often as before, and the nat chains, the forwarding switch
    and the store are as before. *)
Theorem grant_and_revoke_frame :
  forall env mac addr w r,
    r <> MacSource mac ->
    r <> Source addr ->
    let g := snd (addDeviceToWhitelist env mac addr w) in
    let v := snd (removeDeviceFromWhitelist env mac addr w) in
    (count_occ Rule_eq_dec (forward (fw g)) r = count_occ Rule_eq_dec (forward (fw w)) r
     /\ natPrerouting (fw g) = natPrerouting (fw w)
     /\ natPostrouting (fw g) = natPostrouting (fw w)
     /\ ipForward (fw g) = ipForward (fw w)
     /\ db g = db w)
    /\ (count_occ Rule_eq_dec (forward (fw v)) r = count_occ Rule_eq_dec (forward (fw w)) r
        /\ natPrerouting (fw v) = natPrerouting (fw w)
        /\ natPostrouting (fw v) = natPostrouting (fw w)
        /\ ipForward (fw v) = ipForward (fw w)
        /\ db v = db w).
Proof.
  intros env mac addr w r Hm Hs g v. split.
  - destruct (grant_cases env mac addr w) as (Hdb & [Hfw | [Hfw | Hfw]]);
      fold g in Hdb, Hfw; rewrite Hfw; cbn [set_chain forward natPrerouting
                                             natPostrouting ipForward];
      rewrite ?count_occ_cons_neq by congruence; auto.
  - destruct (revoke_cases env mac addr w)
      as (Hdb & [(_ & Hfw & _) | [(_ & _ & Hfw & _) | (_ & _ & Hfw & _)]]);
      fold v in Hdb, Hfw; rewrite Hfw;
      rewrite ?after_delete_count by congruence;
      repeat match goal with
             | |- context [after_delete env ?x ?f] =>
                 destruct (after_delete_rest env x f) as (-> & -> & ->)
             end;
      auto.
Qed.

Lemma grant_and_revoke_frame_witness :
  count_occ Rule_eq_dec
    (forward (fw (snd (removeDeviceFromWhitelist quietEnv "0a:00:00:00:00:01"
                         "0a0000000001" world_three_devices))))
    (MacSource "0a:00:00:00:00:02")
  = 1.
Proof.
  rewrite (proj1 (proj2 (grant_and_revoke_frame quietEnv "0a:00:00:00:00:01"
                           "0a0000000001" world_three_devices
                           (MacSource "0a:00:00:00:00:02")
                           ltac:(discriminate) ltac:(discriminate)))).
  reflexivity.
Defined.

(** X4. A revoke only knows the address it is given.  When a device is
    granted at one address, granted again at another (a no-op, its MAC
    rule being there) and then revoked at the second address, the accept
    rule of the first address stays in the chain, whatever iptables did
    with the deletes; the MAC rule is gone if iptables did not give up on
    its delete. *)
Theorem revoke_leaves_first_address :
  forall env mac a1 a2 w,
    has_rule (MacSource mac) (forward (fw w)) = false ->
    a1 <> a2 ->
    execFails env (IptCheck FORWARD (MacSource mac)) = false ->
    let w1 := snd (addDeviceToWhitelist env mac a1 w) in
    let w2 := snd (addDeviceToWhitelist env mac a2 w1) in
    let w3 := snd (removeDeviceFromWhitelist env mac a2 w2) in
    fst (addDeviceToWhitelist env mac a1 w) = Ret tt ->
    fst (removeDeviceFromWhitelist env mac a2 w2) = Ret tt ->
    fw w2 = fw w1
    /\ has_rule (Source a1) (forward (fw w3)) = true
    /\ (iptablesFails env (IptDeleteQuiet FORWARD (MacSource mac)) = false ->
        has_rule (MacSource mac) (forward (fw w3)) = false).
Proof.
  intros env mac a1 a2 w Hhas Hne Hcheck w1 w2 w3 Hg Hr.
  destruct (grant_when_absent env mac a1 w Hhas)
    as [(_ & _ & Hres) | [(_ & _ & Hres) | (Hfw & _)]];
    try (rewrite Hres in Hg; discriminate).
  fold w1 in Hfw.
  assert (Hhas1 : has_rule (MacSource mac) (forward (fw w1)) = true).
  { rewrite Hfw. cbn. rewrite Rule_eqb_refl. reflexivity. }
  assert (E2 : fw w2 = fw w1).
  { subst w2. rewrite (grant_when_present env mac a2 w1 Hcheck Hhas1). reflexivity. }
  split; [exact E2|].
  destruct (revoke_cases env mac a2 w2)
    as (_ & [(_ & _ & Hres) | [(_ & _ & _ & Hres) | (_ & _ & Hfw3 & _)]]);
    try (rewrite Hres in Hr; discriminate).
  fold w3 in Hfw3. rewrite Hfw3, E2, Hfw.
  assert (Hma : Rule_eqb (MacSource mac) (Source a1) = false)
    by (unfold Rule_eqb; destruct (Rule_eq_dec _ _); congruence).
  assert (Haa : Rule_eqb (Source a2) (Source a1) = false)
    by (unfold Rule_eqb; destruct (Rule_eq_dec _ _); congruence).
  assert (Ham : Rule_eqb (Source a2) (MacSource mac) = false)
    by (unfold Rule_eqb; destruct (Rule_eq_dec _ _); congruence).
  assert (Hdel : forall l, has_rule (MacSource mac) l = false ->
                           has_rule (MacSource mac) (delete_first (Source a2) l) = false).
  { induction l as [|x t IH]; intro H; [reflexivity|].
    rewrite has_rule_cons in H. apply orb_false_iff in H. destruct H as [Hx Ht].
    cbn [delete_first]. destruct (Rule_eqb (Source a2) x); [exact Ht|].
    rewrite has_rule_cons, Hx. cbn. apply IH. exact Ht. }
  unfold after_delete.
  destruct (iptablesFails env (IptDeleteQuiet FORWARD (MacSource mac)));
    destruct (iptablesFails env (IptDeleteQuiet FORWARD (Source a2)));
    cbn [set_chain forward delete_first natPrerouting natPostrouting ipForward];
    rewrite ?Hma, ?Haa, ?Ham, ?Rule_eqb_refl;
    cbn [set_chain forward delete_first natPrerouting natPostrouting ipForward];
    rewrite ?Hma, ?Haa, ?Ham, ?Rule_eqb_refl;
    rewrite !has_rule_cons, ?Rule_eqb_refl, ?Hma;
    (split; [reflexivity|]); try discriminate; intros _; cbn [orb].
  - exact Hhas.
  - apply Hdel. exact Hhas.
Qed.

Lemma revoke_leaves_first_address_witness :
  has_rule (Source "10.0.0.7")
    (forward (fw (snd (removeDeviceFromWhitelist quietEnv "0a:00:00:00:00:01"
                         "10.0.0.8"
                         (snd (addDeviceToWhitelist quietEnv "0a:00:00:00:00:01"
                                 "10.0.0.8"
                                 (snd (addDeviceToWhitelist quietEnv
                                         "0a:00:00:00:00:01" "10.0.0.7"
                                         world0)))))))) = true
  /\ has_rule (MacSource "0a:00:00:00:00:01")
       (forward (fw (snd (removeDeviceFromWhitelist quietEnv "0a:00:00:00:00:01"
                            "10.0.0.8"
                            (snd (addDeviceToWhitelist quietEnv "0a:00:00:00:00:01"
                                    "10.0.0.8"
                                    (snd (addDeviceToWhitelist quietEnv
                                            "0a:00:00:00:00:01" "10.0.0.7"
                                            world0)))))))) = false
  /\ has_rule (MacSource "0a:00:00:00:00:01")
       (forward (fw (snd (removeDeviceFromWhitelist lockedEnv "0a:00:00:00:00:01"
                            "10.0.0.8"
                            (snd (addDeviceToWhitelist lockedEnv "0a:00:00:00:00:01"
                                    "10.0.0.8"
                                    (snd (addDeviceToWhitelist lockedEnv
                                            "0a:00:00:00:00:01" "10.0.0.7"
                                            world0)))))))) = true.
Proof.
  destruct (revoke_leaves_first_address quietEnv "0a:00:00:00:00:01"
              "10.0.0.7" "10.0.0.8" world0 eq_refl ltac:(discriminate)
              eq_refl eq_refl eq_refl) as (_ & Ha & Hm).
  split; [exact Ha|]. split; [exact (Hm eq_refl) | reflexivity].
Defined.

(** ** The filter driver: base policy, grants and NAT rules *)

(** X5. A grant puts its two rules on top of the chain: after a grant
    that inserts (no rule for the MAC before, the call resolves), the
    rules a packet is tried against are the address rule, the MAC rule,
    and then the ones it was tried against before; so a grant made after
    [initializeCaptivePortal] takes effect ahead of the default deny. *)
Theorem grant_goes_above_default_deny :
  forall env mac addr w,
    has_rule (MacSource mac) (forward (fw w)) = false ->
    fst (addDeviceToWhitelist env mac addr w) = Ret tt ->
    reachable (forward (fw (snd (addDeviceToWhitelist env mac addr w))))
    = Source addr :: MacSource mac :: reachable (forward (fw w)).
Proof.
  intros env mac addr w Hhas Hg.
  destruct (grant_when_absent env mac addr w Hhas)
    as [(_ & _ & Hres) | [(_ & _ & Hres) | (Hfw & _)]];
    try (rewrite Hres in Hg; discriminate).
  rewrite Hfw. reflexivity.
Qed.

Lemma grant_goes_above_default_deny_witness :
  reachable (forward (fw (snd (addDeviceToWhitelist quietEnv "0a:00:00:00:00:01"
                                 "10.0.0.7" world_initialized))))
  = [Source "10.0.0.7"; MacSource "0a:00:00:00:00:01";
     DPort "tcp" "5000"; DPort "tcp" "443"; DPort "tcp" "80"; DPort "tcp" "53";
     DPort "udp" "53"; StateMatch "ESTABLISHED,RELATED"; OutInterface "lo";
     InInterface "lo"].
Proof.
  rewrite (grant_goes_above_default_deny quietEnv "0a:00:00:00:00:01" "10.0.0.7"
             world_initialized eq_refl eq_refl).
  reflexivity.
Defined.

(** X6. A failed [initializeCaptivePortal] does not restore what it
    flushed.  When the flush itself cannot be run the filter is
    untouched; when a later command fails, the FORWARD chain is left
    without the default deny and without any per-device accept rule.
    The store is untouched either way. *)
Theorem initialize_failure_leaves_no_default_deny :
  forall env w e,
    fst (initializeCaptivePortal env w) = Throw e ->
    let w' := snd (initializeCaptivePortal env w) in
    db w' = db w
    /\ (execFails env (IptFlush FORWARD) = true -> fw w' = fw w)
    /\ (execFails env (IptFlush FORWARD) = false ->
        has_rule DropAll (forward (fw w')) = false
        /\ forall mac, has_rule (MacSource mac) (forward (fw w')) = false).
Proof.
  intros env w e.
  unfold initializeCaptivePortal, try_catch, bind, ret, throw, execAsync.
  cbn [run_command].
  destruct (execFails env (IptFlush FORWARD)) eqn:H0; cbn.
  { intros _. repeat split; discriminate. }
  repeat match goal with
         | |- context [execFails env ?c] =>
             destruct (execFails env c) eqn:?; cbn;
             [solve [intros _; repeat split; try discriminate; auto] | ]
         end.
  intro H. discriminate H.
Qed.

Lemma initialize_failure_leaves_no_default_deny_witness :
  has_rule DropAll
    (forward (fw (snd (initializeCaptivePortal noDenyEnv world_three_devices))))
  = false.
Proof.
  exact (proj1 (proj2 (proj2 (initialize_failure_leaves_no_default_deny noDenyEnv
                                world_three_devices
                                (ExecError (IptAppend FORWARD DropAll)) eq_refl))
                      eq_refl)).
Defined.




(** ** The fingerprint *)

Lemma toLowerCase_length : forall s, String.length (toLowerCase s) = String.length s.
Proof.
  induction s as [|c t IH]; [reflexivity|]. cbn. rewrite IH. reflexivity.
Qed.

(** X8. The fingerprint has the shape of a MAC address whenever the
    digest has at least twelve characters (an MD5 hex digest has 32): it
    is 17 characters long, five of them colons after each pair.  It is
    computed from the User-Agent and the first X-Forwarded-For entry
    alone when that header is present: the socket address and [req.ip]
    do not enter it. *)
Theorem fingerprint_shape :
  forall env req,
    (12 <= String.length
             (md5hex env (i_ipAddress (getDeviceInfo env req)
                          ++ i_userAgent (getDeviceInfo env req))))%nat ->
    let mac := i_macAddress (getDeviceInfo env req) in
    String.length mac = 17
    /\ String.get 2 mac = Some ":"%char
    /\ String.get 5 mac = Some ":"%char
    /\ String.get 8 mac = Some ":"%char
    /\ String.get 11 mac = Some ":"%char
    /\ String.get 14 mac = Some ":"%char
    /\ (forall req' f,
          truthy (hXForwardedFor req) = Some f ->
          hXForwardedFor req' = hXForwardedFor req ->
          hUserAgent req' = hUserAgent req ->
          i_macAddress (getDeviceInfo env req') = mac).
Proof.
  intros env req Hlen mac. subst mac.
  assert (Hind : forall req' f,
             truthy (hXForwardedFor req) = Some f ->
             hXForwardedFor req' = hXForwardedFor req ->
             hUserAgent req' = hUserAgent req ->
             i_macAddress (getDeviceInfo env req')
             = i_macAddress (getDeviceInfo env req)).
  { intros req' f Hf Hx Hu. unfold getDeviceInfo. cbn [i_macAddress].
    rewrite Hx, Hu, Hf. reflexivity. }
  repeat (split; [|try exact Hind]);
    unfold getDeviceInfo in Hlen |- *;
    cbn [i_macAddress i_ipAddress i_userAgent] in *;
    set (h := md5hex env _) in *; clearbody h;
    do 12 (destruct h as [|? h]; [cbn in Hlen; lia|]);
    reflexivity.
Qed.

Lemma fingerprint_shape_witness :
  String.length
    (i_macAddress (getDeviceInfo quietEnv
                     (mkReq "172.16.0.1" "172.16.0.1" (Some "Windows NT 10.0")
                            (Some "10.0.0.7, 192.168.1.1") None "alice" "pw-a"
                            None Missing 0 None None alice 1000)))
  = 17.
Proof.
  exact (proj1 (fingerprint_shape quietEnv
                  (mkReq "172.16.0.1" "172.16.0.1" (Some "Windows NT 10.0")
                         (Some "10.0.0.7, 192.168.1.1") None "alice" "pw-a"
                         None Missing 0 None None alice 1000)
                  ltac:(vm_compute; lia))).
Defined.

(** ** Sessions: login, refresh and logout together *)

Lemma token_taken_false : forall d tok except s,
  token_taken d tok except = false ->
  In s (sessions d) ->
  Session.refreshToken s = tok ->
  except = Some (Session.id s).
Proof.
  intros d tok except s Ht Hin Htok. unfold token_taken in Ht.
  assert (H : String.eqb (Session.refreshToken s) tok
              && match except with
                 | Some sid => negb (Nat.eqb (Session.id s) sid)
                 | None => true
                 end = false).
  { destruct (String.eqb (Session.refreshToken s) tok
              && match except with
                 | Some sid => negb (Nat.eqb (Session.id s) sid)
                 | None => true
                 end) eqn:E; [|reflexivity].
    assert (Hex : existsb (fun s0 => String.eqb (Session.refreshToken s0) tok
                                     && match except with
                                        | Some sid => negb (Nat.eqb (Session.id s0) sid)
                                        | None => true
                                        end) (sessions d) = true)
      by (apply existsb_exists; exists s; auto).
    congruence. }
  rewrite (proj2 (String.eqb_eq _ _) Htok) in H. cbn in H.
  destruct except as [sid|]; [|discriminate].
  apply negb_false_iff, Nat.eqb_eq in H. congruence.
Qed.

(** What a login answered 200 has done to the session and user tables. *)
Lemma login_success_inv : forall env req w r w1,
  asyncHandler (login env) req w = (r, w1) ->
  status r = 200 ->
  exists u sid dev,
    user_findFirst_login (db w) (bLogin req) = Some u
    /\ comparePassword env (bPassword req) (User.password u) = true
    /\ token_taken (db w) (refreshToken (generateTokens env (User.id u) (now req)))
                   None = false
    /\ sessions (db w1)
       = sessions (db w)
         ++ [Session.mk sid (refreshToken (generateTokens env (User.id u) (now req)))
                        (User.id u) (sevenDaysLater env (now req)) true]
    /\ users (db w1) = users (db w)
    /\ body r = JLogin "Login successful"
                  (accessToken (generateTokens env (User.id u) (now req)))
                  (refreshToken (generateTokens env (User.id u) (now req)))
                  (User.id u) (User.email u) (User.username u) (User.isAdmin u)
                  (Device.id dev) (Device.deviceName dev) (Device.macAddress dev).
Proof.
  intros env req w r w1 E Hst.
  unfold asyncHandler, login in E. unfold bind at 1 in E. unfold get_db in E.
  remember (getDeviceInfo env req) as info eqn:Hinfo.
  destruct (user_findFirst_login (db w) (bLogin req)) as [u|] eqn:Hu;
    [|inversion E; subst; discriminate].
  destruct (comparePassword env (bPassword req) (User.password u)) eqn:Hpw;
    [|inversion E; subst; discriminate].
  cbn [negb] in E.
  destruct (device_findUnique_mac (db w) (i_macAddress info))
    as [x|] eqn:Hx.
  - cbn [andb] in E. unfold bind at 1 in E. unfold device_update at 1 in E.
    destruct (device_findUnique (db w) (Device.id x)) as [y|];
      [|inversion E; subst; discriminate].
    unfold bind at 1 in E. unfold session_create at 1 in E. cbn [db fw trace] in E.
    change (token_taken (set_devices (db w) ?l) ?t None)
      with (token_taken (db w) t None) in E.
    destruct (token_taken (db w)
                (refreshToken (generateTokens env (User.id u) (now req))) None)
      eqn:Ht; [inversion E; subst; discriminate|].
    unfold bind at 1 in E.
    match type of E with
    | context [try_catch (addDeviceToWhitelist env ?m ?a) ?h ?v] =>
        destruct (grant_quietly env m a v) as (f & t & Eg); rewrite Eg in E
    end.
    unfold bind, ret, connection_create, auditLog_create in E. cbn in E.
    inversion E; subst r w1. eexists u, _, _. cbn. repeat split; auto.
  - cbn [andb] in E.
    destruct (Z.of_nat (device_count_active (db w) (User.id u)) >=? maxDevices env)%Z;
      [inversion E; subst; discriminate|].
    unfold bind at 1 in E. unfold device_create at 1 in E. rewrite Hx in E.
    unfold bind at 1 in E. unfold session_create at 1 in E. cbn [db fw trace] in E.
    change (token_taken (bump_id (set_devices (db w) ?l)) ?t None)
      with (token_taken (db w) t None) in E.
    destruct (token_taken (db w)
                (refreshToken (generateTokens env (User.id u) (now req))) None)
      eqn:Ht; [inversion E; subst; discriminate|].
    unfold bind at 1 in E.
    match type of E with
    | context [try_catch (addDeviceToWhitelist env ?m ?a) ?h ?v] =>
        destruct (grant_quietly env m a v) as (f & t & Eg); rewrite Eg in E
    end.
    unfold bind, ret, connection_create, auditLog_create in E. cbn in E.
    inversion E; subst r w1.
    exists u, (S (nextId (db w))),
      (Device.mk (nextId (db w)) (i_macAddress info) (ip req) (i_deviceName info)
                 (hUserAgent req) (User.id u) (now req) Device_isActive_default).
    cbn. repeat split; auto.
Qed.

Lemma find_app_last : forall (A : Type) (p : A -> bool) l x,
  (forall y, In y l -> p y = false) -> p x = true -> find p (l ++ [x]) = Some x.
Proof.
  intros A p l x Hl Hx. induction l as [|a l IH]; cbn.
  - rewrite Hx. reflexivity.
  - rewrite (Hl a (or_introl eq_refl)). apply IH. intros y Hy. apply Hl. right. exact Hy.
Qed.

Lemma user_findUnique_own : forall d u,
  NoDup (map User.id (users d)) -> In u (users d) ->
  user_findUnique d (User.id u) = Some u.
Proof.
  intros d u Hnd Hin. unfold user_findUnique.
  destruct (find (fun u0 => Nat.eqb (User.id u0) (User.id u)) (users d)) as [v|] eqn:E.
  - apply find_some in E. destruct E as [Hv Hid]. apply Nat.eqb_eq in Hid.
    f_equal. apply (NoDup_map_inj _ _ User.id (users d)); auto.
  - pose proof (find_none _ _ E u Hin) as Hn. cbn in Hn.
    rewrite Nat.eqb_refl in Hn. discriminate.
Qed.

Lemma token_not_taken_None : forall d tok s,
  token_taken d tok None = false -> In s (sessions d) -> Session.refreshToken s <> tok.
Proof.
  intros d tok s Ht Hin Heq.
  pose proof (token_taken_false d tok None s Ht Hin Heq). discriminate.
Qed.

(** X9. Login and refresh fit together: the refresh token a successful
    login returns is found by [POST /refresh] at any time before the
    expiry the login gave its session (the clock reading of the login
    moved on by seven calendar days), as long as the token verifies, and
    is then rotated; the answer is 200 with the tokens generated for the
    same user at the time of the refresh.  (User ids are taken to be
    unique, and the new refresh token not to be held by a session older
    than the login.) *)
Theorem login_then_refresh :
  forall env req w r w1 req' msg a t uid em un adm did nm mc,
    asyncHandler (login env) req w = (r, w1) ->
    status r = 200 ->
    body r = JLogin msg a t uid em un adm did nm mc ->
    NoDup (map User.id (users (db w))) ->
    (now req' < sevenDaysLater env (now req))%Z ->
    verifyRefreshToken env t (now req') <> None ->
    (forall s, In s (sessions (db w)) ->
               Session.refreshToken s
               <> refreshToken (generateTokens env uid (now req'))) ->
    fst (asyncHandler (refresh env t) req' w1)
    = mkRes 200 (JTokens (accessToken (generateTokens env uid (now req')))
                         (refreshToken (generateTokens env uid (now req')))).
Proof.
  intros env req w r w1 req' msg a t uid em un adm did nm mc E Hst Hbody Hnd Hlt
         Hver Hfresh.
  destruct (login_success_inv env req w r w1 E Hst)
    as (u & sid & dev & Hu & _ & Htaken & Hsess & Husers & Hb).
  assert (Heq : t = refreshToken (generateTokens env (User.id u) (now req))
                /\ uid = User.id u)
    by (rewrite Hb in Hbody; injection Hbody; auto).
  destruct Heq as [-> ->]. clear Hbody.
  set (tok := refreshToken (generateTokens env (User.id u) (now req))) in *.
  set (row := Session.mk sid tok (User.id u) (sevenDaysLater env (now req)) true) in *.
  assert (Hfind : session_findUnique_valid (db w1) tok (now req') = Some row).
  { unfold session_findUnique_valid. rewrite Hsess. apply find_app_last.
    - intros y Hy.
      replace (String.eqb (Session.refreshToken y) tok) with false; [reflexivity|].
      symmetry. apply String.eqb_neq. eapply token_not_taken_None; eauto.
    - cbn. rewrite String.eqb_refl. cbn. apply Z.ltb_lt. exact Hlt. }
  assert (Huser : user_findUnique (db w1) (User.id u) = Some u
                  /\ User.isActive u = true).
  { unfold user_findFirst_login in Hu. apply find_some in Hu. destruct Hu as [Hin Hp].
    apply andb_true_iff in Hp. split; [|tauto].
    unfold user_findUnique. rewrite Husers. apply user_findUnique_own; assumption. }
  destruct Huser as [Huser Hact].
  assert (Hbyid : exists s0, session_findById (db w1) sid = Some s0).
  { unfold session_findById.
    destruct (find (fun s => Nat.eqb (Session.id s) sid) (sessions (db w1))) eqn:F;
      [eauto|].
    assert (Hin : In row (sessions (db w1)))
      by (rewrite Hsess; apply in_or_app; right; left; reflexivity).
    pose proof (find_none _ _ F row Hin) as Hn. cbn in Hn.
    rewrite Nat.eqb_refl in Hn. discriminate. }
  destruct Hbyid as [s0 Hs0].
  assert (Hfree : forall s1,
             token_taken (db w1)
               (Session.refreshToken
                  (Session_rotate
                     (refreshToken (generateTokens env (User.id u) (now req')))
                     (sevenDaysLater env (now req')) s1))
               (Some sid) = false).
  { intro s1. cbn [Session_rotate Session.refreshToken]. unfold token_taken.
    rewrite Hsess, existsb_app. apply orb_false_iff. split.
    - destruct (existsb _ (sessions (db w))) eqn:Ex; [|reflexivity].
      apply existsb_exists in Ex. destruct Ex as (y & Hy & Hp).
      apply andb_true_iff in Hp. destruct Hp as [Hp _]. apply String.eqb_eq in Hp.
      exfalso. exact (Hfresh y Hy Hp).
    - cbn. rewrite Nat.eqb_refl. cbn. rewrite andb_false_r. reflexivity. }
  unfold asyncHandler, refresh, bind, get_db, ret, throw, session_update.
  rewrite Hfind.
  destruct (verifyRefreshToken env tok (now req')); [|congruence].
  cbn [Session.userId Session.id row]. rewrite Huser, Hact. cbn [negb].
  rewrite Hs0, Hfree. reflexivity.
Qed.

Lemma login_then_refresh_witness :
  fst (asyncHandler (refresh quietEnv "ref.1.1") (request alice "0a0000000001" 5000)
         (snd (asyncHandler (login quietEnv) (request alice "0a0000000001" 1000)
                 world0)))
  = mkRes 200 (JTokens "acc.1.5" "ref.1.5").
Proof.
  apply (login_then_refresh quietEnv (request alice "0a0000000001" 1000) world0
           (fst (asyncHandler (login quietEnv) (request alice "0a0000000001" 1000)
                   world0))
           (snd (asyncHandler (login quietEnv) (request alice "0a0000000001" 1000)
                   world0))
           (request alice "0a0000000001" 5000)
           "Login successful" "acc.1.1" "ref.1.1" 1 "alice@example.org" "alice" false
           100 "Unknown Device" "0a:00:00:00:00:01").
  - reflexivity.
  - reflexivity.
  - reflexivity.
  - vm_compute. repeat constructor; cbn; intuition discriminate.
  - vm_compute. reflexivity.
  - vm_compute. discriminate.
  - intros s [].
Defined.

(** X10. Logout revokes the refresh token it is given: after a logout
    that carries a token, [POST /refresh] with that token is answered 401
    [{ error: 'Invalid or expired refresh token' }] and changes nothing,
    whatever the state of the session before and whether or not the
    logout carried a valid access token. *)
Theorem logout_then_refresh_rejected :
  forall env req w token req',
    truthy (bRefreshToken req) = Some token ->
    let w1 := snd (asyncHandler (logout env) req w) in
    asyncHandler (refresh env token) req' w1
    = (mkRes 401 (JError "Invalid or expired refresh token"), w1).
Proof.
  intros env req w token req' Htok w1.
  assert (Hnone : session_findUnique_valid (db w1) token (now req') = None).
  { subst w1. unfold asyncHandler.
    pose proof (logout_sessions env req w) as Hs. rewrite Htok in Hs.
    destruct (logout env req w) as [[r|e] v]; cbn in Hs |- *;
      unfold session_findUnique_valid; rewrite Hs;
      apply find_all_false; intros x Hx;
      apply in_map_iff in Hx; destruct Hx as (y & <- & _);
      destruct (String.eqb (Session.refreshToken y) token) eqn:Ey;
      cbn; rewrite ?Ey; cbn; try reflexivity;
      rewrite andb_false_r; reflexivity. }
  unfold asyncHandler at 1. unfold refresh, bind, get_db, ret.
  rewrite Hnone. reflexivity.
Qed.

Lemma logout_then_refresh_rejected_witness :
  fst (asyncHandler (refresh quietEnv "ref.1.1") (request alice "0a0000000001" 3000)
         world_after_logout)
  = mkRes 401 (JError "Invalid or expired refresh token").
Proof.
  change world_after_logout
    with (snd (asyncHandler (logout quietEnv) alice_logout world_one_device)).
  rewrite (logout_then_refresh_rejected quietEnv alice_logout world_one_device
             "ref.1.1" (request alice "0a0000000001" 3000) eq_refl).
  reflexivity.
Defined.

(** X11. A stored token that no longer verifies costs the session: when
    the session is found but [verifyRefreshToken] throws, the refresh is
    answered 401 [{ error: 'Invalid refresh token' }] and the session is
    deactivated, so every later refresh with the token is answered 401
    [{ error: 'Invalid or expired refresh token' }], also by a verifier
    that would accept it again. *)
Theorem unverifiable_token_deactivates_session :
  forall env token req w s,
    sessions_unique (db w) ->
    session_findUnique_valid (db w) token (now req) = Some s ->
    verifyRefreshToken env token (now req) = None ->
    let w1 := snd (asyncHandler (refresh env token) req w) in
    fst (asyncHandler (refresh env token) req w)
    = mkRes 401 (JError "Invalid refresh token")
    /\ forall env' req',
         asyncHandler (refresh env' token) req' w1
         = (mkRes 401 (JError "Invalid or expired refresh token"), w1).
Proof.
  intros env token req w s Huniq Hfind Hver w1.
  assert (Hin : In s (sessions (db w)) /\ Session.refreshToken s = token).
  { unfold session_findUnique_valid in Hfind. apply find_some in Hfind.
    destruct Hfind as [Hin Hp]. split; [exact Hin|].
    apply andb_true_iff in Hp. destruct Hp as [Hp _].
    apply andb_true_iff in Hp. destruct Hp as [Hp _]. apply String.eqb_eq. exact Hp. }
  destruct Hin as [Hin Htok].
  assert (Hbyid : exists s0, session_findById (db w) (Session.id s) = Some s0).
  { unfold session_findById.
    destruct (find (fun x => Nat.eqb (Session.id x) (Session.id s)) (sessions (db w)))
      eqn:F; [eauto|].
    pose proof (find_none _ _ F s Hin) as Hn. cbn in Hn.
    rewrite Nat.eqb_refl in Hn. discriminate. }
  destruct Hbyid as [s0 Hs0].
  assert (Hsame : forall y, In y (sessions (db w)) ->
                            Session.refreshToken y = token -> y = s).
  { intros y Hy Hty. apply (NoDup_map_inj _ _ Session.refreshToken (sessions (db w)));
      auto. congruence. }
  assert (Hfree : token_taken (db w)
                    (Session.refreshToken (Session_set_isActive false s0))
                    (Some (Session.id s)) = false).
  { cbn [Session_set_isActive Session.refreshToken]. unfold token_taken.
    destruct (existsb _ (sessions (db w))) eqn:Ex; [|reflexivity].
    apply existsb_exists in Ex. destruct Ex as (y & Hy & Hp).
    apply andb_true_iff in Hp. destruct Hp as [Hp Hid].
    apply String.eqb_eq in Hp.
    assert (Hs0in : In s0 (sessions (db w)) /\ Session.id s0 = Session.id s).
    { unfold session_findById in Hs0. apply find_some in Hs0.
      destruct Hs0 as [? Hq]. apply Nat.eqb_eq in Hq. auto. }
    destruct Hs0in as [Hs0in Hs0id].
    assert (y = s0)
      by (apply (NoDup_map_inj _ _ Session.refreshToken (sessions (db w))); auto).
    subst y. rewrite Hs0id, Nat.eqb_refl in Hid. discriminate. }
  assert (E : asyncHandler (refresh env token) req w
              = (mkRes 401 (JError "Invalid refresh token"),
                 mkWorld (set_sessions (db w)
                            (map_session (Session.id s) (Session_set_isActive false)
                                         (sessions (db w))))
                         (fw w) (trace w ++ [EvSessionUpdate (Session.id s)]))).
  { unfold asyncHandler, refresh, bind, get_db, ret, session_update.
    rewrite Hfind, Hver, Hs0, Hfree. reflexivity. }
  subst w1. rewrite E. cbn [fst snd]. split; [reflexivity|].
  intros env' req'.
  unfold asyncHandler, refresh, bind, get_db, ret.
  replace (session_findUnique_valid _ token (now req')) with (@None Session.t);
    [reflexivity|].
  symmetry. unfold session_findUnique_valid. cbn [db sessions set_sessions].
  apply find_all_false. intros x Hx. unfold map_session in Hx.
  apply in_map_iff in Hx. destruct Hx as (y & <- & Hy).
  destruct (Nat.eqb (Session.id y) (Session.id s)) eqn:Hid.
  - cbn. rewrite andb_false_r. reflexivity.
  - destruct (String.eqb (Session.refreshToken y) token) eqn:Ey; [|reflexivity].
    apply String.eqb_eq in Ey. rewrite (Hsame y Hy Ey), Nat.eqb_refl in Hid.
    discriminate.
Qed.

Lemma unverifiable_token_deactivates_session_witness :
  asyncHandler (refresh quietEnv "ref.1.1") (request alice "0a0000000001" 4000)
    (snd (asyncHandler (refresh rekeyedEnv "ref.1.1")
            (request alice "0a0000000001" 3000) world_one_device))
  = (mkRes 401 (JError "Invalid or expired refresh token"),
     snd (asyncHandler (refresh rekeyedEnv "ref.1.1")
            (request alice "0a0000000001" 3000) world_one_device)).
Proof.
  apply (proj2 (unverifiable_token_deactivates_session rekeyedEnv "ref.1.1"
                  (request alice "0a0000000001" 3000) world_one_device
                  (Session.mk 101 "ref.1.1" 1 604801000 true)
                  ltac:(vm_compute; repeat constructor; intros [])
                  eq_refl eq_refl)).
Defined.

(** X12. The login has no transaction around it.  When the device is new
    and admitted but the session cannot be stored because its refresh
    token is already in the table (P2002, answered 409), the device row
    created a step earlier stays: the user has one more active device,
    and no session, connection, audit entry or filter rule for it. *)
Theorem login_conflict_keeps_device :
  forall env req w u,
    user_findFirst_login (db w) (bLogin req) = Some u ->
    comparePassword env (bPassword req) (User.password u) = true ->
    device_findUnique_mac (db w) (i_macAddress (getDeviceInfo env req)) = None ->
    (Z.of_nat (device_count_active (db w) (User.id u)) < maxDevices env)%Z ->
    token_taken (db w) (refreshToken (generateTokens env (User.id u) (now req))) None
    = true ->
    let w1 := snd (asyncHandler (login env) req w) in
    fst (asyncHandler (login env) req w)
    = mkRes 409 (JError "Duplicate entry. This record already exists.")
    /\ devices (db w1)
       = devices (db w)
         ++ [Device.mk (nextId (db w)) (i_macAddress (getDeviceInfo env req)) (ip req)
                       (i_deviceName (getDeviceInfo env req)) (hUserAgent req)
                       (User.id u) (now req) true]
    /\ device_count_active (db w1) (User.id u)
       = S (device_count_active (db w) (User.id u))
    /\ sessions (db w1) = sessions (db w)
    /\ connections (db w1) = connections (db w)
    /\ auditLogs (db w1) = auditLogs (db w)
    /\ fw w1 = fw w.
Proof.
  intros env req w u Hu Hpw Hx Hroom Ht w1.
  assert (E : asyncHandler (login env) req w
              = (mkRes 409 (JError "Duplicate entry. This record already exists."),
                 mkWorld
                   (bump_id
                      (set_devices (db w)
                         (devices (db w)
                          ++ [Device.mk (nextId (db w))
                                (i_macAddress (getDeviceInfo env req)) (ip req)
                                (i_deviceName (getDeviceInfo env req)) (hUserAgent req)
                                (User.id u) (now req) true])))
                   (fw w) (trace w ++ [EvDeviceCreate (nextId (db w))]))).
  { unfold asyncHandler, login. unfold bind at 1. unfold get_db.
    rewrite Hu, Hpw, Hx. cbn [negb andb].
    replace (Z.of_nat (device_count_active (db w) (User.id u)) >=? maxDevices env)%Z
      with false by (symmetry; rewrite Z.geb_leb; apply Z.leb_gt; exact Hroom).
    unfold bind at 1. unfold device_create at 1. rewrite Hx.
    unfold bind at 1. unfold session_create at 1. cbn [db fw trace].
    change (token_taken (bump_id (set_devices (db w) ?l)) ?t None)
      with (token_taken (db w) t None).
    rewrite Ht. reflexivity. }
  subst w1. rewrite E. cbn [fst snd db fw]. repeat split.
  unfold device_count_active, active_devices_of. cbn [devices bump_id set_devices].
  rewrite filter_app, length_app. cbn. rewrite Nat.eqb_refl. cbn. lia.
Qed.

Lemma login_conflict_keeps_device_witness :
  fst (asyncHandler (login quietEnv) same_second_login world_one_device)
  = mkRes 409 (JError "Duplicate entry. This record already exists.")
  /\ device_count_active
       (db (snd (asyncHandler (login quietEnv) same_second_login world_one_device))) 1
     = 2.
Proof.
  destruct (login_conflict_keeps_device quietEnv same_second_login world_one_device
              alice eq_refl eq_refl eq_refl ltac:(vm_compute; reflexivity) eq_refl)
    as (H1 & _ & H3 & _).
  split; [exact H1 | exact H3].
Defined.

(** ** The authentication middleware *)

Lemma user_findUnique_some : forall d uid u,
  user_findUnique d uid = Some u -> In u (users d) /\ User.id u = uid.
Proof.
  intros d uid u H. unfold user_findUnique in H. apply find_some in H.
  destruct H as [Hin Hid]. apply Nat.eqb_eq in Hid. auto.
Qed.

(** X13. [authMiddleware] lets a request through only for a user who is
    in the user table and active at that moment, named by a non-empty
    bearer token that verifies; what it attaches to the request is that
    user's row without the password.  In every other case the route
    behind it does not run and the world is left as it was. *)
Theorem authMiddleware_admits_only_active_users :
  forall env why req d,
    (forall o,
        authMiddleware env why req d = Next o ->
        exists token u,
          o = Some (select_public u)
          /\ bearer (hAuthorization req) = Some token
          /\ token <> ""
          /\ jwtVerify env (JWT_SECRET env) token (now req) = Some (User.id u)
          /\ In u (users d)
          /\ User.isActive u = true)
    /\ (forall r h w,
          d = db w ->
          authMiddleware env why req d = Respond r ->
          behind_auth env why h req w = (r, w)
          /\ (status r = 401 \/ status r = 500)).
Proof.
  intros env why req d. split.
  - intros o H. unfold authMiddleware in H.
    destruct (bearer (hAuthorization req)) as [token|]; [|discriminate].
    destruct (String.eqb token "") eqn:Hempty; [discriminate|].
    destruct (jwtVerify env (JWT_SECRET env) token (now req)) as [uid|] eqn:Hv.
    + destruct (user_findUnique d uid) as [u|] eqn:Hu; [|discriminate].
      destruct (User.isActive u) eqn:Hact; [|discriminate].
      cbn in H. inversion H; subst o.
      destruct (user_findUnique_some _ _ _ Hu) as [Hin Hid].
      exists token, u. repeat split; auto.
      * apply String.eqb_neq. exact Hempty.
      * congruence.
    + destruct (why token (now req)); discriminate.
  - intros r h w Hd H. unfold behind_auth. rewrite <- Hd, H. split; [reflexivity|].
    unfold authMiddleware in H.
    repeat match type of H with
           | context [match ?x with _ => _ end] => destruct x
           end;
      try discriminate; inversion H; cbn; auto.
Qed.

Lemma authMiddleware_admits_only_active_users_witness :
  behind_auth quietEnv (fun _ _ => JsonWebTokenError) (device_disconnect quietEnv)
    (with_authorization (Some "Bearer forged")
       (with_device 100 (request alice "0a0000000001" 2000)))
    world_one_device
  = (mkRes 401 (JError "Access denied. Invalid token."), world_one_device).
Proof.
  apply (proj2 (authMiddleware_admits_only_active_users quietEnv
                  (fun _ _ => JsonWebTokenError)
                  (with_authorization (Some "Bearer forged")
                     (with_device 100 (request alice "0a0000000001" 2000)))
                  (db world_one_device))
           (mkRes 401 (JError "Access denied. Invalid token."))
           (device_disconnect quietEnv) world_one_device eq_refl eq_refl).
Defined.

(** X14. The three places that read a bearer token agree.  Provided the
    verifier rejects the empty string, [GET /me] answers 200 exactly when
    [authMiddleware] lets the request through, with the same user, and
    [optionalAuthMiddleware] attaches a user exactly then; otherwise
    [GET /me] answers 401 and [optionalAuthMiddleware] calls [next()]
    without a user: it never answers the request itself. *)
Theorem bearer_checks_agree :
  forall env why req d,
    jwtVerify env (JWT_SECRET env) "" (now req) = None ->
    (forall u,
        authMiddleware env why req d = Next (Some u)
        <-> me env req d = (200, Authenticated u))
    /\ (forall u,
          authMiddleware env why req d = Next (Some u)
          <-> optionalAuthMiddleware env req d = Next (Some u))
    /\ (fst (me env req d) = 200 \/ me env req d = (401, NotAuthenticated))
    /\ (exists o, optionalAuthMiddleware env req d = Next o).
Proof.
  intros env why req d Hempty.
  unfold authMiddleware, me, optionalAuthMiddleware.
  destruct (bearer (hAuthorization req)) as [token|].
  2:{ repeat split; try discriminate; eauto. }
  destruct (String.eqb token "") eqn:Htok.
  { apply String.eqb_eq in Htok. subst token. rewrite Hempty.
    repeat split; try discriminate; eauto. }
  destruct (jwtVerify env (JWT_SECRET env) token (now req)) as [uid|].
  2:{ destruct (why token (now req)); repeat split; try discriminate; eauto. }
  destruct (user_findUnique d uid) as [u0|].
  2:{ repeat split; try discriminate; eauto. }
  destruct (User.isActive u0); cbn;
    repeat split; try discriminate; eauto;
    intro H; inversion H; reflexivity.
Qed.

Lemma bearer_checks_agree_witness :
  me quietEnv (with_authorization (Some "Bearer acc.1.1")
                 (request alice "0a0000000001" 2000)) (db world_one_device)
  = (200, Authenticated (select_public alice)).
Proof.
  apply (proj1 (proj1 (bearer_checks_agree quietEnv (fun _ _ => JsonWebTokenError)
                         (with_authorization (Some "Bearer acc.1.1")
                            (request alice "0a0000000001" 2000))
                         (db world_one_device) eq_refl)
                      (select_public alice))).
  reflexivity.
Defined.

(** ** Devices: listing, renaming, paging *)

Lemma insert_by_lastSeen_perm : forall x l,
  Permutation (insert_by_lastSeen x l) (x :: l).
Proof.
  intros x l. induction l as [|y t IH]; cbn; [constructor; constructor|].
  destruct (Z.ltb (Device.lastSeen y) (Device.lastSeen x)); [apply Permutation_refl|].
  eapply perm_trans; [apply perm_skip; exact IH | apply perm_swap].
Qed.

Lemma orderBy_lastSeen_perm : forall l, Permutation (orderBy_lastSeen_desc l) l.
Proof.
  induction l as [|x t IH]; cbn; [constructor|].
  eapply perm_trans; [apply insert_by_lastSeen_perm | apply perm_skip; exact IH].
Qed.

Lemma insert_by_lastSeen_sorted : forall x l,
  Sorted newer_first l -> Sorted newer_first (insert_by_lastSeen x l).
Proof.
  intros x l Hs. induction Hs as [|y t Ht IH Hhd]; cbn.
  - repeat constructor.
  - destruct (Z.ltb (Device.lastSeen y) (Device.lastSeen x)) eqn:E.
    + apply Z.ltb_lt in E. constructor; [constructor; assumption|].
      constructor. unfold newer_first. lia.
    + apply Z.ltb_ge in E. constructor; [exact IH|].
      destruct t as [|z t']; cbn.
      * constructor. exact E.
      * destruct (Z.ltb (Device.lastSeen z) (Device.lastSeen x));
          constructor; [exact E|]. inversion Hhd; assumption.
Qed.

(** X15. The device listing is the requester's devices and nothing else:
    [GET /] returns every device row owned by the authenticated user,
    each as often as it is in the table, none owned by another user, and
    in the order of last-seen times, latest first. *)
Theorem devices_list_is_own_devices :
  forall req d,
    Permutation (devices_list req d)
                (filter (fun x => Nat.eqb (Device.userId x) (User.id (user req)))
                        (devices d))
    /\ (forall x, In x (devices_list req d) <->
                  In x (devices d) /\ Device.userId x = User.id (user req))
    /\ Sorted newer_first (devices_list req d).
Proof.
  intros req d. unfold devices_list.
  set (own := filter _ (devices d)).
  assert (Hp : Permutation (orderBy_lastSeen_desc own) own)
    by apply orderBy_lastSeen_perm.
  split; [exact Hp|]. split.
  - intro x. split.
    + intro H. apply (Permutation_in _ Hp) in H. subst own.
      apply filter_In in H. destruct H as [Hin Hu]. apply Nat.eqb_eq in Hu. auto.
    + intros [Hin Hu]. apply (Permutation_in _ (Permutation_sym Hp)). subst own.
      apply filter_In. split; [exact Hin|]. apply Nat.eqb_eq. exact Hu.
  - clear Hp. unfold orderBy_lastSeen_desc. induction own as [|x t IH]; cbn.
    + constructor.
    + apply insert_by_lastSeen_sorted. exact IH.
Qed.

(** *** Trimming *)

Lemma drop_prefix_Some : forall p s r, drop_prefix p s = Some r -> s = p ++ r.
Proof.
  induction p as [|a p IH]; intros s r H; cbn in H.
  - inversion H. reflexivity.
  - destruct s as [|b s]; [discriminate|].
    destruct (Ascii.eqb a b) eqn:E; [|discriminate].
    apply Ascii.eqb_eq in E. subst b. cbn. f_equal. apply IH. exact H.
Qed.

Lemma drop_prefix_app : forall p s r q,
  drop_prefix p s = Some r -> drop_prefix p (s ++ q) = Some (r ++ q).
Proof.
  induction p as [|a p IH]; intros s r q H; cbn in *.
  - inversion H. reflexivity.
  - destruct s as [|b s]; [discriminate|]. cbn.
    destruct (Ascii.eqb a b); [|discriminate]. apply IH. exact H.
Qed.

Lemma strip_one_suffix : forall pats s r,
  Forall (fun p => p <> []) pats ->
  strip_one pats s = Some r -> exists p, p <> [] /\ s = p ++ r.
Proof.
  induction pats as [|p rest IH]; intros s r Hne H; [discriminate|].
  inversion Hne as [|? ? Hp Hrest]; subst.
  cbn in H. destruct (drop_prefix p s) as [r'|] eqn:E.
  - inversion H; subst r'. exists p. split; [exact Hp|].
    apply drop_prefix_Some. exact E.
  - apply IH; assumption.
Qed.

Lemma strip_one_shorter : forall pats s r,
  Forall (fun p => p <> []) pats ->
  strip_one pats s = Some r -> length r < length s.
Proof.
  intros pats s r Hne H. destruct (strip_one_suffix pats s r Hne H) as (p & Hp & ->).
  rewrite length_app. destruct p; [congruence|]. cbn. lia.
Qed.

Lemma strip_one_nil : forall pats,
  Forall (fun p => p <> []) pats -> strip_one pats [] = None.
Proof.
  induction pats as [|p rest IH]; intro Hne; [reflexivity|].
  inversion Hne as [|? ? Hp Hrest]; subst.
  cbn. destruct p; [congruence|]. apply IH. exact Hrest.
Qed.

Lemma strip_one_app : forall pats s q,
  strip_one pats s <> None -> strip_one pats (s ++ q) <> None.
Proof.
  induction pats as [|p rest IH]; intros s q H; cbn in *; [congruence|].
  destruct (drop_prefix p s) as [r|] eqn:E.
  - rewrite (drop_prefix_app _ _ _ q E). discriminate.
  - destruct (drop_prefix p (s ++ q)); [discriminate|]. apply IH. exact H.
Qed.

Lemma strip_fuel_done : forall pats,
  Forall (fun p => p <> []) pats ->
  forall n s, length s <= n -> strip_one pats (strip_fuel pats n s) = None.
Proof.
  intros pats Hne. induction n as [|n IH]; intros s Hlen; cbn.
  - destruct s; [|cbn in Hlen; lia]. apply strip_one_nil. exact Hne.
  - destruct (strip_one pats s) as [r|] eqn:E; [|exact E].
    apply IH. pose proof (strip_one_shorter _ _ _ Hne E). lia.
Qed.

Lemma strip_fuel_fixed : forall pats n s,
  strip_one pats s = None -> strip_fuel pats n s = s.
Proof. intros pats [|n] s H; cbn; [reflexivity|]. rewrite H. reflexivity. Qed.

Lemma strip_fuel_suffix : forall pats,
  Forall (fun p => p <> []) pats ->
  forall n s, exists p, s = p ++ strip_fuel pats n s.
Proof.
  intros pats Hne. induction n as [|n IH]; intro s; cbn.
  - exists []. reflexivity.
  - destruct (strip_one pats s) as [r|] eqn:E.
    + destruct (strip_one_suffix _ _ _ Hne E) as (p & _ & Hp).
      destruct (IH r) as [p' Hp']. exists (p ++ p').
      rewrite <- app_assoc, <- Hp'. exact Hp.
    + exists []. reflexivity.
Qed.

(** What [strip] returns has none of the patterns at its head, and is the
    string itself when that had none. *)
Lemma strip_done : forall pats s,
  Forall (fun p => p <> []) pats -> strip_one pats (strip pats s) = None.
Proof. intros pats s Hne. apply strip_fuel_done; [exact Hne | constructor]. Qed.

Lemma strip_fixed : forall pats s, strip_one pats s = None -> strip pats s = s.
Proof. intros pats s H. apply strip_fuel_fixed. exact H. Qed.

Lemma strip_suffix : forall pats s,
  Forall (fun p => p <> []) pats -> exists p, s = p ++ strip pats s.
Proof. intros pats s Hne. apply strip_fuel_suffix. exact Hne. Qed.

Lemma whiteSpace_nonempty : Forall (fun p => p <> []) whiteSpace.
Proof. unfold whiteSpace. cbn. repeat constructor; discriminate. Qed.

Lemma whiteSpace_rev_nonempty :
  Forall (fun p => p <> []) (map (@rev ascii) whiteSpace).
Proof. unfold whiteSpace. cbn. repeat constructor; discriminate. Qed.

(** Trimming what is trimmed changes nothing. *)
Lemma trim_idempotent : forall s, trim (trim s) = trim s.
Proof.
  intro s. unfold trim, trimEnd, trimStart.
  rewrite !list_ascii_of_string_of_list_ascii.
  set (l := list_ascii_of_string s).
  set (t1 := strip whiteSpace l).
  set (y := strip (map (@rev ascii) whiteSpace) (rev t1)).
  assert (Hy : strip_one (map (@rev ascii) whiteSpace) y = None)
    by (apply strip_done; exact whiteSpace_rev_nonempty).
  assert (Ht1 : strip_one whiteSpace t1 = None)
    by (apply strip_done; exact whiteSpace_nonempty).
  assert (Hfix : strip whiteSpace (rev y) = rev y).
  { apply strip_fixed.
    destruct (strip_suffix (map (@rev ascii) whiteSpace) (rev t1)
                whiteSpace_rev_nonempty) as [p Hp].
    fold y in Hp.
    assert (Et1 : t1 = rev y ++ rev p).
    { rewrite <- rev_app_distr, <- Hp, rev_involutive. reflexivity. }
    destruct (strip_one whiteSpace (rev y)) as [r|] eqn:E; [|reflexivity].
    exfalso. apply (strip_one_app whiteSpace (rev y) (rev p)); [congruence|].
    rewrite <- Et1. exact Ht1. }
  rewrite Hfix, rev_involutive.
  rewrite (strip_fixed _ _ Hy). reflexivity.
Qed.

Lemma length_zero_empty : forall s, Nat.eqb (String.length s) 0 = false -> s <> "".
Proof. intros s H E. subst s. discriminate. Qed.

(** X16. A rename never stores a blank name.  For an own device and a
    name that is a string with something other than white space in it,
    [PUT /:deviceId] answers 200 and the rows with that id get the
    trimmed name, which is not empty, has no white space left to trim and
    would itself be accepted as a name; every other column and row of
    the device table, the other tables and the filter stay as they
    were. *)
Theorem rename_stores_trimmed_name :
  forall req w device n,
    device_findFirst_owned (db w) (pDeviceId req) (User.id (user req)) = Some device ->
    bDeviceName req = Text n ->
    Nat.eqb (String.length (trim n)) 0 = false ->
    let w1 := snd (asyncHandler device_rename req w) in
    status (fst (asyncHandler device_rename req w)) = 200
    /\ devices (db w1)
       = map (fun y => if Nat.eqb (Device.id y) (pDeviceId req)
                       then Device.mk (Device.id y) (Device.macAddress y)
                                      (Device.ipAddress y) (trim n)
                                      (Device.userAgent y) (Device.userId y)
                                      (Device.lastSeen y) (Device.isActive y)
                       else y)
             (devices (db w))
    /\ trim n <> ""
    /\ trim (trim n) = trim n
    /\ Nat.eqb (String.length (trim (trim n))) 0 = false
    /\ sessions (db w1) = sessions (db w)
    /\ connections (db w1) = connections (db w)
    /\ fw w1 = fw w.
Proof.
  intros req w device n Hown Hn Hblank w1.
  destruct (owned_device_has_id _ _ _ _ Hown) as [y Hy].
  assert (Hne : String.eqb n "" = false).
  { destruct n; [discriminate | reflexivity]. }
  assert (E : asyncHandler device_rename req w
              = (mkRes 200 (JDeviceUpdated "Device updated successfully"
                              (Device_set_deviceName (trim n) y)),
                 mkWorld (set_devices (db w)
                            (map_device (pDeviceId req)
                               (Device_set_deviceName (trim n)) (devices (db w))))
                         (fw w) (trace w ++ [EvDeviceUpdate (pDeviceId req)]))).
  { unfold asyncHandler, device_rename, isBlank, bind, get_db, ret, device_update.
    rewrite Hn, Hne, Hblank. cbn [orb]. rewrite Hown, Hy. reflexivity. }
  subst w1. rewrite E. cbn [fst snd status db fw devices sessions connections
                            set_devices].
  split; [reflexivity|]. split; [reflexivity|].
  split; [apply length_zero_empty; exact Hblank|].
  split; [apply trim_idempotent|].
  split; [rewrite trim_idempotent; exact Hblank|].
  auto.
Qed.

Lemma rename_stores_trimmed_name_witness :
  map Device.deviceName
    (devices (db (snd (asyncHandler device_rename
                         (with_deviceName (Text (nbsp ++ " Laptop " ++ nbsp))
                            (with_device 100 (request alice "0a0000000001" 2000)))
                         world_one_device))))
  = ["Laptop"].
Proof.
  rewrite (proj1 (proj2 (rename_stores_trimmed_name
                           (with_deviceName (Text (nbsp ++ " Laptop " ++ nbsp))
                              (with_device 100 (request alice "0a0000000001" 2000)))
                           world_one_device
                           (Device.mk 100 "0a:00:00:00:00:01" "0a0000000001"
                                      "Unknown Device" None 1 1000 true)
                           (nbsp ++ " Laptop " ++ nbsp) eq_refl eq_refl eq_refl))).
  reflexivity.
Defined.

(** A name of white space only, a no-break space among it, is refused
    with 400 and nothing is stored. *)
Example rename_refuses_white_space :
  asyncHandler device_rename
    (with_deviceName (Text (" " ++ nbsp))
       (with_device 100 (request alice "0a0000000001" 2000)))
    world_one_device
  = (mkRes 400 (JError "Device name is required"), world_one_device).
Proof. reflexivity. Qed.

(** ** Devices: disconnecting and deleting *)

Lemma find_map_invariant : forall (A : Type) (p : A -> bool) (f : A -> A) l,
  (forall x, p (f x) = p x) ->
  find p (map f l) = option_map f (find p l).
Proof.
  intros A p f l H. induction l as [|a l IH]; [reflexivity|].
  cbn. rewrite H. destruct (p a); [reflexivity | exact IH].
Qed.

(** X17. Disconnecting a device twice is disconnecting it once, as far as
    the store goes: a second [POST /:deviceId/disconnect] for the same
    own device is answered 200 again and leaves the device, connection
    and session tables exactly as the first one left them; in particular
    a closed connection keeps the end time of the first disconnect. *)
Theorem disconnect_twice_same_store :
  forall env req req' w device,
    device_findFirst_owned (db w) (pDeviceId req) (User.id (user req)) = Some device ->
    pDeviceId req' = pDeviceId req ->
    User.id (user req') = User.id (user req) ->
    let w1 := snd (asyncHandler (device_disconnect env) req w) in
    let w2 := snd (asyncHandler (device_disconnect env) req' w1) in
    fst (asyncHandler (device_disconnect env) req' w1)
    = mkRes 200 (JMessage "Device disconnected successfully")
    /\ devices (db w2) = devices (db w1)
    /\ connections (db w2) = connections (db w1)
    /\ sessions (db w2) = sessions (db w1).
Proof.
  intros env req req' w device Hown Hid Huid w1 w2.
  destruct (disconnect_db env req w device Hown) as (_ & Hd & Hc & _).
  fold w1 in Hd, Hc.
  assert (Hown1 : device_findFirst_owned (db w1) (pDeviceId req') (User.id (user req'))
                  = Some (if Nat.eqb (Device.id device) (pDeviceId req)
                          then Device_set_isActive false device else device)).
  { unfold device_findFirst_owned in *. rewrite Hd, Hid, Huid. unfold map_device.
    rewrite find_map_invariant.
    - rewrite Hown. reflexivity.
    - intro x. destruct (Nat.eqb (Device.id x) (pDeviceId req)) eqn:E; cbn;
        rewrite ?E; reflexivity. }
  destruct (disconnect_db env req' w1 _ Hown1) as (Hr & Hd2 & Hc2 & Hs2 & _).
  fold w2 in Hd2, Hc2, Hs2.
  split; [exact Hr|]. split; [|split; [|exact Hs2]].
  - rewrite Hd2, Hd, Hid. unfold map_device. rewrite map_map. apply map_ext.
    intro x. destruct (Nat.eqb (Device.id x) (pDeviceId req)) eqn:E; cbn;
      rewrite E; reflexivity.
  - rewrite Hc2, Hc, Hid. rewrite map_map. apply map_ext. intro c.
    destruct (Nat.eqb (Connection.deviceId c) (pDeviceId req)
              && Connection.isActive c) eqn:E.
    + cbn. rewrite andb_false_r. reflexivity.
    + rewrite E. reflexivity.
Qed.

Lemma disconnect_twice_same_store_witness :
  connections
    (db (snd (asyncHandler (device_disconnect quietEnv)
                (with_device 100 (request alice "0a0000000001" 9000))
                (snd (asyncHandler (device_disconnect quietEnv) alice_disconnect
                        world_one_device)))))
  = [Connection.mk 102 1 100 "0a0000000001" 1000 (Some 2000%Z) false].
Proof.
  rewrite (proj1 (proj2 (proj2
             (disconnect_twice_same_store quietEnv alice_disconnect
                (with_device 100 (request alice "0a0000000001" 9000))
                world_one_device
                (Device.mk 100 "0a:00:00:00:00:01" "0a0000000001" "Unknown Device"
                           None 1 1000 true)
                eq_refl eq_refl eq_refl)))).
  reflexivity.
Defined.

(** X18. A deleted device is gone for every route: after [DELETE
    /:deviceId] of an own device, answered 200, no row of the device
    table has that id, so detail, disconnect, delete and history requests
    for it are answered 404 whoever sends them, and (macs being unique)
    no row carries its fingerprint any more, so that the next login from
    it finds no device. *)
Theorem delete_removes_device :
  forall env req w device,
    device_findFirst_owned (db w) (pDeviceId req) (User.id (user req)) = Some device ->
    let w1 := snd (asyncHandler (device_remove env) req w) in
    fst (asyncHandler (device_remove env) req w)
    = mkRes 200 (JMessage "Device deleted successfully")
    /\ (forall x, In x (devices (db w1)) -> Device.id x <> pDeviceId req)
    /\ (forall req',
          pDeviceId req' = pDeviceId req ->
          asyncHandler device_detail req' w1
          = (mkRes 404 (JError "Device not found"), w1)
          /\ asyncHandler (device_disconnect env) req' w1
             = (mkRes 404 (JError "Device not found"), w1)
          /\ asyncHandler (device_remove env) req' w1
             = (mkRes 404 (JError "Device not found"), w1)
          /\ asyncHandler device_connections req' w1
             = (mkRes 404 (JError "Device not found"), w1))
    /\ (NoDup (map Device.macAddress (devices (db w))) ->
        device_findUnique_mac (db w1) (Device.macAddress device) = None).
Proof.
  intros env req w device Hown w1.
  destruct (owned_device_has_id _ _ _ _ Hown) as [y Hy].
  destruct (revoke_quietly_trace env device w) as [f Hrev].
  unfold revoke_quietly in Hrev.
  assert (E : fst (asyncHandler (device_remove env) req w)
              = mkRes 200 (JMessage "Device deleted successfully")
              /\ devices (db w1)
                 = filter (fun x => negb (Nat.eqb (Device.id x) (pDeviceId req)))
                          (devices (db w))).
  { subst w1. remember (asyncHandler (device_remove env) req w) as res eqn:E.
    unfold asyncHandler, device_remove in E. unfold bind at 1 in E.
    unfold get_db in E. rewrite Hown in E. unfold bind at 1 in E. rewrite Hrev in E.
    unfold bind, ret, device_delete, auditLog_create in E.
    cbn [db fw trace] in E. rewrite Hy in E. cbn in E. subst res. cbn. auto. }
  destruct E as [Hr Hd]. split; [exact Hr|].
  assert (Hgone : forall x, In x (devices (db w1)) -> Device.id x <> pDeviceId req).
  { intros x Hx. rewrite Hd in Hx. apply filter_In in Hx. destruct Hx as [_ Hx].
    apply negb_true_iff, Nat.eqb_neq in Hx. exact Hx. }
  split; [exact Hgone|]. split.
  - intros req' Hid.
    assert (Hnone : device_findFirst_owned (db w1) (pDeviceId req')
                      (User.id (user req')) = None).
    { unfold device_findFirst_owned. apply find_all_false. intros x Hx.
      rewrite Hid. replace (Nat.eqb (Device.id x) (pDeviceId req)) with false;
        [reflexivity|]. symmetry. apply Nat.eqb_neq. apply Hgone. exact Hx. }
    repeat split.
    + unfold asyncHandler, device_detail, bind, get_db, ret. rewrite Hnone. reflexivity.
    + unfold asyncHandler, device_disconnect, bind, get_db, ret. rewrite Hnone.
      reflexivity.
    + unfold asyncHandler, device_remove, bind, get_db, ret. rewrite Hnone.
      reflexivity.
    + unfold asyncHandler, device_connections, bind, get_db, ret. rewrite Hnone.
      reflexivity.
  - intro Hnd. unfold device_findUnique_mac. apply find_all_false. intros x Hx.
    destruct (String.eqb (Device.macAddress x) (Device.macAddress device)) eqn:Em;
      [|reflexivity].
    apply String.eqb_eq in Em. rewrite Hd in Hx. apply filter_In in Hx.
    destruct Hx as [Hin Hx]. apply negb_true_iff, Nat.eqb_neq in Hx.
    unfold device_findFirst_owned in Hown. apply find_some in Hown.
    destruct Hown as [Hdin Hp]. apply andb_true_iff in Hp. destruct Hp as [Hp _].
    apply Nat.eqb_eq in Hp.
    assert (x = device)
      by (apply (NoDup_map_inj _ _ Device.macAddress (devices (db w))); auto).
    subst x. contradiction.
Qed.

Lemma delete_removes_device_witness :
  asyncHandler device_detail (with_device 100 (request alice "0a0000000001" 9000))
    (snd (asyncHandler (device_remove quietEnv) alice_disconnect world_one_device))
  = (mkRes 404 (JError "Device not found"),
     snd (asyncHandler (device_remove quietEnv) alice_disconnect world_one_device)).
Proof.
  destruct (delete_removes_device quietEnv alice_disconnect world_one_device
              (Device.mk 100 "0a:00:00:00:00:01" "0a0000000001" "Unknown Device"
                         None 1 1000 true)
              eq_refl) as (_ & _ & H & _).
  exact (proj1 (H (with_device 100 (request alice "0a0000000001" 9000)) eq_refl)).
Defined.

(** ** Devices: paging through the connection history *)

Lemma firstn_plus : forall (A : Type) (a b : nat) (l : list A),
  firstn (a + b) l = firstn a l ++ firstn b (skipn a l).
Proof.
  intros A a. induction a as [|a IH]; intros b l; [reflexivity|].
  destruct l as [|x t]; cbn.
  - rewrite firstn_nil. reflexivity.
  - rewrite IH. reflexivity.
Qed.

Lemma pages_concat : forall (A : Type) (n m : nat) (l : list A),
  concat (map (fun k => firstn n (skipn (k * n) l)) (seq 0 m)) = firstn (m * n) l.
Proof.
  intros A n m l. induction m as [|m IH]; [reflexivity|].
  rewrite seq_S, map_app, concat_app, IH. cbn [map concat plus].
  rewrite app_nil_r. replace (S m * n) with (m * n + n) by lia.
  symmetry. apply firstn_plus.
Qed.

Lemma insert_by_startTime_length : forall c l,
  length (insert_by_startTime c l) = S (length l).
Proof.
  intros c l. induction l as [|x t IH]; [reflexivity|].
  cbn. destruct (Z.ltb (Connection.startTime x) (Connection.startTime c)); cbn;
    [reflexivity | rewrite IH; reflexivity].
Qed.

Lemma orderBy_startTime_length : forall l,
  length (orderBy_startTime_desc l) = length l.
Proof.
  induction l as [|x t IH]; [reflexivity|].
  cbn. rewrite insert_by_startTime_length. unfold orderBy_startTime_desc in IH.
  rewrite IH. reflexivity.
Qed.

Lemma history_page_body : forall req w device k,
  device_findFirst_owned (db w) (pDeviceId req) (User.id (user req)) = Some device ->
  (0 < orDefault (qLimit req) 20)%Z ->
  history_page req w k
  = mkRes 200
      (JConnections
         (firstn (Z.to_nat (orDefault (qLimit req) 20))
                 (skipn (k * Z.to_nat (orDefault (qLimit req) 20))
                        (orderBy_startTime_desc
                           (connections_of_device (db w) (pDeviceId req)))))
         (Z.of_nat (S k)) (orDefault (qLimit req) 20)
         (length (connections_of_device (db w) (pDeviceId req)))
         (- ((- Z.of_nat (length (connections_of_device (db w) (pDeviceId req))))
             / orDefault (qLimit req) 20))%Z).
Proof.
  intros req w device k Hown Hpos.
  unfold history_page, asyncHandler, device_connections, bind, get_db, ret, throw.
  cbn [pDeviceId qPage qLimit user with_page].
  rewrite Hown.
  assert (Hpage : orDefault (Some (Z.of_nat (S k))) 1 = Z.of_nat (S k)).
  { unfold orDefault. destruct (Z.eqb_spec (Z.of_nat (S k)) 0); [lia | reflexivity]. }
  rewrite Hpage. unfold skip_take.
  set (L := orDefault (qLimit req) 20) in *.
  replace ((Z.of_nat (S k) - 1) * L)%Z with (Z.of_nat k * L)%Z by lia.
  destruct (Z.ltb_spec (Z.of_nat k * L) 0); [nia|].
  destruct (Z.leb_spec 0 L); [|lia].
  replace (Z.to_nat (Z.of_nat k * L)) with (k * Z.to_nat L) by nia.
  reflexivity.
Qed.

(** X19. Paging through [GET /:deviceId/connections] loses and repeats
    nothing: for an own device and a positive page size, the answers for
    pages 1 to [pages] (the page count every answer carries) hold, one
    after the other, exactly the connections of the device, latest start
    first, and each page holds at most [limit] of them. *)
Theorem history_pages_cover_all :
  forall req w device,
    device_findFirst_owned (db w) (pDeviceId req) (User.id (user req)) = Some device ->
    (0 < orDefault (qLimit req) 20)%Z ->
    let total := length (connections_of_device (db w) (pDeviceId req)) in
    let pages := Z.to_nat (- ((- Z.of_nat total) / orDefault (qLimit req) 20))%Z in
    concat (map (fun k => body_connections (body (history_page req w k)))
                (seq 0 pages))
    = orderBy_startTime_desc (connections_of_device (db w) (pDeviceId req))
    /\ forall k,
         status (history_page req w k) = 200
         /\ (Z.of_nat (length (body_connections (body (history_page req w k))))
             <= orDefault (qLimit req) 20)%Z.
Proof.
  intros req w device Hown Hpos total pages.
  set (L := orDefault (qLimit req) 20) in *.
  split.
  - rewrite (map_ext _ (fun k => firstn (Z.to_nat L)
                                   (skipn (k * Z.to_nat L)
                                      (orderBy_startTime_desc
                                         (connections_of_device (db w)
                                                                (pDeviceId req)))))).
    2:{ intro k. rewrite (history_page_body req w device k Hown Hpos). reflexivity. }
    rewrite pages_concat. apply firstn_all2.
    rewrite orderBy_startTime_length. fold total. subst pages.
    assert (Hceil : (Z.of_nat total <= - (- Z.of_nat total / L) * L)%Z).
    { pose proof (Z.div_mod (- Z.of_nat total) L ltac:(lia)) as Hdm.
      pose proof (Z.mod_pos_bound (- Z.of_nat total) L Hpos) as Hb. nia. }
    assert (Hnn : (0 <= - (- Z.of_nat total / L))%Z).
    { pose proof (Z.div_mod (- Z.of_nat total) L ltac:(lia)) as Hdm.
      pose proof (Z.mod_pos_bound (- Z.of_nat total) L Hpos) as Hb. nia. }
    nia.
  - intro k. subst L. rewrite (history_page_body req w device k Hown Hpos).
    cbn [status body body_connections]. split; [reflexivity|].
    set (L := orDefault (qLimit req) 20) in *.
    pose proof (firstn_le_length (Z.to_nat L)
                  (skipn (k * Z.to_nat L)
                     (orderBy_startTime_desc
                        (connections_of_device (db w) (pDeviceId req))))) as Hle.
    lia.
Qed.

Lemma history_pages_cover_all_witness :
  map (fun k => map Connection.id
                    (body_connections
                       (body (history_page
                                (with_limit (Some 2%Z)
                                   (with_device 100 (request bob "0a0000000001" 9000)))
                                world_bob_history k))))
      [0; 1]
  = [[103; 104]; [102]]
  /\ concat (map (fun k => body_connections
                             (body (history_page
                                      (with_limit (Some 2%Z)
                                         (with_device 100
                                            (request bob "0a0000000001" 9000)))
                                      world_bob_history k)))
                 (seq 0 2))
     = orderBy_startTime_desc (connections_of_device (db world_bob_history) 100).
Proof.
  split; [reflexivity|].
  exact (proj1 (history_pages_cover_all
                  (with_limit (Some 2%Z)
                     (with_device 100 (request bob "0a0000000001" 9000)))
                  world_bob_history
                  (Device.mk 100 "0a:00:00:00:00:01" "0a0000000001" "Unknown Device"
                             None 2 1000 true)
                  eq_refl eq_refl)).
Defined.

(** ** Accounts: password change and deactivation *)

Lemma sessions_of_user_off_refresh : forall d tok t uid s,
  NoDup (map Session.refreshToken (sessions d)) ->
  In s (sessions d) ->
  Session.userId s = uid ->
  Session.refreshToken s = tok ->
  session_findUnique_valid
    (set_sessions d
       (map (fun x => if Nat.eqb (Session.userId x) uid
                      then Session_set_isActive false x else x)
            (sessions d)))
    tok t = None.
Proof.
  intros d tok t uid s Hnd Hin Huid Htok.
  unfold session_findUnique_valid. cbn [sessions set_sessions].
  apply find_all_false. intros x Hx. apply in_map_iff in Hx.
  destruct Hx as (y & <- & Hy).
  destruct (String.eqb (Session.refreshToken y) tok) eqn:Ey.
  - apply String.eqb_eq in Ey.
    assert (y = s)
      by (apply (NoDup_map_inj _ _ Session.refreshToken (sessions d)); auto; congruence).
    subst y. rewrite Huid, Nat.eqb_refl. cbn. rewrite andb_false_r. reflexivity.
  - destruct (Nat.eqb (Session.userId y) uid); cbn; rewrite Ey; reflexivity.
Qed.

(** X20. A password change signs the user out everywhere but leaves the
    devices online.  With a wrong current password the answer is 400 and
    nothing changes.  With the right one the answer is 200, the stored
    hash is replaced, every session of the user is deactivated, so that
    each of the user's refresh tokens is answered 401 from then on
    (tokens being unique), while device rows, connections and filter
    rules stay as they were. *)
Theorem change_password_revokes_sessions :
  forall env hash cur new req w u,
    user_findUnique (db w) (User.id (user req)) = Some u ->
    (comparePassword env cur (User.password u) = false ->
     asyncHandler (change_password env hash cur new) req w
     = (mkRes 400 (JError "Current password is incorrect"), w))
    /\ (comparePassword env cur (User.password u) = true ->
        let w1 := snd (asyncHandler (change_password env hash cur new) req w) in
        fst (asyncHandler (change_password env hash cur new) req w)
        = mkRes 200 (JMessage "Password changed successfully. Please log in again.")
        /\ (forall x, In x (users (db w1)) -> User.id x = User.id (user req) ->
                      User.password x = hash new)
        /\ (forall s, In s (sessions (db w1)) ->
                      Session.userId s = User.id (user req) ->
                      Session.isActive s = false)
        /\ (sessions_unique (db w) ->
            forall s req',
              In s (sessions (db w)) ->
              Session.userId s = User.id (user req) ->
              asyncHandler (refresh env (Session.refreshToken s)) req' w1
              = (mkRes 401 (JError "Invalid or expired refresh token"), w1))
        /\ devices (db w1) = devices (db w)
        /\ connections (db w1) = connections (db w)
        /\ fw w1 = fw w).
Proof.
  intros env hash cur new req w u Hu. split.
  - intro Hpw. unfold asyncHandler, change_password, bind, get_db, ret.
    rewrite Hu, Hpw. reflexivity.
  - intros Hpw w1.
    assert (E : asyncHandler (change_password env hash cur new) req w
                = (mkRes 200
                     (JMessage "Password changed successfully. Please log in again."),
                   mkWorld
                     (set_auditLogs
                        (set_sessions
                           (set_users (db w)
                              (map (fun x => if Nat.eqb (User.id x) (User.id (user req))
                                             then User_set_password (hash new) x else x)
                                   (users (db w))))
                           (map (fun s => if Nat.eqb (Session.userId s)
                                                     (User.id (user req))
                                          then Session_set_isActive false s else s)
                                (sessions (db w))))
                        (auditLogs (db w)
                         ++ [AuditLog.mk "PASSWORD_CHANGE" (User.id (user req)) (ip req)
                               (hUserAgent req) NoDetails]))
                     (fw w)
                     ((trace w ++ [EvSessionUpdateMany])
                      ++ [EvAuditLog "PASSWORD_CHANGE"]))).
    { unfold asyncHandler, change_password, bind, get_db, ret, user_update,
        session_updateMany, auditLog_create.
      rewrite Hu, Hpw. cbn. rewrite Hu. reflexivity. }
    subst w1. rewrite E. cbn [fst snd db fw devices connections sessions users
                               set_auditLogs set_sessions set_users].
    split; [reflexivity|]. split; [|split; [|split; [|auto]]].
    + intros x Hx Hid. apply in_map_iff in Hx. destruct Hx as (y & <- & _).
      destruct (Nat.eqb (User.id y) (User.id (user req))) eqn:Ey; [reflexivity|].
      apply Nat.eqb_neq in Ey. contradiction.
    + intros s Hs Hid. apply in_map_iff in Hs. destruct Hs as (y & <- & _).
      destruct (Nat.eqb (Session.userId y) (User.id (user req))) eqn:Ey; [reflexivity|].
      apply Nat.eqb_neq in Ey. contradiction.
    + intros Huniq s req' Hs Hid.
      unfold asyncHandler, refresh, bind, get_db, ret. cbn [db].
      replace (session_findUnique_valid _ (Session.refreshToken s) (now req'))
        with (@None Session.t); [reflexivity|].
      symmetry.
      pose proof (sessions_of_user_off_refresh (db w) (Session.refreshToken s)
                    (now req') (User.id (user req)) s Huniq Hs Hid eq_refl) as H.
      unfold session_findUnique_valid in *. exact H.
Qed.

Lemma change_password_revokes_sessions_witness :
  asyncHandler (refresh quietEnv "ref.1.1") (request alice "0a0000000001" 4000)
    world_password_changed
  = (mkRes 401 (JError "Invalid or expired refresh token"), world_password_changed).
Proof.
  exact (proj1 (proj2 (proj2 (proj2
           (proj2 (change_password_revokes_sessions quietEnv (fun p => p) "pw-a" "pw-2"
                     (request alice "0a0000000001" 3000) world_one_device alice
                     eq_refl)
                  eq_refl))))
           ltac:(vm_compute; repeat constructor; intros [])
           (Session.mk 101 "ref.1.1" 1 604801000 true)
           (request alice "0a0000000001" 4000)
           ltac:(vm_compute; auto) eq_refl).
Defined.

Lemma authMiddleware_gate : forall env why req d u',
  authMiddleware env why req d = Next (Some u') ->
  exists u0, u' = select_public u0 /\ In u0 (users d) /\ User.isActive u0 = true.
Proof.
  intros env why req d u' H. unfold authMiddleware in H.
  destruct (bearer (hAuthorization req)) as [token|]; [|discriminate].
  destruct (String.eqb token ""); [discriminate|].
  destruct (jwtVerify env (JWT_SECRET env) token (now req)) as [uid|].
  - destruct (user_findUnique d uid) as [u|] eqn:Hu; [|discriminate].
    destruct (User.isActive u) eqn:Hact; [|discriminate].
    cbn in H. inversion H. exists u. repeat split; auto.
    apply (user_findUnique_some _ _ _ Hu).
  - destruct (why token (now req)); discriminate.
Qed.

Lemma admin_deactivate_run : forall env uid c req w existing,
  user_findUnique (db w) uid = Some existing ->
  conflictUser (db w) uid c = None ->
  cIsActive c = Some false ->
  let userDevices :=
    filter (fun x => Nat.eqb (Device.userId x) uid && Device.isActive x)
           (devices (db w)) in
  exists f t,
    admin_update_user env uid c req w
    = (Ret (200, AUserUpdated "User updated successfully"
                   (select_public (User_apply c existing))),
       mkWorld
         (set_auditLogs
            (set_connections
               (set_devices
                  (set_sessions
                     (set_users (db w)
                        (map (fun x => if Nat.eqb (User.id x) uid
                                       then User_apply c x else x)
                             (users (db w))))
                     (map (fun s => if Nat.eqb (Session.userId s) uid
                                    then Session_set_isActive false s else s)
                          (sessions (db w))))
                  (map (fun x => if Nat.eqb (Device.userId x) uid
                                 then Device_set_isActive false x else x)
                       (devices (db w))))
               (map (fun x => if Nat.eqb (Connection.userId x) uid
                                 && Connection.isActive x
                              then Connection_close (now req) x else x)
                    (connections (db w))))
            (auditLogs (db w)
             ++ [AuditLog.mk "ADMIN_UPDATE_USER" (User.id (user req)) (ip req)
                   (hUserAgent req) NoDetails]))
         f
         (((((trace w ++ [EvSessionUpdateMany]) ++ t) ++ [EvDeviceUpdateMany])
           ++ [EvConnectionUpdateMany]) ++ [EvAuditLog "ADMIN_UPDATE_USER"]))
    /\ forall x, In x userDevices ->
         exists ok,
           In (EvExec (IptDeleteQuiet FORWARD (MacSource (Device.macAddress x))) ok) t.
Proof.
  intros env uid c req w existing Hu Hconf Hact userDevices.
  set (w2 := mkWorld
               (set_sessions
                  (set_users (db w)
                     (map (fun x => if Nat.eqb (User.id x) uid
                                    then User_apply c x else x)
                          (users (db w))))
                  (map (fun s => if Nat.eqb (Session.userId s) uid
                                 then Session_set_isActive false s else s)
                       (sessions (db w))))
               (fw w) (trace w ++ [EvSessionUpdateMany])).
  destruct (revoke_loop env userDevices w2) as (f & t & Eloop & Hin).
  exists f, t. split; [|exact Hin].
  unfold admin_update_user. unfold bind at 1. unfold get_db at 1.
  rewrite Hu, Hconf.
  unfold bind at 1. unfold user_update. rewrite Hu.
  unfold bind at 1. rewrite Hact.
  unfold bind at 1. unfold session_updateMany. cbn [db fw trace].
  unfold bind at 1. unfold get_db. cbn [db].
  unfold bind at 1. cbn [devices set_sessions set_users].
  change (forEach _ (revoke_quietly env) _)
    with (forEach userDevices (revoke_quietly env) w2).
  rewrite Eloop. reflexivity.
Qed.

(** X21. Deactivating a user cuts everything of that user off, if the
    update goes through.  When an administrator sets [isActive] to false
    and no other user holds the email or username the request carries
    (if it carries any), the answer is 200 and afterwards: the user's
    rows are inactive; all the user's sessions are inactive; all the
    user's devices are inactive and all the user's open connections
    closed, whatever the revokes did; a revoke was attempted for each
    device that was active.  From then on [authMiddleware] admits no
    request in that user's name, and a login that could only name that
    user is answered 401.  When another user holds the email or the
    username, the answer is 409 and nothing changes: the user stays as
    active as before. *)
Theorem admin_deactivation_cuts_user_off :
  forall env uid c req w existing,
    user_findUnique (db w) uid = Some existing ->
    cIsActive c = Some false ->
    (forall other,
        conflictUser (db w) uid c = Some other ->
        exists text,
          (text = "Email already exists" \/ text = "Username already exists")
          /\ admin_update_user env uid c req w = (Ret (409, AError text), w))
    /\ (conflictUser (db w) uid c = None ->
    let w1 := snd (admin_update_user env uid c req w) in
    fst (admin_update_user env uid c req w)
    = Ret (200, AUserUpdated "User updated successfully"
                  (select_public (User_apply c existing)))
    /\ (forall x, In x (users (db w1)) -> User.id x = uid -> User.isActive x = false)
    /\ (forall s, In s (sessions (db w1)) -> Session.userId s = uid ->
                  Session.isActive s = false)
    /\ (forall x, In x (devices (db w1)) -> Device.userId x = uid ->
                  Device.isActive x = false)
    /\ (forall x, In x (connections (db w1)) -> Connection.userId x = uid ->
                  Connection.isActive x = false)
    /\ (forall x, In x (devices (db w)) -> Device.userId x = uid ->
                  Device.isActive x = true ->
                  exists ok,
                    In (EvExec (IptDeleteQuiet FORWARD
                                  (MacSource (Device.macAddress x))) ok)
                       (trace w1))
    /\ (forall env' why req' u',
          authMiddleware env' why req' (db w1) = Next (Some u') -> User.id u' <> uid)
    /\ (forall env' req',
          (forall x, In x (users (db w)) ->
                     User.email x = bLogin req' \/ User.username x = bLogin req' ->
                     User.id x = uid) ->
          asyncHandler (login env') req' w1
          = (mkRes 401 (JError "Invalid credentials"), w1))).
Proof.
  intros env uid c req w existing Hu Hact. split.
  { intros other Hconf.
    unfold admin_update_user, bind, get_db, ret. rewrite Hu, Hconf.
    eexists. split; [|reflexivity].
    destruct (match cEmail c with
              | Some e => String.eqb (User.email other) e
              | None => false
              end); auto. }
  intros Hconf w1.
  destruct (admin_deactivate_run env uid c req w existing Hu Hconf Hact)
    as (f & t & E & Hin).
  subst w1. rewrite E.
  cbn [fst snd db trace users sessions devices connections set_auditLogs
       set_connections set_devices set_sessions set_users].
  assert (Husers : forall x,
             In x (map (fun x => if Nat.eqb (User.id x) uid then User_apply c x else x)
                       (users (db w))) ->
             User.id x = uid -> User.isActive x = false).
  { intros x Hx Hid. apply in_map_iff in Hx. destruct Hx as (y & <- & _).
    destruct (Nat.eqb (User.id y) uid) eqn:Ey.
    - cbn. rewrite Hact. reflexivity.
    - apply Nat.eqb_neq in Ey. contradiction. }
  split; [reflexivity|]. split; [exact Husers|].
  split; [|split; [|split; [|split; [|split]]]].
  - intros s Hs Hid. apply in_map_iff in Hs. destruct Hs as (y & <- & _).
    destruct (Nat.eqb (Session.userId y) uid) eqn:Ey; [reflexivity|].
    apply Nat.eqb_neq in Ey. contradiction.
  - intros x Hx Hid. apply in_map_iff in Hx. destruct Hx as (y & <- & _).
    destruct (Nat.eqb (Device.userId y) uid) eqn:Ey; [reflexivity|].
    apply Nat.eqb_neq in Ey. contradiction.
  - intros x Hx Hid. apply in_map_iff in Hx. destruct Hx as (y & <- & _).
    destruct (Nat.eqb (Connection.userId y) uid && Connection.isActive y) eqn:Ey;
      [reflexivity|].
    cbn in Hid. apply Nat.eqb_eq in Hid. rewrite Hid in Ey. exact Ey.
  - intros x Hx Hid Hon.
    destruct (Hin x) as [ok Hok].
    { apply filter_In. split; [exact Hx|]. rewrite Hon, andb_true_r.
      apply Nat.eqb_eq. exact Hid. }
    exists ok. do 3 (apply in_or_app; left). apply in_or_app. right. exact Hok.
  - intros env' why req' u' H Hid.
    destruct (authMiddleware_gate env' why req' _ u' H) as (u0 & -> & Hin0 & Hon).
    cbn [db users set_auditLogs set_connections set_devices set_sessions set_users]
      in Hin0.
    rewrite (Husers u0 Hin0 Hid) in Hon. discriminate.
  - intros env' req' Honly.
    unfold asyncHandler, login, bind, get_db, ret. cbn [db].
    replace (user_findFirst_login _ (bLogin req')) with (@None User.t);
      [reflexivity|].
    symmetry. unfold user_findFirst_login.
    cbn [users set_auditLogs set_connections set_devices set_sessions set_users].
    apply find_all_false. intros x Hx.
    destruct (User.isActive x) eqn:Hon; [|apply andb_false_r].
    rewrite andb_true_r.
    apply in_map_iff in Hx. destruct Hx as (y & <- & Hy).
    destruct (Nat.eqb (User.id y) uid) eqn:Ey.
    + cbn in Hon. rewrite Hact in Hon. discriminate.
    + apply Nat.eqb_neq in Ey.
      destruct (String.eqb (User.email y) (bLogin req')) eqn:E1.
      * apply String.eqb_eq in E1. exfalso. apply Ey. apply Honly; auto.
      * destruct (String.eqb (User.username y) (bLogin req')) eqn:E2; [|reflexivity].
        apply String.eqb_eq in E2. exfalso. apply Ey. apply Honly; auto.
Qed.

Lemma admin_deactivation_cuts_user_off_witness :
  asyncHandler (login quietEnv) (request alice "0a0000000001" 9500)
    world_alice_deactivated
  = (mkRes 401 (JError "Invalid credentials"), world_alice_deactivated)
  /\ map Device.isActive (devices (db world_alice_deactivated)) = [false; false; false]
  /\ snd (admin_update_user quietEnv 1
            (mkChanges (Some "bob@example.org") None (Some false) None)
            (request root "0a00000000ff" 9000) world_three_devices)
     = world_three_devices.
Proof.
  split; [|split; [reflexivity|]].
  - apply (proj2 (proj2 (proj2 (proj2 (proj2 (proj2 (proj2
             (proj2 (admin_deactivation_cuts_user_off (faultyEnv "0a:00:00:00:00:02") 1
                       deactivate (request root "0a00000000ff" 9000)
                       world_three_devices alice eq_refl eq_refl)
                    eq_refl)))))))
             quietEnv (request alice "0a0000000001" 9500)).
    intros x Hx Hlogin. vm_compute in Hx.
    destruct Hx as [<- | [<- | [<- | []]]]; [reflexivity | |];
      destruct Hlogin as [H | H]; discriminate H.
  - destruct (proj1 (admin_deactivation_cuts_user_off quietEnv 1
                       (mkChanges (Some "bob@example.org") None (Some false) None)
                       (request root "0a00000000ff" 9000) world_three_devices alice
                       eq_refl eq_refl)
                    bob eq_refl) as (text & _ & E).
    rewrite E. reflexivity.
Defined.

(** The administrator deactivates Alice and gives her the email of Bob in
    the same request: 409, and Alice stays active. *)
Example admin_deactivation_conflict :
  admin_update_user quietEnv 1
    (mkChanges (Some "bob@example.org") None (Some false) None)
    (request root "0a00000000ff" 9000) world_three_devices
  = (Ret (409, AError "Email already exists"), world_three_devices).
Proof. reflexivity. Qed.

(** ** The keys of the store stay unique *)

Lemma keeps_ret : forall (A : Type) (a : A), keeps_keys (ret a).
Proof. intros A a w H. exact H. Qed.

Lemma keeps_throw : forall (A : Type) e, keeps_keys (@throw A e).
Proof. intros A e w H. exact H. Qed.

Lemma keeps_get_db : keeps_keys get_db.
Proof. intros w H. exact H. Qed.

Lemma keeps_bind : forall (A B : Type) (m : M A) (k : A -> M B),
  keeps_keys m -> (forall a, keeps_keys (k a)) -> keeps_keys (bind m k).
Proof.
  intros A B m k Hm Hk w H. unfold bind. specialize (Hm w H).
  destruct (m w) as [[a|e] w']; cbn in *; [apply Hk; exact Hm | exact Hm].
Qed.

Lemma keeps_try_catch : forall (A : Type) (m : M A) (h : Exn -> M A),
  keeps_keys m -> (forall e, keeps_keys (h e)) -> keeps_keys (try_catch m h).
Proof.
  intros A m h Hm Hh w H. unfold try_catch. specialize (Hm w H).
  destruct (m w) as [[a|e] w']; cbn in *; [exact Hm | apply Hh; exact Hm].
Qed.

Lemma keeps_forEach : forall (A : Type) (l : list A) (f : A -> M unit),
  (forall a, keeps_keys (f a)) -> keeps_keys (forEach l f).
Proof.
  intros A l f Hf. induction l as [|x t IH]; cbn.
  - apply keeps_ret.
  - apply keeps_bind; [apply Hf | intros _; exact IH].
Qed.

Lemma keeps_execAsync : forall env c, keeps_keys (execAsync env c).
Proof.
  intros env c w H. unfold execAsync.
  destruct (execFails env c); [exact H|].
  destruct (run_command _ c (fw w)); exact H.
Qed.

Lemma NoDup_map_filter : forall (A B : Type) (f : A -> B) (p : A -> bool) l,
  NoDup (map f l) -> NoDup (map f (filter p l)).
Proof.
  intros A B f p l. induction l as [|x t IH]; intro H; [constructor|].
  cbn in H. inversion H as [|? ? Hnotin Hnd]; subst. cbn.
  destruct (p x); [|apply IH; exact Hnd].
  cbn. constructor; [|apply IH; exact Hnd].
  intro Hin. apply Hnotin. apply in_map_iff in Hin. destruct Hin as (y & Hy & Hin).
  apply filter_In in Hin. apply in_map_iff. exists y. tauto.
Qed.

Lemma NoDup_snoc : forall (A : Type) (l : list A) (x : A),
  NoDup l -> ~ In x l -> NoDup (l ++ [x]).
Proof.
  intros A l x Hnd Hx. induction Hnd as [|y t Hy Ht IH]; cbn.
  - constructor; [intros []|constructor].
  - constructor.
    + intro Hin. apply in_app_or in Hin. destruct Hin as [Hin | [-> | []]].
      * contradiction.
      * apply Hx. left. reflexivity.
    + apply IH. intro Hin. apply Hx. right. exact Hin.
Qed.

Lemma keeps_device_create : forall mac addr name ua uid seen,
  keeps_keys (device_create mac addr name ua uid seen).
Proof.
  intros mac addr name ua uid seen w (Hid & Hmac & Hsid & Htok & Hdlt & Hslt).
  unfold device_create.
  destruct (device_findUnique_mac (db w) mac) eqn:Hfind; cbn;
    [repeat split; assumption|].
  repeat split; cbn; rewrite ?map_app; auto.
  - apply NoDup_snoc; [exact Hid|]. cbn. intro Hin. apply in_map_iff in Hin.
    destruct Hin as (y & Hy & Hin). specialize (Hdlt y Hin). lia.
  - apply NoDup_snoc; [exact Hmac|]. cbn. intro Hin. apply in_map_iff in Hin.
    destruct Hin as (y & Hy & Hin). unfold device_findUnique_mac in Hfind.
    pose proof (find_none _ _ Hfind y Hin) as Hn. cbn in Hn.
    rewrite Hy, String.eqb_refl in Hn. discriminate.
  - intros x Hx. apply in_app_or in Hx. destruct Hx as [Hx | [<- | []]].
    + specialize (Hdlt x Hx). lia.
    + cbn. lia.
  - intros s Hs. specialize (Hslt s Hs). lia.
Qed.

Lemma map_if_ext : forall (A B : Type) (g : A -> B) (p : A -> bool) (f : A -> A) l,
  (forall x, g (f x) = g x) ->
  map g (map (fun x => if p x then f x else x) l) = map g l.
Proof.
  intros A B g p f l H. rewrite map_map. apply map_ext. intro x.
  destruct (p x); [apply H | reflexivity].
Qed.

Lemma In_map_if : forall (A : Type) (p : A -> bool) (f : A -> A) l x,
  In x (map (fun y => if p y then f y else y) l) ->
  exists y, In y l /\ (x = y \/ x = f y).
Proof.
  intros A p f l x H. apply in_map_iff in H. destruct H as (y & Hy & Hin).
  exists y. split; [exact Hin|]. destruct (p y); auto.
Qed.

Lemma keeps_devices_mapped : forall (p : Device.t -> bool) (f : Device.t -> Device.t) w,
  (forall x, Device.id (f x) = Device.id x) ->
  (forall x, Device.macAddress (f x) = Device.macAddress x) ->
  keys_ok (db w) ->
  keys_ok (set_devices (db w) (map (fun x => if p x then f x else x) (devices (db w)))).
Proof.
  intros p f w Hfid Hfmac (Hid & Hmac & Hsid & Htok & Hdlt & Hslt).
  repeat split; cbn; rewrite ?map_if_ext by assumption; auto.
  intros x Hx. apply In_map_if in Hx. destruct Hx as (y & Hy & [-> | ->]);
    rewrite ?Hfid; apply Hdlt; exact Hy.
Qed.

Lemma keeps_device_update : forall did f,
  (forall x, Device.id (f x) = Device.id x) ->
  (forall x, Device.macAddress (f x) = Device.macAddress x) ->
  keeps_keys (device_update did f).
Proof.
  intros did f Hfid Hfmac w H. unfold device_update.
  destruct (device_findUnique (db w) did); [|exact H].
  cbn. apply keeps_devices_mapped; assumption.
Qed.

Lemma keeps_device_updateMany : forall p f,
  (forall x, Device.id (f x) = Device.id x) ->
  (forall x, Device.macAddress (f x) = Device.macAddress x) ->
  keeps_keys (device_updateMany p f).
Proof.
  intros p f Hfid Hfmac w H. unfold device_updateMany. cbn.
  apply keeps_devices_mapped; assumption.
Qed.

Lemma keeps_device_delete : forall did, keeps_keys (device_delete did).
Proof.
  intros did w H. unfold device_delete.
  destruct (device_findUnique (db w) did); [|exact H].
  destruct H as (Hid & Hmac & Hsid & Htok & Hdlt & Hslt).
  repeat split; cbn; auto using NoDup_map_filter.
  intros x Hx. apply filter_In in Hx. apply Hdlt. tauto.
Qed.

Lemma keeps_session_create : forall tok uid exp,
  keeps_keys (session_create tok uid exp).
Proof.
  intros tok uid exp w (Hid & Hmac & Hsid & Htok & Hdlt & Hslt).
  unfold session_create.
  destruct (token_taken (db w) tok None) eqn:Ht; cbn; [repeat split; assumption|].
  repeat split; cbn; rewrite ?map_app; auto.
  - apply NoDup_snoc; [exact Hsid|]. cbn. intro Hin. apply in_map_iff in Hin.
    destruct Hin as (y & Hy & Hin). specialize (Hslt y Hin). lia.
  - apply NoDup_snoc; [exact Htok|]. cbn. intro Hin. apply in_map_iff in Hin.
    destruct Hin as (y & Hy & Hin).
    exact (token_not_taken_None (db w) tok y Ht Hin Hy).
  - intros x Hx. specialize (Hdlt x Hx). lia.
  - intros s Hs. apply in_app_or in Hs. destruct Hs as [Hs | [<- | []]].
    + specialize (Hslt s Hs). lia.
    + cbn. lia.
Qed.

Lemma NoDup_tokens_after_update : forall (f : Session.t -> Session.t) sid l,
  (forall s, Session.id (f s) = Session.id s) ->
  NoDup (map Session.id l) ->
  NoDup (map Session.refreshToken l) ->
  (forall s y, In s l -> In y l -> Session.id s = sid -> Session.id y <> sid ->
               Session.refreshToken y <> Session.refreshToken (f s)) ->
  NoDup (map Session.refreshToken (map_session sid f l)).
Proof.
  intros f sid l Hfid. induction l as [|a t IH]; intros Hid Htok Hfree;
    [constructor|].
  cbn in Hid, Htok. inversion Hid as [|? ? Hanid Hid']; subst.
  inversion Htok as [|? ? Hantok Htok']; subst.
  cbn. constructor.
  - intro Hin. unfold map_session in Hin. rewrite map_map in Hin.
    apply in_map_iff in Hin. destruct Hin as (y & Hy & Hyin).
    destruct (Nat.eqb (Session.id a) sid) eqn:Ea;
      destruct (Nat.eqb (Session.id y) sid) eqn:Ey.
    + apply Nat.eqb_eq in Ea, Ey. apply Hanid. apply in_map_iff. exists y.
      split; [congruence | exact Hyin].
    + apply Nat.eqb_eq in Ea. apply Nat.eqb_neq in Ey.
      apply (Hfree a y); auto; [left; reflexivity | right; exact Hyin].
    + apply Nat.eqb_neq in Ea. apply Nat.eqb_eq in Ey.
      apply (Hfree y a); auto; [right; exact Hyin | left; reflexivity].
    + apply Hantok. apply in_map_iff. exists y. auto.
  - apply IH; auto. intros s y Hs Hy. apply Hfree; right; assumption.
Qed.

Lemma keeps_session_update : forall sid f,
  (forall s, Session.id (f s) = Session.id s) ->
  (forall s s', Session.refreshToken (f s) = Session.refreshToken (f s')
                \/ (forall x, Session.refreshToken (f x) = Session.refreshToken x)) ->
  keeps_keys (session_update sid f).
Proof.
  intros sid f Hfid Hftok w H. unfold session_update.
  destruct (session_findById (db w) sid) as [s0|] eqn:Hs0; [|exact H].
  destruct (token_taken (db w) (Session.refreshToken (f s0)) (Some sid)) eqn:Ht;
    [exact H|].
  destruct H as (Hid & Hmac & Hsid & Htok & Hdlt & Hslt).
  cbn. repeat split; cbn; auto.
  - unfold map_session. rewrite map_if_ext by assumption. exact Hsid.
  - apply NoDup_tokens_after_update; auto.
    intros s y Hs Hy Hsid' Hyid Heq.
    destruct (Hftok s s0) as [Hsame | Hkeep].
    + rewrite Hsame in Heq.
      pose proof (token_taken_false _ _ _ y Ht Hy Heq) as Hex. congruence.
    + rewrite Hkeep in Heq.
      assert (y = s)
        by (apply (NoDup_map_inj _ _ Session.refreshToken (sessions (db w))); auto).
      congruence.
  - intros s Hs. unfold map_session in Hs. apply In_map_if in Hs.
    destruct Hs as (y & Hy & [-> | ->]); rewrite ?Hfid; apply Hslt; exact Hy.
Qed.

Lemma keeps_session_updateMany : forall p f,
  (forall s, Session.id (f s) = Session.id s) ->
  (forall s, Session.refreshToken (f s) = Session.refreshToken s) ->
  keeps_keys (session_updateMany p f).
Proof.
  intros p f Hfid Hftok w (Hid & Hmac & Hsid & Htok & Hdlt & Hslt).
  unfold session_updateMany. cbn.
  repeat split; cbn; rewrite ?map_if_ext by assumption; auto.
  intros s Hs. apply In_map_if in Hs.
  destruct Hs as (y & Hy & [-> | ->]); rewrite ?Hfid; apply Hslt; exact Hy.
Qed.

Lemma keeps_connection_create : forall uid did addr t,
  keeps_keys (connection_create uid did addr t).
Proof.
  intros uid did addr t w (Hid & Hmac & Hsid & Htok & Hdlt & Hslt).
  unfold connection_create. cbn. repeat split; cbn; auto.
  - intros x Hx. specialize (Hdlt x Hx). lia.
  - intros s Hs. specialize (Hslt s Hs). lia.
Qed.

Lemma keeps_connection_updateMany : forall p f,
  keeps_keys (connection_updateMany p f).
Proof. intros p f w H. exact H. Qed.

Lemma keeps_auditLog_create : forall row, keeps_keys (auditLog_create row).
Proof. intros row w H. exact H. Qed.

Lemma keeps_user_update : forall uid f, keeps_keys (user_update uid f).
Proof.
  intros uid f w H. unfold user_update.
  destruct (user_findUnique (db w) uid); exact H.
Qed.

Ltac keeps_step env :=
  first
    [ apply keeps_ret
    | apply keeps_throw
    | apply keeps_get_db
    | apply keeps_execAsync
    | apply keeps_device_create
    | apply keeps_device_delete
    | apply keeps_session_create
    | apply keeps_connection_create
    | apply keeps_connection_updateMany
    | apply keeps_auditLog_create
    | apply keeps_user_update
    | apply keeps_device_update; intro; reflexivity
    | apply keeps_device_updateMany; intro; reflexivity
    | apply keeps_session_updateMany; intro; reflexivity
    | apply keeps_session_update;
      [intro; reflexivity | intros; (left; reflexivity) || (right; intro; reflexivity)]
    | apply keeps_bind; [|intro]
    | apply keeps_try_catch; [|intro]
    | apply keeps_forEach; intro
    | match goal with
      | |- keeps_keys (match ?x with _ => _ end) => destruct x
      | |- keeps_keys (if ?x then _ else _) => destruct x
      end ].

Ltac keeps env := cbv zeta; repeat keeps_step env.

Lemma keeps_grant : forall env mac addr, keeps_keys (addDeviceToWhitelist env mac addr).
Proof. intros. unfold addDeviceToWhitelist. keeps env. Qed.

Lemma keeps_revoke : forall env mac addr,
  keeps_keys (removeDeviceFromWhitelist env mac addr).
Proof. intros. unfold removeDeviceFromWhitelist. keeps env. Qed.

(** X22. The handlers keep the keys of the store in order.  From a store
    in which device ids, MAC addresses, session ids and refresh tokens
    occur once each (and ids are below the id counter), every one of
    login, refresh, logout, device rename, disconnect and delete,
    disconnect-all, password change and the administrator's user update
    ends, whatever it answers, in such a store again. *)
Theorem handlers_keep_keys_unique :
  forall env hash req w,
    keys_ok (db w) ->
    keys_ok (db (snd (asyncHandler (login env) req w)))
    /\ (forall token, keys_ok (db (snd (asyncHandler (refresh env token) req w))))
    /\ keys_ok (db (snd (asyncHandler (logout env) req w)))
    /\ keys_ok (db (snd (asyncHandler device_rename req w)))
    /\ keys_ok (db (snd (asyncHandler (device_disconnect env) req w)))
    /\ keys_ok (db (snd (asyncHandler (device_remove env) req w)))
    /\ keys_ok (db (snd (asyncHandler (adminMiddleware (disconnect_all env)) req w)))
    /\ (forall cur new,
          keys_ok (db (snd (asyncHandler (change_password env hash cur new) req w))))
    /\ (forall uid c, keys_ok (db (snd (admin_update_user env uid c req w)))).
Proof.
  intros env hash req w H.
  assert (Hasync : forall h, keeps_keys (h req) ->
                             keys_ok (db (snd (asyncHandler h req w)))).
  { intros h Hh. unfold asyncHandler. specialize (Hh w H).
    destruct (h req w) as [[r|e] w']; exact Hh. }
  split; [apply Hasync; unfold login; keeps env|].
  split; [intro token; apply Hasync; unfold refresh; keeps env|].
  split; [apply Hasync; unfold logout; keeps env|].
  split; [apply Hasync; unfold device_rename; keeps env|].
  split; [apply Hasync; unfold device_disconnect; keeps env|].
  split; [apply Hasync; unfold device_remove; keeps env|].
  split; [apply Hasync; unfold adminMiddleware, disconnect_all; keeps env|].
  split; [intros cur new; apply Hasync; unfold change_password; keeps env|].
  intros uid c.
  assert (Hk : keeps_keys (admin_update_user env uid c req)).
  { unfold admin_update_user. keeps env. }
  exact (Hk w H).
Qed.

Lemma handlers_keep_keys_unique_witness :
  keys_ok (db (snd (asyncHandler (login quietEnv) (request alice "0a0000000005" 6000)
                      world_one_device))).
Proof.
  assert (H0 : keys_ok (db world_one_device)).
  { unfold keys_ok.
    change (devices (db world_one_device))
      with [Device.mk 100 "0a:00:00:00:00:01" "0a0000000001" "Unknown Device" None 1
                      1000 true].
    change (sessions (db world_one_device))
      with [Session.mk 101 "ref.1.1" 1 604801000 true].
    change (nextId (db world_one_device)) with 103.
    cbn [map Device.id Device.macAddress Session.id Session.refreshToken].
    repeat split;
      try (constructor; [intros [] | constructor]);
      intros x [<- | []]; cbn; lia. }
  exact (proj1 (handlers_keep_keys_unique quietEnv (fun p => p)
                  (request alice "0a0000000005" 6000) world_one_device H0)).
Defined.

(** ** Errors on their way out *)

Lemma contains_ret : forall (A : Type) (a : A), contains_exec_errors (ret a).
Proof. intros A a w c. discriminate. Qed.

Lemma contains_throw : forall (A : Type) e,
  (forall c, e <> ExecError c) -> contains_exec_errors (@throw A e).
Proof. intros A e He w c H. inversion H. exact (He c H1). Qed.

Lemma contains_get_db : contains_exec_errors get_db.
Proof. intros w c. discriminate. Qed.

Lemma contains_bind : forall (A B : Type) (m : M A) (k : A -> M B),
  contains_exec_errors m -> (forall a, contains_exec_errors (k a)) ->
  contains_exec_errors (bind m k).
Proof.
  intros A B m k Hm Hk w c. unfold bind. specialize (Hm w c).
  destruct (m w) as [[a|e] w']; cbn in *; [apply Hk|].
  intro H. apply Hm. inversion H. reflexivity.
Qed.

Lemma contains_try_catch : forall (A : Type) (m : M A) (h : Exn -> M A),
  (forall e, contains_exec_errors (h e)) -> contains_exec_errors (try_catch m h).
Proof.
  intros A m h Hh w c. unfold try_catch.
  destruct (m w) as [[a|e] w']; cbn; [discriminate | apply Hh].
Qed.

Lemma contains_forEach : forall (A : Type) (l : list A) (f : A -> M unit),
  (forall a, contains_exec_errors (f a)) -> contains_exec_errors (forEach l f).
Proof.
  intros A l f Hf. induction l as [|x t IH]; cbn.
  - apply contains_ret.
  - apply contains_bind; [apply Hf | intros _; exact IH].
Qed.

Ltac contains_prim :=
  let w := fresh "w" in
  let c := fresh "c" in
  intros w c;
  unfold device_create, device_update, device_updateMany, device_delete,
    session_create, session_update, session_updateMany, connection_create,
    connection_updateMany, auditLog_create, user_update;
  repeat match goal with
         | |- context [match ?x with _ => _ end] => destruct x
         end;
  cbn; discriminate.

Ltac contains_step :=
  first
    [ apply contains_ret
    | apply contains_get_db
    | apply contains_throw; discriminate
    | apply contains_try_catch; intro
    | apply contains_bind; [|intro]
    | apply contains_forEach; intro
    | match goal with
      | |- contains_exec_errors (match ?x with _ => _ end) => destruct x
      | |- contains_exec_errors (if ?x then _ else _) => destruct x
      end
    | solve [contains_prim] ].

Ltac contains := cbv zeta; repeat contains_step.

(** X23. No failure of a filter command leaves a route as an exception:
    login, refresh, logout, the device routes, disconnect-all,
    initialize, password change and the administrator's user update
    either catch it or do not run commands, so the only exceptions that
    reach [errorHandler] from them are Prisma's and a [TypeError]. *)
Theorem routes_contain_exec_errors :
  forall env hash req,
    contains_exec_errors (login env req)
    /\ (forall token, contains_exec_errors (refresh env token req))
    /\ contains_exec_errors (logout env req)
    /\ contains_exec_errors (device_detail req)
    /\ contains_exec_errors (device_rename req)
    /\ contains_exec_errors (device_disconnect env req)
    /\ contains_exec_errors (device_remove env req)
    /\ contains_exec_errors (device_connections req)
    /\ contains_exec_errors (adminMiddleware (disconnect_all env) req)
    /\ contains_exec_errors (adminMiddleware (network_initialize env) req)
    /\ (forall cur new, contains_exec_errors (change_password env hash cur new req))
    /\ (forall uid c, contains_exec_errors (admin_update_user env uid c req)).
Proof.
  intros env hash req. repeat split; intros.
  - unfold login. contains.
  - unfold refresh. contains.
  - unfold logout. contains.
  - unfold device_detail. contains.
  - unfold device_rename. contains.
  - unfold device_disconnect. contains.
  - unfold device_remove. contains.
  - unfold device_connections. contains.
  - unfold adminMiddleware, disconnect_all. contains.
  - unfold adminMiddleware, network_initialize. contains.
  - unfold change_password. contains.
  - unfold admin_update_user. contains; unfold revoke_quietly; contains.
Qed.

(** X24. Outside development [errorHandler] gives nothing internal away:
    whenever it answers, the body has no [message] and no [stack] field,
    and unless the error is a validation error or brings a status of its
    own, the error text is one of eight fixed strings.  An error made by
    [createError] comes back with its status and message.  On a Prisma
    error or a [TypeError] it answers with the status and text that
    [asyncHandler] passes on for that exception; on the error of a failed
    child process, whose code is a number, it throws itself. *)
Theorem errorHandler_hides_internals :
  forall err,
    (forall r,
        errorHandlerFull false err = Some r ->
        eb_message (snd r) = None
        /\ eb_stack (snd r) = None
        /\ (e_name err <> "ValidationError" ->
            eb_details (snd r) = None
            /\ (truthy_status (e_status err) = None ->
                In (eb_error (snd r)) fixed_error_texts)))
    /\ (forall dev s m,
          s <> 0 -> s <> 429 -> m <> "" ->
          errorHandlerFull dev (createError s m) = Some (s, plain m))
    /\ (forall e t,
          (forall c, e <> ExecError c) ->
          body (errorHandler e) = JError t ->
          option_map (fun r => (fst r, eb_error (snd r)))
                     (errorHandlerFull false (jsError_of e))
          = Some (status (errorHandler e), t))
    /\ (forall dev c, errorHandlerFull dev (jsError_of (ExecError c)) = None).
Proof.
  intro err. split; [|split; [|split]].
  - intros r H. unfold errorHandlerFull in H.
    destruct (test_code (e_code err)) as [c| |]; [| |discriminate].
    + inversion H; subst r; clear H.
      destruct (String.eqb c "P2002"); [cbn; intuition|].
      destruct (String.eqb c "P2025"); [cbn; intuition|].
      destruct (String.eqb c "P2003"); cbn; intuition.
    + inversion H; subst r; clear H.
      destruct (String.eqb (e_name err) "ValidationError") eqn:Ev.
      { apply String.eqb_eq in Ev. cbn. intuition. }
      destruct (String.eqb (e_name err) "JsonWebTokenError"); [cbn; intuition|].
      destruct (String.eqb (e_name err) "TokenExpiredError"); [cbn; intuition|].
      destruct (e_status err) as [s|]; [|cbn; intuition].
      destruct (Nat.eqb s 429); [cbn; intuition|].
      destruct s as [|s]; cbn; [intuition|].
      repeat split; auto. discriminate.
  - intros dev s m Hs0 Hs429 Hm. unfold errorHandlerFull, createError.
    cbn [test_code e_code e_name e_status e_message String.eqb Ascii.eqb Bool.eqb].
    replace (Nat.eqb s 429) with false by (symmetry; apply Nat.eqb_neq; exact Hs429).
    destruct s as [|s]; [congruence|]. cbn [truthy_status].
    destruct m; [congruence | reflexivity].
  - intros e t He Hb. destruct e; cbn in *; inversion Hb; try reflexivity.
    exfalso. exact (He c eq_refl).
  - reflexivity.
Qed.

Lemma errorHandler_hides_internals_witness :
  errorHandlerFull false
    (mkErr None "TypeError" None "Cannot read properties of null (reading 'isActive')"
           "at /app/src/routes/auth.js:197:21" None [])
  = Some (500, plain "Internal server error")
  /\ errorHandlerFull true (createError 403 "Forbidden") = Some (403, plain "Forbidden").
Proof.
  split; [reflexivity|].
  apply (proj1 (proj2 (errorHandler_hides_internals (createError 403 "Forbidden")))
           true 403 "Forbidden"); discriminate.
Defined.

(** ** The quota, the other way round *)

Lemma quota_from_smaller_counts : forall env d d',
  quota_holds env d ->
  (forall uid, device_count_active d' uid <= device_count_active d uid) ->
  quota_holds env d'.
Proof.
  intros env d d' Hq Hle uid. specialize (Hq uid). specialize (Hle uid). lia.
Qed.

(** X25. Everything but the reactivation of a device keeps the quota.
    From a store in which no user has more active devices than the
    maximum, that still holds after a logout, a device disconnect, a
    device delete, a disconnect-all, a login whose fingerprint no device
    carries (it is refused at the maximum, else adds one device), and a
    login from a device that is already active. *)
Theorem quota_kept_outside_reactivation :
  forall env req w,
    quota_holds env (db w) ->
    quota_holds env (db (snd (asyncHandler (logout env) req w)))
    /\ quota_holds env (db (snd (asyncHandler (device_disconnect env) req w)))
    /\ quota_holds env (db (snd (asyncHandler (device_remove env) req w)))
    /\ quota_holds env (db (snd (disconnect_all env req w)))
    /\ (device_findUnique_mac (db w) (i_macAddress (getDeviceInfo env req)) = None ->
        quota_holds env (db (snd (asyncHandler (login env) req w))))
    /\ (forall u x,
          NoDup (map Device.id (devices (db w))) ->
          user_findFirst_login (db w) (bLogin req) = Some u ->
          comparePassword env (bPassword req) (User.password u) = true ->
          device_findUnique_mac (db w) (i_macAddress (getDeviceInfo env req)) = Some x ->
          Device.isActive x = true ->
          quota_holds env (db (snd (asyncHandler (login env) req w)))).
Proof.
  intros env req w Hq. repeat split.
  - apply (quota_from_smaller_counts env (db w)); [exact Hq|]. intro uid.
    rewrite logout_keeps_active_counts. constructor.
  - apply (quota_from_smaller_counts env (db w)); [exact Hq|]. intro uid.
    apply disconnect_lowers_active_counts.
  - apply (quota_from_smaller_counts env (db w)); [exact Hq|]. intro uid.
    apply delete_lowers_active_counts.
  - apply (quota_from_smaller_counts env (db w)); [exact Hq|]. intro uid.
    rewrite disconnect_all_clears_active_counts. lia.
  - intro Hnew. apply login_new_device_keeps_quota; assumption.
  - intros u x Hnd Hu Hpw Hx Hact.
    apply (quota_from_smaller_counts env (db w)); [exact Hq|]. intro uid.
    rewrite (login_active_device_keeps_counts env req w u x uid Hnd Hu Hpw Hx Hact).
    constructor.
Qed.

Lemma quota_kept_outside_reactivation_witness :
  quota_holds quietEnv
    (db (snd (asyncHandler (login quietEnv) (request alice "0a0000000005" 5000)
                world_at_quota))).
Proof.
  apply (proj1 (proj2 (proj2 (proj2 (proj2
           (quota_kept_outside_reactivation quietEnv
              (request alice "0a0000000005" 5000) world_at_quota
              ltac:(intro uid; unfold device_count_active, active_devices_of;
                    let ds := eval vm_compute in (devices (db world_at_quota)) in
                    change (devices (db world_at_quota)) with ds;
                    change (maxDevices quietEnv) with 4%Z;
                    cbn [filter Device.userId Device.isActive andb];
                    destruct (Nat.eqb 1 uid); cbn; lia))))))).
  reflexivity.
Defined.

(** ** The initialize route *)

Lemma initialize_failure_db : forall env w,
  db (snd (initializeCaptivePortal env w)) = db w.
Proof.
  intros env w.
  unfold initializeCaptivePortal, try_catch, bind, ret, throw, execAsync.
  cbn [run_command].
  repeat match goal with
         | |- context [execFails env ?c] =>
             destruct (execFails env c) eqn:?; cbn; [reflexivity|]
         end.
  reflexivity.
Qed.

(** X26. [POST /initialize] writes its audit entry only when the filter
    was rebuilt.  If [initializeCaptivePortal] resolves, the answer is
    200 and one [NETWORK_INITIALIZE] entry is appended to the audit log;
    if it throws, the answer is 500 with the error, and the store, audit
    log included, is as before, although the filter may already have
    been flushed. *)
Theorem network_initialize_audits_success_only :
  forall env req w,
    let w1 := snd (network_initialize env req w) in
    (fst (initializeCaptivePortal env w) = Ret tt ->
     fst (network_initialize env req w)
     = Ret (mkRes 200 (JMessage "Captive portal initialized successfully"))
     /\ auditLogs (db w1)
        = auditLogs (db w)
          ++ [AuditLog.mk "NETWORK_INITIALIZE" (User.id (user req)) (ip req)
                (hUserAgent req) NoDetails]
     /\ forward (fw w1) = basePolicy)
    /\ (forall e,
          fst (initializeCaptivePortal env w) = Throw e ->
          fst (network_initialize env req w)
          = Ret (mkRes 500 (JFailure "Failed to initialize captive portal" e))
          /\ db w1 = db w
          /\ fw w1 = fw (snd (initializeCaptivePortal env w))).
Proof.
  intros env req w w1. subst w1. split.
  - intro Hok.
    destruct (initialize_success_world env w Hok) as [Hfw Hdb].
    unfold network_initialize, try_catch, bind.
    destruct (initializeCaptivePortal env w) as [[[]|e] v]; [|discriminate].
    cbn in Hfw, Hdb |- *. rewrite Hfw, Hdb. cbn. auto.
  - intros e He.
    unfold network_initialize, try_catch, bind.
    destruct (initializeCaptivePortal env w) as [[[]|e'] v] eqn:E; [discriminate|].
    cbn in He. inversion He; subst e'. cbn. repeat split.
    pose proof (initialize_failure_db env w) as Hdb. rewrite E in Hdb. exact Hdb.
Qed.

Lemma network_initialize_audits_success_only_witness :
  fst (network_initialize noDenyEnv (request root "0a00000000ff" 9000)
         world_three_devices)
  = Ret (mkRes 500 (JFailure "Failed to initialize captive portal"
                      (ExecError (IptAppend FORWARD DropAll))))
  /\ db (snd (network_initialize noDenyEnv (request root "0a00000000ff" 9000)
                world_three_devices))
     = db world_three_devices.
Proof.
  destruct (proj2 (network_initialize_audits_success_only noDenyEnv
                     (request root "0a00000000ff" 9000) world_three_devices)
              (ExecError (IptAppend FORWARD DropAll)) eq_refl) as (H1 & H2 & _).
  split; [exact H1 | exact H2].
Defined.
